(** * The lab4 text-chat relay: wire codec, server protocol engine, client receive loop

    A shallow embedding of [src/lab4/server.c] and of the parts of
    [src/lab4/client.c] that talk to it.

    Conventions of the embedding.
    - A C string (the bytes of a [char] array before its terminator) is a
      [string]; [strcmp(a, b) == 0] is [String.eqb a b] and [strlen] is
      [String.length].
    - [unsigned int] is [N] below [2^32]; [int] is [Z].
    - The two linked lists are Rocq lists in link order.  A [client_t] node
      carries the address it was allocated at, because [remove_client]
      and the [client] argument of [process_message] identify a node by
      its pointer.
    - Writing to a socket is recorded in an effect log.
    - A [string] stands for a terminated array.  Where the code leaves an
      array without its terminator ([strncpy] of [MAX_NAME] bytes or more
      into [id], [session] or [session_id]; a field of a received line
      longer than the array [sscanf] stores it in) what the program reads
      next depends on the bytes that follow the array in memory, which are
      not represented: the statements that depend on such a read carry the
      bound under which it does not happen.
    - [process_message] is one call running alone.  The per-client threads
      take [clients_mutex] and [sessions_mutex] inside the list functions
      only, so another thread can run between two of them; [login_test] and
      [login_finish] are the two halves of the LOGIN case on either side of
      such a point, and a [run] is the schedule in which no thread runs
      inside the pass of another. *)

From Stdlib Require Import List String Ascii Bool Arith NArith ZArith Lia.
Import ListNotations.

Local Open Scope list_scope.
Local Open Scope string_scope.

(** ** Constants of both programs *)

Definition MAX_NAME : nat := 50.
Definition MAX_DATA : nat := 1024.
Definition LINE_BUFFER : nat := 2048.

Definition LOGIN : N := 1.
Definition LO_ACK : N := 2.
Definition LO_NAK : N := 3.
Definition EXIT : N := 4.
Definition JOIN : N := 5.
Definition JN_ACK : N := 6.
Definition JN_NAK : N := 7.
Definition LEAVE_SESS : N := 8.
Definition NEW_SESS : N := 9.
Definition NS_ACK : N := 10.
Definition MESSAGE : N := 11.
Definition QUERY : N := 12.
Definition QU_ACK : N := 13.

Definition UINT_MODULUS : N := 2 ^ 32.
Definition ULONG_MODULUS : N := 2 ^ 64.

(** [struct message]. *)
Record message : Set := mkMessage {
  type : N;
  size : N;
  source : string;
  data : string
}.

(** What fits in a [struct message]: two [unsigned int] and two terminated
    strings in arrays of [MAX_NAME] and [MAX_DATA] bytes. *)
Definition message_fits (m : message) : Prop :=
  (type m < UINT_MODULUS)%N /\ (size m < UINT_MODULUS)%N /\
  String.length (source m) < MAX_NAME /\ String.length (data m) < MAX_DATA.

(** [memset(&msg, 0, sizeof(msg))]. *)
Definition zero_message : message := mkMessage 0 0 "" "".

(** ** C library functions on strings *)

(** [strncpy(dst, src, n)] into an array of [n] bytes: the bytes stored,
    that is the first [n] bytes of [src].  When [src] has [n] bytes or more
    they fill the array and no terminator is stored: the result is then the
    content of the array, not a string the program can read back with
    [strcmp], [strlen] or [%s] (see [terminated]). *)
Definition strncpy (src : string) (n : nat) : string := substring 0 n src.

(** What [snprintf(buf, cap, ...)] leaves in [buf] when the formatted text
    is [text]: at most [cap - 1] bytes of it. *)
Definition snprintf (cap : nat) (text : string) : string :=
  substring 0 (cap - 1) text.

(** The [%u] conversion of [printf]: the decimal digits of an
    [unsigned int], least significant first, at most ten of them. *)
Definition digit_char (d : N) : ascii := ascii_of_N (48 + d).

Fixpoint fmt_digits (fuel : nat) (n : N) (acc : string) : string :=
  match fuel with
  | O => acc
  | S fuel' =>
      let acc' := String (digit_char (n mod 10)) acc in
      if (n / 10 =? 0)%N then acc' else fmt_digits fuel' (n / 10) acc'
  end.

Definition fmt_u (n : N) : string := fmt_digits 10 n "".

Definition newline : ascii := "010"%char.
Definition colon : ascii := ":"%char.

(** [isspace] in the C locale. *)
Definition isspace (c : ascii) : bool :=
  let n := N_of_ascii c in
  (n =? 32)%N || ((9 <=? n)%N && (n <=? 13)%N).

Fixpoint skip_space (s : string) : string :=
  match s with
  | String c s' => if isspace c then skip_space s' else s
  | EmptyString => s
  end.

Definition isdigit (c : ascii) : bool :=
  let n := N_of_ascii c in (48 <=? n)%N && (n <=? 57)%N.

(** The longest prefix of decimal digits, and what follows it. *)
Fixpoint scan_digits (s : string) : string * string :=
  match s with
  | String c s' =>
      if isdigit c then let (ds, rest) := scan_digits s' in (String c ds, rest)
      else ("", s)
  | EmptyString => ("", s)
  end.

(** The number a string of digits denotes, most significant digit first. *)
Fixpoint digits_value (acc : N) (ds : string) : N :=
  match ds with
  | String c ds' => digits_value (10 * acc + (N_of_ascii c - 48)) ds'
  | EmptyString => acc
  end.

(** What may follow a number for [scan_digits] to stop there. *)
Definition stops_digits (rest : string) : Prop :=
  match rest with
  | String c _ => isdigit c = false
  | EmptyString => True
  end.

(** The longest prefix without the byte [stop], and what follows it: the
    scan sets [%[^:]] and [%[^\n]]. *)
Fixpoint scan_until (stop : ascii) (s : string) : string * string :=
  match s with
  | String c s' =>
      if Ascii.eqb c stop then ("", s)
      else let (pre, rest) := scan_until stop s' in (String c pre, rest)
  | EmptyString => ("", s)
  end.

(** Every byte of [s] satisfies [P]. *)
Fixpoint string_forall (P : ascii -> bool) (s : string) : bool :=
  match s with
  | String c s' => P c && string_forall P s'
  | EmptyString => true
  end.

(** The byte [c] does not occur in [s]. *)
Definition without (c : ascii) (s : string) : bool :=
  string_forall (fun x => negb (Ascii.eqb x c)) s.

(** The terminator of a C string. *)
Definition NUL : ascii := "000"%char.

(** A [char] array read as a C string ([sscanf], [%s]): its bytes up to the
    first [NUL]. *)
Definition c_string (bytes : string) : string := fst (scan_until NUL bytes).

(** The string fits an array of [n] bytes with its terminator. *)
Definition terminated (s : string) (n : nat) : Prop := String.length s < n.

Inductive conversion (A : Type) : Type :=
  | InputFailure : conversion A
  | MatchingFailure : conversion A
  | Converted : A -> string -> conversion A.
Arguments InputFailure {A}.
Arguments MatchingFailure {A}.
Arguments Converted {A} _ _.

(** The [%u] conversion of [scanf]: white space is skipped, a sign is
    accepted, at least one digit is required.  The digits are converted as
    [strtoul] does, to an [unsigned long] of 64 bits that is negated after
    a [-] and stays at [ULONG_MAX] when the digits do not fit, and the
    result is stored in an [unsigned int] (C leaves a value that does not
    fit to the library; this is what the GNU library does). *)
Definition scan_u (s : string) : conversion N :=
  match skip_space s with
  | EmptyString => InputFailure
  | String c s' =>
      let negative := Ascii.eqb c "-"%char in
      let signed := negative || Ascii.eqb c "+"%char in
      let (ds, rest) := scan_digits (if signed then s' else String c s') in
      match ds with
      | EmptyString => MatchingFailure
      | _ =>
          let v := (digits_value 0 ds mod UINT_MODULUS)%N in
          Converted
            (if (ULONG_MODULUS <=? digits_value 0 ds)%N then (UINT_MODULUS - 1)%N
             else if negative then ((UINT_MODULUS - v) mod UINT_MODULUS)%N else v) rest
      end
  end.

Definition set_type (m : message) (v : N) := mkMessage v (size m) (source m) (data m).
Definition set_size (m : message) (v : N) := mkMessage (type m) v (source m) (data m).
Definition set_source (m : message) (v : string) := mkMessage (type m) (size m) v (data m).
Definition set_data (m : message) (v : string) := mkMessage (type m) (size m) (source m) v.

(** [sscanf(buffer, "%u:%u:%[^:]:%[^\n]", &msg.type, &msg.size, msg.source, msg.data)]
    on the C string [buffer]: the number of conversions made ([-1] for
    [EOF]) and [msg] with the converted fields stored.  The two scan sets
    have no width: a third field of [MAX_NAME] bytes or more, or a fourth
    of [MAX_DATA] bytes or more, is written past its array, and what [msg]
    then reads as is not what is returned here; the result is the content
    of [msg] for the lines whose fields fit ([message_fits]). *)
Definition sscanf_message (buffer : string) (msg : message) : Z * message :=
  match scan_u buffer with
  | InputFailure => ((-1)%Z, msg)
  | MatchingFailure => (0%Z, msg)
  | Converted t r1 =>
      let msg := set_type msg t in
      match r1 with
      | String ":" r2 =>
          match scan_u r2 with
          | Converted sz r3 =>
              let msg := set_size msg sz in
              match r3 with
              | String ":" r4 =>
                  match scan_until colon r4 with
                  | (EmptyString, _) => (2%Z, msg)
                  | (src, r5) =>
                      let msg := set_source msg src in
                      match r5 with
                      | String ":" r6 =>
                          match scan_until newline r6 with
                          | (EmptyString, _) => (3%Z, msg)
                          | (d, _) => (4%Z, set_data msg d)
                          end
                      | _ => (3%Z, msg)
                      end
                  end
              | _ => (2%Z, msg)
              end
          | _ => (1%Z, msg)
          end
      | _ => (1%Z, msg)
      end
  end.

(** The text [snprintf] formats from ["%u:%u:%s:%s\n"]. *)
Definition frame_text (msg : message) : string :=
  fmt_u (type msg) ++ ":" ++ fmt_u (size msg) ++ ":" ++ source msg ++ ":" ++
  data msg ++ String newline "".

(** The line of a frame, without its newline. *)
Definition frame_line (m : message) : string :=
  fmt_u (type m) ++ ":" ++ fmt_u (size m) ++ ":" ++ source m ++ ":" ++ data m.

(** Effects on the outside world. *)
Inductive effect : Set :=
  | Send (sockfd : Z) (bytes : string)
  | Stderr (text : string).

(** [send_message_to_client] (and the client's [send_message]): the frame is
    formatted into a buffer of [LINE_BUFFER] bytes and sent.  (A frame
    longer than the buffer is cut at [LINE_BUFFER - 1] bytes; the bytes
    [send] would read past the buffer are not represented.) *)
Definition send_message_to_client (sockfd : Z) (msg : message) : list effect :=
  [Send sockfd (snprintf LINE_BUFFER (frame_text msg))].

(** [read_line]: bytes are received one at a time until a newline, the end
    of the room in the buffer, or a failed [recv].  The socket is the string
    of bytes still to arrive, followed by the peer's shutdown ([recv]
    returns 0).  [None] is that failed [recv]. *)
Fixpoint read_line_loop (room : nat) (sock : string) : option (string * string) :=
  match room with
  | O => Some ("", sock)
  | S room' =>
      match sock with
      | EmptyString => None
      | String ch rest =>
          if Ascii.eqb ch newline then Some ("", rest)
          else match read_line_loop room' rest with
               | Some (buf, r) => Some (String ch buf, r)
               | None => None
               end
      end
  end.

(** The value returned, the buffer, and the bytes still to arrive. *)
Definition read_line (sock : string) (max_len : nat) : Z * string * string :=
  match read_line_loop (max_len - 1) sock with
  | Some (buf, rest) => (Z.of_nat (String.length buf), buf, rest)
  | None => (0%Z, "", "")
  end.

(** ** The server ([server.c]) *)

(** The address of a [client_t] obtained from [malloc]. *)
Definition ptr : Set := nat.

(** [client_t].  [addr] is where the node lives; [next] is the list order. *)
Record client_t : Set := mkClient {
  addr : ptr;
  sockfd : Z;
  id : string;
  session : string
}.

(** The process-wide state: [client_list] and [session_list] (the
    [session_id] of each [session_t] node). *)
Record server : Set := mkServer {
  client_list : list client_t;
  session_list : list string
}.

Definition initial_server : server := mkServer [] [].

(** [allowed_users]. *)
Definition allowed_users : list (string * string) :=
  [("ken", "12345"); ("andy", "12345")].

Definition is_valid_user (id' password : string) : bool :=
  existsb (fun u => String.eqb (fst u) id' && String.eqb (snd u) password) allowed_users.

Definition is_already_logged_in (id' : string) (st : server) : bool :=
  existsb (fun cur => String.eqb (id cur) id') (client_list st).

Definition add_client (client : client_t) (st : server) : server :=
  mkServer (client :: client_list st) (session_list st).

(** Unlink the first node whose address is [p]. *)
Fixpoint unlink_client (p : ptr) (l : list client_t) : list client_t :=
  match l with
  | [] => []
  | cur :: l' => if Nat.eqb (addr cur) p then l' else cur :: unlink_client p l'
  end.

Definition remove_client (p : ptr) (st : server) : server :=
  mkServer (unlink_client p (client_list st)) (session_list st).

Definition find_session (session_id : string) (st : server) : bool :=
  existsb (fun cur => String.eqb cur session_id) (session_list st).

Definition add_session (session_id : string) (st : server) : server :=
  mkServer (client_list st) (strncpy session_id MAX_NAME :: session_list st).

Definition session_has_clients (session_id : string) (st : server) : bool :=
  existsb (fun cur => String.eqb (session cur) session_id) (client_list st).

(** Unlink (and free) the first session node named [session_id]. *)
Fixpoint unlink_session (session_id : string) (l : list string) : list string :=
  match l with
  | [] => []
  | cur :: l' =>
      if String.eqb cur session_id then l' else cur :: unlink_session session_id l'
  end.

Definition remove_session_if_empty (session_id : string) (st : server) : server :=
  if session_has_clients session_id st then st
  else mkServer (client_list st) (unlink_session session_id (session_list st)).

Definition broadcast_message (session_id : string) (msg : message) (sender : string)
    (st : server) : list effect :=
  flat_map
    (fun cur =>
       if String.eqb (session cur) session_id && negb (String.eqb (id cur) sender)
       then send_message_to_client (sockfd cur) msg
       else [])
    (client_list st).

(** Reading and writing through a [client_t *]: the node at that address is
    the one linked in [client_list], so a write is seen by every walk of the
    list. *)
Definition deref (p : ptr) (st : server) : option client_t :=
  find (fun cur => Nat.eqb (addr cur) p) (client_list st).

Fixpoint store (p : ptr) (f : client_t -> client_t) (l : list client_t) : list client_t :=
  match l with
  | [] => []
  | cur :: l' => if Nat.eqb (addr cur) p then f cur :: l' else cur :: store p f l'
  end.

Definition set_id (v : string) (c : client_t) : client_t :=
  mkClient (addr c) (sockfd c) v (session c).
Definition set_session (v : string) (c : client_t) : client_t :=
  mkClient (addr c) (sockfd c) (id c) v.

Definition write_id (p : ptr) (v : string) (st : server) : server :=
  mkServer (store p (set_id v) (client_list st)) (session_list st).
Definition write_session (p : ptr) (v : string) (st : server) : server :=
  mkServer (store p (set_session v) (client_list st)) (session_list st).

(** The reply under construction: zeroed, with source ["server"]. *)
Definition reply0 : message := set_source zero_message (strncpy "server" MAX_NAME).

(** [snprintf(reply.data, MAX_DATA, text); reply.size = strlen(reply.data)]
    with [reply.type] set to [t]. *)
Definition reply_text (t : N) (text : string) : message :=
  let d := snprintf MAX_DATA text in
  set_size (set_data (set_type reply0 t) d) (N.of_nat (String.length d)).

(** One line of the QUERY listing: [snprintf] into [char line[128]]. *)
Definition query_line (cur : client_t) : string :=
  snprintf 128
    (id cur ++ " (session: " ++
     (if Nat.eqb (String.length (session cur)) 0 then "None" else session cur) ++ "), ").

(** The [list] buffer of the QUERY case after all the [strcat]s, which do
    not look at the room left: this is the content of [char list[MAX_DATA]]
    as long as the listing is shorter than [MAX_DATA] bytes; a longer one is
    written past the buffer (see [listing_fits]). *)
Definition query_list (st : server) : string :=
  "Clients: " ++ String.concat "" (map query_line (client_list st)) ++
  " Sessions: " ++ String.concat "" (map (fun sess => sess ++ ", ") (session_list st)).

(** [process_message(client, msg)]: the state afterwards and the effects, or
    [None] when [client] is not the address of a linked node
    ([handle_client] links the node before its loop and unlinks it after). *)
Definition process_message (client : ptr) (msg : message) (st : server)
    : option (server * list effect) :=
  match deref client st with
  | None => None
  | Some c =>
    Some (
      if (type msg =? LOGIN)%N then
        if is_valid_user (source msg) (data msg)
           && negb (is_already_logged_in (source msg) st)
        then (write_id client (strncpy (source msg) MAX_NAME) st,
              send_message_to_client (sockfd c) (reply_text LO_ACK "Login successful"))
        else (st,
              send_message_to_client (sockfd c)
                (reply_text LO_NAK "Invalid credentials or already logged in"))
      else if (type msg =? EXIT)%N then
        let st1 :=
          if Nat.ltb 0 (String.length (session c)) then
            let st' := write_session client "" st in
            (* [client->session] is read again after the [memset] *)
            remove_session_if_empty
              (match deref client st' with Some c' => session c' | None => "" end) st'
          else st in
        (st1, send_message_to_client (sockfd c) (set_type reply0 EXIT))
      else if (type msg =? JOIN)%N then
        if negb (find_session (data msg) st) then
          (st, send_message_to_client (sockfd c) (reply_text JN_NAK "Session does not exist"))
        else if negb (Nat.eqb (String.length (session c)) 0) then
          (st, send_message_to_client (sockfd c) (reply_text JN_NAK "Already in a session"))
        else
          (write_session client (strncpy (data msg) MAX_NAME) st,
           send_message_to_client (sockfd c) (reply_text JN_ACK "Joined session"))
      else if (type msg =? NEW_SESS)%N then
        if negb (Nat.eqb (String.length (session c)) 0) then
          (st, send_message_to_client (sockfd c) (reply_text NS_ACK "Already in a session"))
        else if find_session (data msg) st then
          (st, send_message_to_client (sockfd c) (reply_text NS_ACK "Session already exists"))
        else
          (write_session client (strncpy (data msg) MAX_NAME) (add_session (data msg) st),
           send_message_to_client (sockfd c) (reply_text NS_ACK "Session created"))
      else if (type msg =? LEAVE_SESS)%N then
        if Nat.eqb (String.length (session c)) 0 then
          (st, send_message_to_client (sockfd c) (reply_text LEAVE_SESS "Not in a session"))
        else
          (remove_session_if_empty (data msg) (write_session client "" st),
           send_message_to_client (sockfd c) (reply_text LEAVE_SESS "Left session"))
      else if (type msg =? MESSAGE)%N then
        (st,
         if Nat.ltb 0 (String.length (session c))
         then broadcast_message (session c) msg (id c) st
         else [])
      else if (type msg =? QUERY)%N then
        let d := strncpy (query_list st) MAX_DATA in
        (st,
         send_message_to_client (sockfd c)
           (set_size (set_data (set_type reply0 QU_ACK) d) (N.of_nat (String.length d))))
      else (st, []))
  end.

(** The arrays of the registry hold terminated strings. *)
Definition registry_terminated (st : server) : Prop :=
  (forall cur, In cur (client_list st) ->
     terminated (id cur) MAX_NAME /\ terminated (session cur) MAX_NAME) /\
  (forall sess, In sess (session_list st) -> terminated sess MAX_NAME).

(** The QUERY listing fits [char list[MAX_DATA]] with its terminator. *)
Definition listing_fits (st : server) : Prop := terminated (query_list st) MAX_DATA.

(** The LOGIN case of [process_message] on either side of the point where
    [clients_mutex] is free: [is_already_logged_in] takes the mutex and
    gives it back before it returns, and [client->id] is written after
    that, without it.  [login_test] is the condition of the [if];
    [login_finish] is the rest of the case once the condition has been
    evaluated to [passed], in the state the other threads have left. *)
Definition login_test (msg : message) (st : server) : bool :=
  is_valid_user (source msg) (data msg) && negb (is_already_logged_in (source msg) st).

Definition login_finish (client : ptr) (msg : message) (passed : bool) (st : server)
    : option (server * list effect) :=
  match deref client st with
  | None => None
  | Some c =>
    Some (
      if passed
      then (write_id client (strncpy (source msg) MAX_NAME) st,
            send_message_to_client (sockfd c) (reply_text LO_ACK "Login successful"))
      else (st,
            send_message_to_client (sockfd c)
              (reply_text LO_NAK "Invalid credentials or already logged in")))
  end.

(** One pass through the body of the [while] loop of [handle_client], for
    the C string [read_line] left in [buffer]: the state, the effects, and
    whether the loop goes on to read the next line. *)
Definition handle_frame (client : ptr) (buffer : string) (st : server)
    : option (server * list effect * bool) :=
  let (fields, msg) := sscanf_message buffer zero_message in
  if (fields <? 3)%Z then
    Some (st, [Stderr ("Malformed message: " ++ buffer ++ String newline "")], true)
  else
    match process_message client msg st with
    | Some (st', out) => Some (st', out, negb (type msg =? EXIT)%N)
    | None => None
    end.

(** The [while] loop of [handle_client] on the bytes still to arrive.  The
    bytes of a line can hold a [NUL]; [sscanf] and [fprintf] read the buffer
    as a C string.  Each pass that does not leave the loop has taken at
    least one byte, so [fuel] bounds the passes; [None] is fuel exhausted
    (or a node that is not linked). *)
Fixpoint handle_client_loop (fuel : nat) (client : ptr) (sock : string) (st : server)
    : option (server * list effect) :=
  let '(n, buffer, rest) := read_line sock LINE_BUFFER in
  if (0 <? n)%Z then
    match fuel with
    | O => None
    | S fuel' =>
        match handle_frame client (c_string buffer) st with
        | Some (st', out, true) =>
            match handle_client_loop fuel' client rest st' with
            | Some (st'', out') => Some (st'', (out ++ out')%list)
            | None => None
            end
        | Some (st', out, false) => Some (st', out)
        | None => None
        end
    end
  else Some (st, []).

(** [handle_client] run from accept to teardown with no other thread in
    between: the node allocated at [client] is linked, the loop runs, the
    node is unlinked. *)
Definition handle_client (fd : Z) (client : ptr) (sock : string) (st : server)
    : option (server * list effect) :=
  match handle_client_loop (String.length sock) client sock
          (add_client (mkClient client fd "" "") st) with
  | Some (st', out) => Some (remove_client client st', out)
  | None => None
  end.

(** What the threads do to the shared state, one pass of a thread at a
    time: a [Frame] is a whole pass through the loop of one thread with no
    other thread running inside it. *)
Inductive event : Set :=
  | Accept (client : ptr) (fd : Z)
      (* a thread enters [handle_client]: [malloc] returns [client], [add_client] *)
  | Frame (client : ptr) (buffer : string)
      (* the thread of [client]: [read_line] returned more than 0 with these
         bytes; one pass of the loop, and the teardown if the loop is left *)
  | Hangup (client : ptr)
      (* the thread of [client]: [read_line] returned 0 or less; teardown *).

Definition exec_event (e : event) (st : server) : option (server * list effect) :=
  match e with
  | Accept client fd =>
      match deref client st with
      | Some _ => None   (* [malloc] does not return the address of a live node *)
      | None => Some (add_client (mkClient client fd "" "") st, [])
      end
  | Frame client buffer =>
      if Nat.eqb (String.length buffer) 0 then None
      else match handle_frame client (c_string buffer) st with
           | Some (st', out, true) => Some (st', out)
           | Some (st', out, false) => Some (remove_client client st', out)
           | None => None
           end
  | Hangup client =>
      match deref client st with
      | Some _ => Some (remove_client client st, [])
      | None => None
      end
  end.

(** A run of events; [None] when one of them cannot happen. *)
Fixpoint run (tr : list event) (st : server) : option (server * list effect) :=
  match tr with
  | [] => Some (st, [])
  | e :: tr' =>
      match exec_event e st with
      | Some (st', out) =>
          match run tr' st' with
          | Some (st'', out') => Some (st'', (out ++ out')%list)
          | None => None
          end
      | None => None
      end
  end.

(** I1 of the data model: the identifiers of the logged-in clients (those
    with a non-empty [id]) are pairwise different. *)
Definition logged (i : string) : bool := negb (String.eqb i "").

Definition logged_in_ids (st : server) : list string :=
  filter logged (map id (client_list st)).

Definition unique_ids (st : server) : Prop := NoDup (logged_in_ids st).

(** Distinct nodes live at distinct addresses. *)
Definition distinct_nodes (st : server) : Prop := NoDup (map addr (client_list st)).

(** The LOGIN a frame event completes in state [st], if it does: the node
    and the identifier it is given. *)
Definition successful_login (e : event) (st : server) : option (ptr * string) :=
  match e with
  | Frame client buffer =>
      let (fields, msg) := sscanf_message (c_string buffer) zero_message in
      if (3 <=? fields)%Z && (type msg =? LOGIN)%N
         && is_valid_user (source msg) (data msg)
         && negb (is_already_logged_in (source msg) st)
      then Some (client, strncpy (source msg) MAX_NAME)
      else None
  | _ => None
  end.

(** In the run [tr] from the initial state, the connection at [client]
    completed a successful LOGIN as [i], and its node was not allocated
    anew since. *)
Definition logged_in_during (tr : list event) (client : ptr) (i : string) : Prop :=
  exists pre e post st_pre out_pre,
    tr = (pre ++ e :: post)%list /\
    run pre initial_server = Some (st_pre, out_pre) /\
    successful_login e st_pre = Some (client, i) /\
    forall fd, ~ In (Accept client fd) post.

(** The frame event is an EXIT that [handle_client] processes. *)
Definition exit_frame (e : event) (client : ptr) : Prop :=
  exists buffer,
    e = Frame client buffer /\
    (3 <= fst (sscanf_message (c_string buffer) zero_message))%Z /\
    type (snd (sscanf_message (c_string buffer) zero_message)) = EXIT.

(** I2 of the data model: a client's current session, when it has one, is
    the name of a registered session. *)
Definition sessions_registered (st : server) : Prop :=
  forall c, In c (client_list st) -> session c <> "" -> In (session c) (session_list st).

(** ** The client ([client.c]) *)

Module Client.

(** The globals of the client. *)
Record state : Set := mkState {
  sockfd : Z;
  loggedIn : bool;
  current_session : string;
  pending_session : string;
  client_id : string
}.

Inductive output : Set :=
  | Stdout (text : string)
  | SendLine (sockfd : Z) (bytes : string).

Definition send_message (fd : Z) (msg : message) : list output :=
  [SendLine fd (snprintf LINE_BUFFER (frame_text msg))].

(** The [switch] of [receive_handler]. *)
Definition receive_switch (msg : message) (cs : state) : state * list output :=
  if (type msg =? LO_NAK)%N then
    (cs, [Stdout ("[warning]: " ++ data msg ++ String newline "")])
  else if (type msg =? JN_ACK)%N then
    let cur := strncpy (pending_session cs) MAX_NAME in
    (mkState (sockfd cs) (loggedIn cs) cur "" (client_id cs),
     [Stdout ("Current session: " ++ cur ++ String newline "")])
  else if (type msg =? JN_NAK)%N then
    (mkState (sockfd cs) (loggedIn cs) (current_session cs) "" (client_id cs),
     [Stdout ("[warning]: " ++ data msg ++ String newline "")])
  else if (type msg =? NS_ACK)%N then
    if String.eqb (data msg) "Session created" then
      let cur := strncpy (pending_session cs) MAX_NAME in
      (mkState (sockfd cs) (loggedIn cs) cur "" (client_id cs),
       [Stdout ("Current session: " ++ cur ++ String newline "")])
    else
      (mkState (sockfd cs) (loggedIn cs) (current_session cs) "" (client_id cs),
       [Stdout ("[warning]: " ++ data msg ++ String newline "")])
  else if (type msg =? QU_ACK)%N then
    (cs, [Stdout (data msg ++ String newline "")])
  else if (type msg =? MESSAGE)%N then
    (cs, [Stdout ("[" ++ source msg ++ "]: " ++ data msg ++ String newline "")])
  else (cs, []).

(** One pass of the loop of [receive_handler] for the C string of a line
    read with more than 0 bytes.  [msg] is not initialised there: [uninit]
    is what its storage holds. *)
Definition receive_frame (buffer : string) (uninit : message) (cs : state)
    : state * list output :=
  let (fields, msg) := sscanf_message buffer uninit in
  if (fields <? 3)%Z then (cs, []) else receive_switch msg cs.

Definition handle_leave_session (cs : state) : state * list output :=
  if negb (loggedIn cs) then (cs, [])
  else if Nat.eqb (String.length (current_session cs)) 0 then
    (cs, [Stdout ("[warning]: Not join any session yet." ++ String newline "")])
  else
    let msg := mkMessage LEAVE_SESS 0 (strncpy (client_id cs) MAX_NAME) "" in
    (mkState (sockfd cs) (loggedIn cs) "" (pending_session cs) (client_id cs),
     send_message (sockfd cs) msg).

Definition handle_create_session (session_id : string) (cs : state) : state * list output :=
  if negb (loggedIn cs) then (cs, [])
  else if negb (Nat.eqb (String.length (current_session cs)) 0) then
    (cs, [Stdout ("[warning]: Leave current session to create a new one." ++ String newline "")])
  else
    let d := strncpy session_id MAX_DATA in
    let msg := mkMessage NEW_SESS (N.of_nat (String.length d))
                 (strncpy (client_id cs) MAX_NAME) d in
    (mkState (sockfd cs) (loggedIn cs) (current_session cs)
       (strncpy session_id MAX_NAME) (client_id cs),
     send_message (sockfd cs) msg).

Definition handle_join_session (session_id : string) (cs : state) : state * list output :=
  if negb (loggedIn cs) then (cs, [])
  else
    let d := strncpy session_id MAX_DATA in
    let msg := mkMessage JOIN (N.of_nat (String.length d))
                 (strncpy (client_id cs) MAX_NAME) d in
    (mkState (sockfd cs) (loggedIn cs) (current_session cs)
       (strncpy session_id MAX_NAME) (client_id cs),
     send_message (sockfd cs) msg).

Definition handle_list (cs : state) : state * list output :=
  if negb (loggedIn cs) then (cs, [])
  else (cs, send_message (sockfd cs)
              (mkMessage QUERY 0 (strncpy (client_id cs) MAX_NAME) "")).

Definition handle_logout (cs : state) : state * list output :=
  if negb (loggedIn cs) then (cs, [])
  else (mkState (-1) false "" "" (client_id cs),
        send_message (sockfd cs)
          (mkMessage EXIT 0 (strncpy (client_id cs) MAX_NAME) "")).

(** What [socket], [inet_pton] and [connect] of [handle_login] come to; the
    descriptor is the one [socket] returned. *)
Inductive connecting : Set :=
  | SocketFailed
  | InvalidAddress (fd : Z)
  | ConnectionFailed (fd : Z)
  | Connected (fd : Z).

(** The outside of the client during one command: how a [/login] would
    connect, and whether [send] succeeds. *)
Record world : Set := mkWorld {
  connect : connecting;
  send_ok : bool
}.

Definition warning (text : string) : output :=
  Stdout ("[warning]: " ++ text ++ String newline "").

(** [handle_login]; the address and the port only reach [inet_pton] and
    [connect], which are in [w].  (The receive thread it starts is
    [receive_pass] below, run by the caller.) *)
Definition handle_login (w : world) (clientID password : string) (cs : state)
    : state * list output :=
  let cid := strncpy clientID MAX_NAME in
  let with_fd fd := mkState fd (loggedIn cs) (current_session cs) (pending_session cs) cid in
  match connect w with
  | SocketFailed => (with_fd (-1)%Z, [warning "Socket creation failed."])
  | InvalidAddress fd => (with_fd fd, [warning "Invalid address."])
  | ConnectionFailed fd => (with_fd fd, [warning "Connection failed."])
  | Connected fd =>
      let d := strncpy password MAX_DATA in
      let msg := mkMessage LOGIN (N.of_nat (String.length d)) (strncpy cid MAX_NAME) d in
      if send_ok w then
        (mkState fd true (current_session cs) (pending_session cs) cid, send_message fd msg)
      else (with_fd fd, [warning "send_message failed."])
  end.

(** The successive results of [strtok(input, " ")], [strtok(NULL, " ")],
    ...: the maximal runs of bytes other than a space.  [tok] is the run
    being read. *)
Fixpoint split_spaces (s : string) (tok : string) : list string :=
  match s with
  | String c s' =>
      if Ascii.eqb c " "%char then
        match tok with
        | EmptyString => split_spaces s' ""
        | _ => tok :: split_spaces s' ""
        end
      else split_spaces s' (tok ++ String c "")
  | EmptyString =>
      match tok with
      | EmptyString => []
      | _ => [tok]
      end
  end.

Definition strtok_all (input : string) : list string := split_spaces input "".

Definition command_list : string :=
  "Use one of the following commands:" ++ String newline
  ("/logout" ++ String newline ("/joinsession" ++ String newline
  ("/leavesession" ++ String newline ("/createsession" ++ String newline
  ("/list" ++ String newline "/quit"))))).

(** One pass through the loop of [main] for the line [fgets] read ([raw],
    with its newline if it had one): the state, the output, and whether the
    loop goes on ([false] after [/quit], which exits). *)
Definition main_pass (w : world) (raw : string) (cs : state)
    : state * list output * bool :=
  let input := fst (scan_until newline raw) in
  let go (r : state * list output) := (r, true) in
  let slash := match input with
               | String c _ => Ascii.eqb c "/"%char
               | EmptyString => false
               end in
  if slash then
      match strtok_all input with
      | [] => go (cs, [])   (* not reached: [input] starts with a byte that is not a space *)
      | command :: args =>
          if String.eqb command "/login" then
            match args with
            | clientID :: password :: _ :: _ :: _ => go (handle_login w clientID password cs)
            | _ => go (cs, [warning "Usage: /login <client ID> <password> <server-IP> <server-port>"])
            end
          else if String.eqb command "/logout" then
            if negb (loggedIn cs) then go (cs, [warning "Not logged in."])
            else go (handle_logout cs)
          else if String.eqb command "/joinsession" then
            if negb (loggedIn cs) then go (cs, [warning "You must login first."])
            else if negb (Nat.eqb (String.length (current_session cs)) 0) then
              go (cs, [warning "Already in a session. Leave current session before joining another."])
            else match args with
                 | session_id :: _ => go (handle_join_session session_id cs)
                 | [] => go (cs, [warning "Usage: /joinsession <session ID>"])
                 end
          else if String.eqb command "/leavesession" then
            if negb (loggedIn cs) then go (cs, [warning "You must login first."])
            else if Nat.eqb (String.length (current_session cs)) 0 then
              go (cs, [warning "Not join any session yet."])
            else go (handle_leave_session cs)
          else if String.eqb command "/createsession" then
            if negb (loggedIn cs) then go (cs, [warning "You must login first."])
            else if negb (Nat.eqb (String.length (current_session cs)) 0) then
              go (cs, [warning "Leave current session to create a new one."])
            else match args with
                 | session_id :: _ => go (handle_create_session session_id cs)
                 | [] => go (cs, [warning "Usage: /createsession <session ID>"])
                 end
          else if String.eqb command "/list" then
            if negb (loggedIn cs) then go (cs, [warning "You must login first."])
            else go (handle_list cs)
          else if String.eqb command "/quit" then
            (if loggedIn cs then handle_logout cs else (cs, []), false)
          else go (cs, [warning command_list])
      end
  else
      if negb (loggedIn cs) then go (cs, [warning "You must login first."])
      else if Nat.eqb (String.length (current_session cs)) 0 then
        go (cs, [warning "Not join any session yet."])
      else
        let d := strncpy input MAX_DATA in
        let msg := mkMessage MESSAGE (N.of_nat (String.length d))
                     (strncpy (client_id cs) MAX_NAME) d in
        if send_ok w then go (cs, send_message (sockfd cs) msg)
        else go (cs, [warning "send_message failed."]).

(** One pass through the loop of [receive_handler] on the bytes still to
    arrive from the server: the state, the output, and the bytes left, or
    [None] when the loop is left. *)
Definition receive_pass (sock : string) (uninit : message) (cs : state)
    : state * list output * option string :=
  let '(n, buffer, rest) := read_line sock LINE_BUFFER in
  if (n <=? 0)%Z then
    (mkState (sockfd cs) false (current_session cs) (pending_session cs) (client_id cs),
     [Stdout ("Disconnected from server." ++ String newline "")], None)
  else
    let (cs', out) := receive_frame (c_string buffer) uninit cs in (cs', out, Some rest).

(** The lines a run of the client put on its socket. *)
Definition sent (out : list output) : list string :=
  flat_map (fun o => match o with SendLine _ bytes => [bytes] | Stdout _ => [] end) out.

End Client.

(** * Properties *)

(** The [switch] of [process_message] on a known type. *)
Ltac switch_on Ht :=
  rewrite Ht in *;
  cbn [N.eqb Pos.eqb LOGIN EXIT JOIN LEAVE_SESS NEW_SESS MESSAGE QUERY] in *.

(** ** Strings and the scanner *)

Lemma string_app_nil_r (s : string) : s ++ "" = s.
Proof. induction s as [|c s IH]; simpl; [reflexivity | now rewrite IH]. Qed.

Lemma string_app_assoc (a b c : string) : (a ++ b) ++ c = a ++ b ++ c.
Proof. induction a as [|x a IH]; simpl; [reflexivity | now rewrite IH]. Qed.

Lemma string_length_app (a b : string) :
  String.length (a ++ b) = String.length a + String.length b.
Proof. induction a as [|x a IH]; simpl; [reflexivity | now rewrite IH]. Qed.

Lemma string_forall_app P (a b : string) :
  string_forall P (a ++ b) = string_forall P a && string_forall P b.
Proof.
  induction a as [|x a IH]; simpl; [reflexivity|].
  now rewrite IH, andb_assoc.
Qed.

Lemma substring_whole (s : string) (n : nat) :
  String.length s <= n -> substring 0 n s = s.
Proof.
  revert n; induction s as [|c s IH]; intros [|n] H; simpl in *; try reflexivity; try lia.
  now rewrite IH by lia.
Qed.

Lemma substring_length_le (s : string) (n : nat) :
  String.length (substring 0 n s) <= n.
Proof.
  revert n; induction s as [|c s IH]; intros [|n]; simpl; try lia.
  specialize (IH n); lia.
Qed.

Section Digits.

Lemma N_of_digit_char (d : N) : (d < 10)%N -> N_of_ascii (digit_char d) = (48 + d)%N.
Proof. intro H. unfold digit_char. apply N_ascii_embedding. lia. Qed.

Lemma isdigit_digit_char (d : N) : (d < 10)%N -> isdigit (digit_char d) = true.
Proof.
  intro H. unfold isdigit. rewrite N_of_digit_char by assumption.
  apply andb_true_intro; split; apply N.leb_le; lia.
Qed.

Lemma digits_value_app (a : string) : forall acc b,
  digits_value acc (a ++ b) = digits_value (digits_value acc a) b.
Proof. induction a as [|c a IH]; intros; simpl; [reflexivity | apply IH]. Qed.

(** The text [fmt_digits] puts in front of [acc]: between one and [fuel]
    digits that denote [n]. *)
Lemma fmt_digits_spec (fuel : nat) : forall n acc,
  (n < 10 ^ N.of_nat fuel)%N -> 0 < fuel ->
  exists ds,
    fmt_digits fuel n acc = ds ++ acc /\
    string_forall isdigit ds = true /\
    ds <> "" /\
    String.length ds <= fuel /\
    forall a, digits_value a ds = (a * 10 ^ N.of_nat (String.length ds) + n)%N.
Proof.
  induction fuel as [|fuel IH]; intros n acc Hn Hf; [lia|].
  simpl fmt_digits.
  assert (Hd : (n mod 10 < 10)%N) by (apply N.mod_lt; lia).
  destruct (N.eqb_spec (n / 10) 0) as [Hq|Hq].
  - exists (String (digit_char (n mod 10)) "").
    cbn [append string_forall String.length digits_value andb].
    rewrite isdigit_digit_char, N_of_digit_char by assumption.
    repeat split; try discriminate; try lia.
    intro a. change (10 ^ N.of_nat 1)%N with 10%N.
    pose proof (N.div_mod n 10 ltac:(lia)). lia.
  - assert (Hfuel : 0 < fuel).
    { destruct fuel; [|lia]. simpl in Hn.
      assert (n / 10 = 0)%N by (apply N.div_small; lia). contradiction. }
    assert (Hn' : (n / 10 < 10 ^ N.of_nat fuel)%N).
    { apply N.Div0.div_lt_upper_bound.
      replace (N.of_nat (S fuel)) with (N.succ (N.of_nat fuel)) in Hn by lia.
      now rewrite N.pow_succ_r' in Hn. }
    destruct (IH (n / 10)%N (String (digit_char (n mod 10)) acc) Hn' Hfuel)
      as (ds & E & Hall & Hne & Hlen & Hval).
    exists (ds ++ String (digit_char (n mod 10)) "").
    rewrite E, string_app_assoc. cbn [append].
    rewrite string_forall_app, Hall. cbn [string_forall andb].
    rewrite isdigit_digit_char by assumption.
    repeat split.
    + destruct ds; [contradiction | discriminate].
    + rewrite string_length_app. cbn [String.length]. lia.
    + intro a. rewrite digits_value_app, Hval. cbn [digits_value].
      rewrite N_of_digit_char by assumption.
      rewrite string_length_app. cbn [String.length].
      replace (N.of_nat (String.length ds + 1)) with (N.succ (N.of_nat (String.length ds))) by lia.
      rewrite N.pow_succ_r'. pose proof (N.div_mod n 10 ltac:(lia)).
      replace (48 + n mod 10 - 48)%N with (n mod 10)%N
        by (generalize (n mod 10)%N; intro; lia).
      rewrite H at 3. ring.
Qed.

End Digits.

Section Scanner.

Lemma fmt_u_spec (n : N) :
  (n < UINT_MODULUS)%N ->
  fmt_u n <> "" /\ string_forall isdigit (fmt_u n) = true /\
  String.length (fmt_u n) <= 10 /\ digits_value 0 (fmt_u n) = n.
Proof.
  intro Hn. unfold fmt_u.
  destruct (fmt_digits_spec 10 n "") as (ds & E & Hall & Hne & Hlen & Hval).
  - unfold UINT_MODULUS in Hn. change (10 ^ N.of_nat 10)%N with 10000000000%N.
    change (2 ^ 32)%N with 4294967296%N in Hn. lia.
  - lia.
  - rewrite E, string_app_nil_r. repeat split; try assumption.
    rewrite Hval. lia.
Qed.

Lemma isdigit_not_space (c : ascii) : isdigit c = true -> isspace c = false.
Proof.
  unfold isdigit, isspace. generalize (N_of_ascii c). intros n H.
  apply andb_prop in H as [H1 H2]. apply N.leb_le in H1, H2.
  destruct (N.eqb_spec n 32); [lia|].
  destruct (N.leb_spec 9 n), (N.leb_spec n 13); simpl; try reflexivity; lia.
Qed.

Lemma isdigit_not_sign (c : ascii) :
  isdigit c = true -> Ascii.eqb c "-" = false /\ Ascii.eqb c "+" = false.
Proof.
  intro H. split.
  - destruct (Ascii.eqb_spec c "-"); [subst; discriminate | reflexivity].
  - destruct (Ascii.eqb_spec c "+"); [subst; discriminate | reflexivity].
Qed.

Lemma scan_digits_app (ds rest : string) :
  string_forall isdigit ds = true -> stops_digits rest ->
  scan_digits (ds ++ rest) = (ds, rest).
Proof.
  intros Hall Hrest. induction ds as [|c ds IH]; cbn [append scan_digits string_forall] in *.
  - destruct rest as [|c r]; [reflexivity|].
    cbn [stops_digits scan_digits] in *. now rewrite Hrest.
  - apply andb_prop in Hall as [Hc Hall]. now rewrite Hc, IH.
Qed.

Lemma scan_u_fmt (n : N) (rest : string) :
  (n < UINT_MODULUS)%N -> stops_digits rest ->
  scan_u (fmt_u n ++ rest) = Converted n rest.
Proof.
  intros Hn Hrest.
  destruct (fmt_u_spec n Hn) as (Hne & Hall & _ & Hval).
  unfold scan_u.
  destruct (fmt_u n) as [|c ds] eqn:E; [contradiction|].
  pose proof Hall as Hall'. simpl in Hall'. apply andb_prop in Hall' as [Hc _].
  cbn [append skip_space]. rewrite (isdigit_not_space c Hc).
  destruct (isdigit_not_sign c Hc) as [Hm Hp]. rewrite Hm, Hp. cbn [orb].
  change (String c (ds ++ rest)) with (String c ds ++ rest).
  rewrite (scan_digits_app _ _ Hall Hrest), Hval.
  rewrite N.mod_small by assumption.
  destruct (N.leb_spec ULONG_MODULUS n) as [H|H]; [|reflexivity].
  exfalso. apply (N.lt_irrefl n).
  apply (N.lt_le_trans _ _ _ Hn). apply (N.le_trans _ ULONG_MODULUS); [|assumption].
  now vm_compute.
Qed.

Lemma scan_until_app (stop : ascii) (s rest : string) :
  without stop s = true ->
  scan_until stop (s ++ String stop rest) = (s, String stop rest).
Proof.
  unfold without. intro H. induction s as [|c s IH]; simpl in *.
  - now rewrite Ascii.eqb_refl.
  - apply andb_prop in H as [Hc H]. apply negb_true_iff in Hc.
    now rewrite Hc, IH.
Qed.

Lemma scan_until_end (stop : ascii) (s : string) :
  without stop s = true -> scan_until stop s = (s, "").
Proof.
  unfold without. intro H. induction s as [|c s IH]; simpl in *; [reflexivity|].
  apply andb_prop in H as [Hc H]. apply negb_true_iff in Hc.
  now rewrite Hc, IH.
Qed.

Lemma read_line_loop_app (line rest : string) : forall room,
  without newline line = true -> String.length line < room ->
  read_line_loop room (line ++ String newline rest) = Some (line, rest).
Proof.
  unfold without. induction line as [|c line IH]; intros room H Hlen.
  - destruct room; [simpl in Hlen; lia|].
    cbn [append read_line_loop]. now rewrite Ascii.eqb_refl.
  - destruct room; [simpl in Hlen; lia|].
    cbn [append read_line_loop string_forall String.length] in *.
    apply andb_prop in H as [Hc H]. apply negb_true_iff in Hc.
    rewrite Hc, IH; [reflexivity | assumption | lia].
Qed.

Lemma read_line_app (line rest : string) :
  without newline line = true -> String.length line < LINE_BUFFER - 1 ->
  read_line (line ++ String newline rest) LINE_BUFFER =
    (Z.of_nat (String.length line), line, rest).
Proof.
  intros H Hlen. unfold read_line. now rewrite read_line_loop_app.
Qed.

End Scanner.

(** ** The wire codec *)

Lemma frame_text_line (m : message) :
  frame_text m = frame_line m ++ String newline "".
Proof.
  unfold frame_text, frame_line. now rewrite !string_app_assoc.
Qed.

Lemma frame_line_length (m : message) :
  message_fits m -> String.length (frame_line m) + 1 < LINE_BUFFER - 1.
Proof.
  intros (Ht & Hs & Hsrc & Hd).
  destruct (fmt_u_spec _ Ht) as (_ & _ & Lt & _).
  destruct (fmt_u_spec _ Hs) as (_ & _ & Ls & _).
  unfold frame_line. rewrite !string_length_app. cbn [String.length].
  unfold MAX_NAME, MAX_DATA, LINE_BUFFER in *. lia.
Qed.

Lemma without_app (c : ascii) (a b : string) :
  without c (a ++ b) = without c a && without c b.
Proof. apply string_forall_app. Qed.

Lemma digits_without_newline (s : string) :
  string_forall isdigit s = true -> without newline s = true.
Proof.
  unfold without. induction s as [|c s IH]; simpl; [reflexivity|].
  intro H. apply andb_prop in H as [Hc H]. rewrite IH by assumption.
  destruct (Ascii.eqb_spec c newline); [subst; discriminate | reflexivity].
Qed.

Lemma sscanf_frame_line_into (m m0 : message) :
  message_fits m -> source m <> "" -> without colon (source m) = true ->
  without newline (data m) = true ->
  sscanf_message (frame_line m) m0 =
    if Nat.eqb (String.length (data m)) 0
    then (3%Z, mkMessage (type m) (size m) (source m) (data m0))
    else (4%Z, m).
Proof.
  intros (Ht & Hs & _ & _) Hsrc Hcol Hnl.
  unfold sscanf_message, frame_line.
  rewrite (scan_u_fmt _ _ Ht) by reflexivity. cbn [append].
  rewrite (scan_u_fmt _ _ Hs) by reflexivity. cbn [append].
  rewrite (scan_until_app colon _ _ Hcol).
  destruct m as [t s src d]; simpl in *.
  destruct src as [|c src]; [contradiction|].
  rewrite (scan_until_end newline d Hnl).
  destruct d; reflexivity.
Qed.

Lemma sscanf_frame_line (m : message) :
  message_fits m -> source m <> "" -> without colon (source m) = true ->
  without newline (data m) = true ->
  sscanf_message (frame_line m) zero_message =
    ((if Nat.eqb (String.length (data m)) 0 then 3 else 4)%Z, m).
Proof.
  intros Hfit Hsrc Hcol Hnl.
  rewrite sscanf_frame_line_into by assumption.
  destruct m as [t s src [|c d]]; reflexivity.
Qed.

Lemma frame_line_without_newline (m : message) :
  message_fits m -> without newline (source m) = true ->
  without newline (data m) = true -> without newline (frame_line m) = true.
Proof.
  intros (Ht & Hs & _ & _) Hsrc Hd.
  destruct (fmt_u_spec _ Ht) as (_ & At & _ & _).
  destruct (fmt_u_spec _ Hs) as (_ & As & _ & _).
  unfold frame_line. rewrite !without_app, Hsrc, Hd.
  rewrite (digits_without_newline _ At), (digits_without_newline _ As). reflexivity.
Qed.

Lemma digits_without (z : ascii) (s : string) :
  isdigit z = false -> string_forall isdigit s = true -> without z s = true.
Proof.
  unfold without. intro Hz. induction s as [|c s IH]; simpl; [reflexivity|].
  intro H. apply andb_prop in H as [Hc H]. rewrite IH by assumption.
  destruct (Ascii.eqb_spec c z); [subst; congruence | reflexivity].
Qed.

(** A byte that is neither a digit nor [':'] is in the line of a frame only
    if it is in its source or its payload. *)
Lemma frame_line_without (z : ascii) (m : message) :
  isdigit z = false -> Ascii.eqb colon z = false -> message_fits m ->
  without z (source m) = true -> without z (data m) = true ->
  without z (frame_line m) = true.
Proof.
  intros Hz Hcol (Ht & Hs & _ & _) Hsrc Hd.
  destruct (fmt_u_spec _ Ht) as (_ & At & _ & _).
  destruct (fmt_u_spec _ Hs) as (_ & As & _ & _).
  unfold frame_line. rewrite !without_app, Hsrc, Hd.
  rewrite (digits_without z _ Hz At), (digits_without z _ Hz As).
  unfold without. cbn [string_forall]. unfold colon in Hcol. rewrite Hcol. reflexivity.
Qed.

Lemma c_string_whole (s : string) : without NUL s = true -> c_string s = s.
Proof. intro H. unfold c_string. now rewrite scan_until_end. Qed.

(** The line of a frame whose strings are C strings is read back whole. *)
Lemma c_string_frame_line (m : message) :
  message_fits m -> without NUL (source m) = true -> without NUL (data m) = true ->
  c_string (frame_line m) = frame_line m.
Proof.
  intros Hfit Hs Hd. apply c_string_whole.
  now apply frame_line_without.
Qed.

Lemma send_message_whole (fd : Z) (m : message) :
  message_fits m ->
  send_message_to_client fd m = [Send fd (frame_line m ++ String newline "")].
Proof.
  intro Hfit. unfold send_message_to_client, snprintf.
  rewrite substring_whole; [now rewrite frame_text_line|].
  pose proof (frame_line_length m Hfit) as L.
  rewrite frame_text_line, string_length_app. cbn [String.length]. lia.
Qed.

(** C6.  Wire-codec round trip: a message that fits [struct message], whose
    source is non-empty and has neither [':'] nor a newline and whose payload
    has no newline (it may have [':']), is sent as the line
    [type:size:source:payload] and a newline; [read_line] followed by the
    [sscanf] of [handle_client] gives back the same type, size, source and
    payload, whatever bytes follow on the socket. *)
Theorem wire_round_trip (fd : Z) (m : message) (rest : string) :
  message_fits m ->
  source m <> "" ->
  without colon (source m) = true ->
  without newline (source m) = true ->
  without newline (data m) = true ->
  exists wire line fields,
    send_message_to_client fd m = [Send fd wire] /\
    wire = fmt_u (type m) ++ ":" ++ fmt_u (size m) ++ ":" ++ source m ++ ":" ++
           data m ++ String newline "" /\
    read_line (wire ++ rest) LINE_BUFFER = (Z.of_nat (String.length line), line, rest) /\
    (0 < Z.of_nat (String.length line))%Z /\
    sscanf_message line zero_message = (fields, m) /\
    (3 <= fields)%Z.
Proof.
  intros Hfit Hne Hcol Hnl Hd.
  exists (frame_line m ++ String newline ""), (frame_line m),
         (if Nat.eqb (String.length (data m)) 0 then 3 else 4)%Z.
  pose proof (frame_line_length m Hfit) as L.
  repeat split.
  - now apply send_message_whole.
  - rewrite <- frame_text_line. reflexivity.
  - rewrite string_app_assoc. cbn [append].
    apply read_line_app; [now apply frame_line_without_newline | lia].
  - destruct (fmt_u_spec _ (proj1 Hfit)) as (Hn & _).
    unfold frame_line. destruct (fmt_u (type m)); [contradiction|].
    cbn [append String.length]. lia.
  - now apply sscanf_frame_line.
  - destruct (Nat.eqb _ _); lia.
Qed.

Lemma wire_round_trip_witness :
  exists wire line fields,
    send_message_to_client 4 (mkMessage 11 7 "ken" "a:b, c.") = [Send 4 wire] /\
    wire = "11:7:ken:a:b, c." ++ String newline "" /\
    read_line (wire ++ "4:0:ken:") LINE_BUFFER =
      (Z.of_nat (String.length line), line, "4:0:ken:") /\
    (0 < Z.of_nat (String.length line))%Z /\
    sscanf_message line zero_message = (fields, mkMessage 11 7 "ken" "a:b, c.") /\
    (3 <= fields)%Z.
Proof.
  apply (wire_round_trip 4 (mkMessage 11 7 "ken" "a:b, c.") "4:0:ken:").
  - unfold message_fits, UINT_MODULUS, MAX_NAME, MAX_DATA; simpl.
    repeat split; try reflexivity; lia.
  - discriminate.
  - reflexivity.
  - reflexivity.
  - reflexivity.
Defined.

(** ** Reading and writing a linked node *)

Lemma deref_In (p : ptr) (st : server) (c : client_t) :
  deref p st = Some c -> In c (client_list st) /\ addr c = p.
Proof.
  unfold deref. intro H. apply find_some in H as [Hin Heq].
  split; [assumption | now apply Nat.eqb_eq].
Qed.

Lemma deref_None (p : ptr) (st : server) :
  deref p st = None <-> ~ In p (map addr (client_list st)).
Proof.
  unfold deref. induction (client_list st) as [|cur l IH]; simpl.
  - split; [intros _ [] | reflexivity].
  - destruct (Nat.eqb_spec (addr cur) p) as [E|E].
    + split; [discriminate | intro H; exfalso; apply H; now left].
    + rewrite IH. split; [intros H [F|F]; [contradiction | now apply H] | intros H F; apply H; now right].
Qed.

Lemma store_addr (p : ptr) (f : client_t -> client_t) (l : list client_t) :
  (forall c, addr (f c) = addr c) -> map addr (store p f l) = map addr l.
Proof.
  intro Hf. induction l as [|cur l IH]; simpl; [reflexivity|].
  destruct (Nat.eqb (addr cur) p); simpl; [now rewrite Hf | now rewrite IH].
Qed.

Lemma find_store (p : ptr) (f : client_t -> client_t) (l : list client_t) :
  (forall c, addr (f c) = addr c) ->
  find (fun cur => Nat.eqb (addr cur) p) (store p f l) =
  option_map f (find (fun cur => Nat.eqb (addr cur) p) l).
Proof.
  intro Hf. induction l as [|cur l IH]; simpl; [reflexivity|].
  destruct (Nat.eqb (addr cur) p) eqn:E; simpl.
  - now rewrite Hf, E.
  - now rewrite E, IH.
Qed.

Lemma deref_write_session (p : ptr) (v : string) (st : server) :
  deref p (write_session p v st) = option_map (set_session v) (deref p st).
Proof. unfold deref, write_session. simpl. now apply find_store. Qed.

Lemma find_store_other (p q : ptr) (f : client_t -> client_t) (l : list client_t) :
  (forall c, addr (f c) = addr c) -> q <> p ->
  find (fun cur => Nat.eqb (addr cur) q) (store p f l) =
  find (fun cur => Nat.eqb (addr cur) q) l.
Proof.
  intros Hf Hq. induction l as [|cur l IH]; simpl; [reflexivity|].
  destruct (Nat.eqb_spec (addr cur) p) as [E|E]; simpl.
  - rewrite Hf. destruct (Nat.eqb_spec (addr cur) q); [congruence | reflexivity].
  - destruct (Nat.eqb (addr cur) q); [reflexivity | apply IH].
Qed.

Lemma deref_write_id (p : ptr) (v : string) (st : server) :
  deref p (write_id p v st) = option_map (set_id v) (deref p st).
Proof. unfold deref, write_id. simpl. now apply find_store. Qed.

(** After [client->session] is written, a walk of the list finds a node
    with that session: the node written. *)
Lemma session_has_clients_written (p : ptr) (v : string) (st : server) (c : client_t) :
  deref p st = Some c -> session_has_clients v (write_session p v st) = true.
Proof.
  unfold deref, session_has_clients, write_session. simpl.
  induction (client_list st) as [|cur l IH]; simpl; [discriminate|].
  destruct (Nat.eqb (addr cur) p); simpl; intro H.
  - now rewrite String.eqb_refl.
  - rewrite IH by assumption. apply orb_true_r.
Qed.

Lemma nonempty_length (s : string) : s <> "" -> Nat.eqb (String.length s) 0 = false.
Proof. destruct s; [contradiction | reflexivity]. Qed.

Lemma nonempty_ltb (s : string) : s <> "" -> Nat.ltb 0 (String.length s) = true.
Proof. destruct s; [contradiction | reflexivity]. Qed.

(** ** NEW_SESS *)

(** C4.  A client whose current session is non-empty and that sends NEW_SESS
    leaves the whole server state as it was (its session is the same, no
    session is added), and is answered NS_ACK with a text that is not
    ["Session created"]. *)
Theorem new_sess_in_session_rejected (st : server) (client : ptr) (c : client_t)
    (msg : message) :
  deref client st = Some c ->
  session c <> "" ->
  type msg = NEW_SESS ->
  exists reply,
    process_message client msg st = Some (st, send_message_to_client (sockfd c) reply) /\
    type reply = NS_ACK /\
    data reply = "Already in a session" /\
    data reply <> "Session created".
Proof.
  intros Hc Hs Ht. exists (reply_text NS_ACK "Already in a session").
  unfold process_message. rewrite Hc. switch_on Ht.
  rewrite (nonempty_length _ Hs). cbn [negb].
  repeat split. discriminate.
Qed.

Lemma new_sess_in_session_rejected_witness :
  exists reply,
    process_message 1 (mkMessage NEW_SESS 1 "ken" "B")
      (mkServer [mkClient 1 4 "ken" "A"] ["A"]) =
      Some (mkServer [mkClient 1 4 "ken" "A"] ["A"], send_message_to_client 4 reply) /\
    type reply = NS_ACK /\
    data reply = "Already in a session" /\
    data reply <> "Session created".
Proof.
  apply (new_sess_in_session_rejected
           (mkServer [mkClient 1 4 "ken" "A"] ["A"]) 1 (mkClient 1 4 "ken" "A")
           (mkMessage NEW_SESS 1 "ken" "B")).
  - reflexivity.
  - discriminate.
  - reflexivity.
Defined.

Lemma cons_neq_self {A : Type} (x : A) (l : list A) : x :: l <> l.
Proof.
  intro H. apply (f_equal (@List.length A)) in H. simpl in H. lia.
Qed.

Lemma reply_text_fits (t : N) (text : string) :
  (t < UINT_MODULUS)%N -> message_fits (reply_text t text).
Proof.
  intro Ht. unfold message_fits, reply_text, snprintf. simpl.
  pose proof (substring_length_le text (MAX_DATA - 1)) as L.
  unfold UINT_MODULUS, MAX_DATA, MAX_NAME in *. simpl in *.
  repeat split; try assumption; lia.
Qed.

(** The line of a server reply with a non-empty text is parsed by the
    client into that reply, whatever its [msg] held before. *)
Lemma client_parses_reply (t : N) (text : string) (uninit : message) :
  (t < UINT_MODULUS)%N -> text <> "" -> String.length text < MAX_DATA ->
  without newline text = true ->
  sscanf_message (frame_line (reply_text t text)) uninit = (4%Z, reply_text t text).
Proof.
  intros Ht Hne Hlen Hnl.
  assert (E : data (reply_text t text) = text).
  { unfold reply_text, snprintf. simpl. apply substring_whole.
    unfold MAX_DATA in *. lia. }
  rewrite sscanf_frame_line_into.
  - rewrite E. now rewrite nonempty_length.
  - now apply reply_text_fits.
  - discriminate.
  - reflexivity.
  - now rewrite E.
Qed.

(** What the receive loop of the client makes of the bytes of an NS_ACK
    with a non-empty payload, whatever its [msg] held before. *)
Lemma client_reads_ns_ack (text : string) (uninit : message) (cs : Client.state)
    (rest : string) :
  text <> "" -> String.length text < MAX_DATA ->
  without newline text = true -> without NUL text = true ->
  Client.receive_pass
    ((frame_line (mkMessage NS_ACK (N.of_nat (String.length text)) "server" text)
      ++ String newline "") ++ rest) uninit cs =
  (Client.mkState (Client.sockfd cs) (Client.loggedIn cs)
     (if String.eqb text "Session created"
      then strncpy (Client.pending_session cs) MAX_NAME
      else Client.current_session cs)
     "" (Client.client_id cs),
   [Client.Stdout
      (if String.eqb text "Session created"
       then "Current session: " ++ strncpy (Client.pending_session cs) MAX_NAME
            ++ String newline ""
       else "[warning]: " ++ text ++ String newline "")],
   Some rest).
Proof.
  intros Hne Hlen Hnl Hnul.
  set (m := mkMessage NS_ACK (N.of_nat (String.length text)) "server" text).
  assert (Hfit : message_fits m).
  { unfold message_fits, m. cbn [type size source data].
    split; [reflexivity|]. split; [|split; [cbn; unfold MAX_NAME; lia | assumption]].
    apply (N.lt_trans _ (N.of_nat MAX_DATA)); [lia | reflexivity]. }
  assert (Hline : without newline (frame_line m) = true).
  { apply frame_line_without_newline; [assumption | reflexivity | assumption]. }
  pose proof (frame_line_length m Hfit) as L.
  unfold Client.receive_pass.
  rewrite string_app_assoc. cbn [append].
  rewrite (read_line_app _ _ Hline) by lia.
  destruct (Z.leb_spec (Z.of_nat (String.length (frame_line m))) 0) as [Hz|_].
  { exfalso. assert (frame_line m <> "") by (unfold frame_line, m; cbn; discriminate).
    destruct (frame_line m); [contradiction | simpl in Hz; lia]. }
  rewrite (c_string_frame_line m Hfit eq_refl Hnul).
  unfold Client.receive_frame.
  rewrite (sscanf_frame_line_into m uninit Hfit ltac:(discriminate) eq_refl Hnl).
  cbn [m data]. rewrite (nonempty_length _ Hne).
  cbn [Z.ltb Z.compare Pos.compare Pos.compare_cont].
  unfold Client.receive_switch. subst m.
  cbn [type N.eqb Pos.eqb NS_ACK LO_NAK JN_ACK JN_NAK data].
  destruct (String.eqb text "Session created"); reflexivity.
Qed.

(** C8, on the code.  The NS_ACK type serves for success and failure, told
    apart by the text only.  Server: the reply to NEW_SESS is one NS_ACK
    frame, written to the socket of the client byte for byte as stated; its
    text is ["Session created"] exactly when the session was created
    (prepended to the registry) and set as the client's current session, and
    otherwise the state is unchanged.  Client: reading these very bytes, the
    receive loop copies the pending session to the current session when the
    text is ["Session created"], leaves the current session alone when it is
    not, and clears the pending session in both cases.  But the text the
    client compares is the [data] of a [msg] it never initialises: on an
    NS_ACK line without a payload [sscanf] stores nothing there, and the
    client promotes when the bytes left there (by the frame before, for
    one) are ["Session created"], not when the payload is. *)
Theorem ns_ack_told_apart_by_text (st : server) (client : ptr) (c : client_t)
    (msg : message) :
  deref client st = Some c ->
  type msg = NEW_SESS ->
  exists st' text,
    process_message client msg st =
      Some (st', [Send (sockfd c)
                    (frame_line (mkMessage NS_ACK (N.of_nat (String.length text))
                                   "server" text)
                     ++ String newline "")]) /\
    text <> "" /\
    (text = "Session created" <->
       session_list st' = strncpy (data msg) MAX_NAME :: session_list st /\
       deref client st' = Some (set_session (strncpy (data msg) MAX_NAME) c)) /\
    (text <> "Session created" -> st' = st) /\
    (forall (uninit : message) (cs : Client.state) (rest : string),
       Client.receive_pass
         ((frame_line (mkMessage NS_ACK (N.of_nat (String.length text)) "server" text)
           ++ String newline "") ++ rest) uninit cs =
       (Client.mkState (Client.sockfd cs) (Client.loggedIn cs)
          (if String.eqb text "Session created"
           then strncpy (Client.pending_session cs) MAX_NAME
           else Client.current_session cs)
          "" (Client.client_id cs),
        [Client.Stdout
           (if String.eqb text "Session created"
            then "Current session: " ++ strncpy (Client.pending_session cs) MAX_NAME
                 ++ String newline ""
            else "[warning]: " ++ text ++ String newline "")],
        Some rest)) /\
    (forall (uninit : message) (cs : Client.state) (rest : string),
       Client.receive_pass ("10:0:server:" ++ String newline rest) uninit cs =
       (Client.mkState (Client.sockfd cs) (Client.loggedIn cs)
          (if String.eqb (data uninit) "Session created"
           then strncpy (Client.pending_session cs) MAX_NAME
           else Client.current_session cs)
          "" (Client.client_id cs),
        [Client.Stdout
           (if String.eqb (data uninit) "Session created"
            then "Current session: " ++ strncpy (Client.pending_session cs) MAX_NAME
                 ++ String newline ""
            else "[warning]: " ++ data uninit ++ String newline "")],
        Some rest)).
Proof.
  intros Hc Ht.
  assert (Hstale : forall (uninit : message) (cs : Client.state) (rest : string),
       Client.receive_pass ("10:0:server:" ++ String newline rest) uninit cs =
       (Client.mkState (Client.sockfd cs) (Client.loggedIn cs)
          (if String.eqb (data uninit) "Session created"
           then strncpy (Client.pending_session cs) MAX_NAME
           else Client.current_session cs)
          "" (Client.client_id cs),
        [Client.Stdout
           (if String.eqb (data uninit) "Session created"
            then "Current session: " ++ strncpy (Client.pending_session cs) MAX_NAME
                 ++ String newline ""
            else "[warning]: " ++ data uninit ++ String newline "")],
        Some rest)).
  { intros uninit cs rest. unfold Client.receive_pass.
    rewrite (read_line_app "10:0:server:" rest eq_refl) by (unfold LINE_BUFFER; simpl; lia).
    change (c_string "10:0:server:") with "10:0:server:".
    unfold Client.receive_frame.
    change (sscanf_message "10:0:server:" uninit)
      with (3%Z, mkMessage 10 0 "server" (data uninit)).
    cbn [String.length Z.of_nat Z.leb Z.ltb Z.compare Pos.of_succ_nat Pos.succ
         Pos.compare Pos.compare_cont].
    unfold Client.receive_switch. cbn [type N.eqb Pos.eqb NS_ACK LO_NAK JN_ACK JN_NAK data].
    destruct (String.eqb (data uninit) "Session created"); reflexivity. }
  assert (Hsame : forall x : string,
            session_list st = x :: session_list st /\ deref client st = Some (set_session x c) ->
            False).
  { intros x [H _]. symmetry in H. exact (cons_neq_self _ _ H). }
  unfold process_message. rewrite Hc. switch_on Ht.
  destruct (Nat.eqb (String.length (session c)) 0) eqn:Hs; cbn [negb].
  - destruct (find_session (data msg) st) eqn:Hf.
    + exists st, "Session already exists".
      split; [reflexivity|]. split; [discriminate|].
      split; [split; [discriminate | intro H; exfalso; exact (Hsame _ H)]|].
      split; [reflexivity|]. split; [|exact Hstale].
      intros uninit cs rest.
      apply (client_reads_ns_ack "Session already exists");
        [discriminate | unfold MAX_DATA; simpl; lia | reflexivity | reflexivity].
    + eexists _, "Session created".
      split; [reflexivity|]. split; [discriminate|].
      split; [split; [intros _ | reflexivity]|].
      * split; [reflexivity|].
        rewrite deref_write_session. unfold deref, add_session. simpl.
        fold (deref client st). now rewrite Hc.
      * split; [intro H; exfalso; now apply H|]. split; [|exact Hstale].
        intros uninit cs rest.
        apply (client_reads_ns_ack "Session created");
          [discriminate | unfold MAX_DATA; simpl; lia | reflexivity | reflexivity].
  - exists st, "Already in a session".
    split; [reflexivity|]. split; [discriminate|].
    split; [split; [discriminate | intro H; exfalso; exact (Hsame _ H)]|].
    split; [reflexivity|]. split; [|exact Hstale].
    intros uninit cs rest.
    apply (client_reads_ns_ack "Already in a session");
      [discriminate | unfold MAX_DATA; simpl; lia | reflexivity | reflexivity].
Qed.

(** ken asks for session S from a client without a session: the request,
    the bytes of the server's reply, and what the client makes of them.
    Later, with ["T"] pending and the text of that reply still in [msg], an
    NS_ACK line without a payload makes the client enter T. *)
Lemma ns_ack_told_apart_by_text_witness :
  snd (Client.handle_create_session "S" (Client.mkState 3 true "" "" "ken")) =
    [Client.SendLine 3 ("9:1:ken:S" ++ String newline "")] /\
  fst (Client.handle_create_session "S" (Client.mkState 3 true "" "" "ken")) =
    Client.mkState 3 true "" "S" "ken" /\
  process_message 1 (mkMessage NEW_SESS 1 "ken" "S") (mkServer [mkClient 1 4 "ken" ""] []) =
    Some (mkServer [mkClient 1 4 "ken" "S"] ["S"],
          [Send 4 ("10:15:server:Session created" ++ String newline "")]) /\
  Client.receive_pass ("10:15:server:Session created" ++ String newline "") zero_message
    (Client.mkState 3 true "" "S" "ken") =
    (Client.mkState 3 true "S" "" "ken",
     [Client.Stdout ("Current session: S" ++ String newline "")], Some "") /\
  Client.receive_pass ("10:0:server:" ++ String newline "")
    (mkMessage NS_ACK 15 "server" "Session created")
    (Client.mkState 3 true "" "T" "ken") =
    (Client.mkState 3 true "T" "" "ken",
     [Client.Stdout ("Current session: T" ++ String newline "")], Some "").
Proof.
  split; [reflexivity|]. split; [reflexivity|].
  destruct (ns_ack_told_apart_by_text
              (mkServer [mkClient 1 4 "ken" ""] []) 1 (mkClient 1 4 "ken" "")
              (mkMessage NEW_SESS 1 "ken" "S") eq_refl eq_refl)
    as (st' & text & _ & _ & _ & _ & _ & H6).
  split; [reflexivity|]. split; [reflexivity|].
  exact (H6 (mkMessage NS_ACK 15 "server" "Session created")
            (Client.mkState 3 true "" "T" "ken") "").
Defined.

(** ** LEAVE_SESS and EXIT *)

Lemma find_session_written (p : ptr) (v s : string) (st : server) :
  find_session s (write_session p v st) = find_session s st.
Proof. reflexivity. Qed.

(** [remove_session_if_empty] called with the session name the client has
    just been given: the walk of [session_has_clients] stops at the client
    itself and nothing is removed. *)
Lemma remove_own_session_noop (p : ptr) (v : string) (st : server) (c : client_t) :
  deref p st = Some c ->
  remove_session_if_empty v (write_session p v st) = write_session p v st.
Proof.
  intro Hc. unfold remove_session_if_empty.
  now rewrite (session_has_clients_written p v st c Hc).
Qed.

(** C1, on the code.  A client in a session that sends LEAVE_SESS with an
    empty payload (what [handle_leave_session] sends) has its current
    session cleared and is answered LEAVE_SESS ["Left session"], but the
    session registry is left as it was: [remove_session_if_empty] is given
    the empty payload, and the client, whose session is now empty, counts as
    a member of the session named [""].  A session that existed still
    exists, and a client without a session that then sends JOIN for it is
    answered JN_ACK ["Joined session"]. *)
Theorem leave_sess_keeps_registry (st : server) (client : ptr) (c : client_t)
    (msg : message) :
  deref client st = Some c ->
  session c <> "" ->
  type msg = LEAVE_SESS ->
  data msg = "" ->
  exists st',
    process_message client msg st =
      Some (st', send_message_to_client (sockfd c) (reply_text LEAVE_SESS "Left session")) /\
    deref client st' = Some (set_session "" c) /\
    session_list st' = session_list st /\
    forall (S : string) (joiner : ptr) (j : client_t) (join : message),
      find_session S st = true ->
      deref joiner st' = Some j -> session j = "" ->
      type join = JOIN -> data join = S ->
      exists st'',
        process_message joiner join st' =
          Some (st'', send_message_to_client (sockfd j) (reply_text JN_ACK "Joined session")).
Proof.
  intros Hc Hs Ht Hd. exists (write_session client "" st).
  split; [|split; [|split]].
  - unfold process_message. rewrite Hc, Hd. switch_on Ht.
    rewrite (nonempty_length _ Hs).
    now rewrite (remove_own_session_noop client "" st c Hc).
  - now rewrite deref_write_session, Hc.
  - reflexivity.
  - intros S joiner j join Hf Hj Hjs Hjt Hjd.
    eexists. unfold process_message. rewrite Hj, Hjd. switch_on Hjt.
    rewrite find_session_written, Hf, Hjs. reflexivity.
Qed.

(** The failing input of C1: ken alone in session S sends the frame the
    reference client sends. *)
Lemma leave_sess_keeps_registry_witness :
  fst (Client.handle_leave_session (Client.mkState 4 true "S" "" "ken")) =
    Client.mkState 4 true "" "" "ken" /\
  snd (Client.handle_leave_session (Client.mkState 4 true "S" "" "ken")) =
    [Client.SendLine 4 ("8:0:ken:" ++ String newline "")] /\
  sscanf_message "8:0:ken:" zero_message = (3%Z, mkMessage LEAVE_SESS 0 "ken" "") /\
  exists st',
    process_message 1 (mkMessage LEAVE_SESS 0 "ken" "") (mkServer [mkClient 1 7 "ken" "S"] ["S"]) =
      Some (st', send_message_to_client 7 (reply_text LEAVE_SESS "Left session")) /\
    session_list st' = ["S"] /\
    exists st'',
      process_message 1 (mkMessage JOIN 1 "ken" "S") st' =
        Some (st'', send_message_to_client 7 (reply_text JN_ACK "Joined session")).
Proof.
  split; [reflexivity|]. split; [reflexivity|]. split; [reflexivity|].
  destruct (leave_sess_keeps_registry
              (mkServer [mkClient 1 7 "ken" "S"] ["S"]) 1 (mkClient 1 7 "ken" "S")
              (mkMessage LEAVE_SESS 0 "ken" "") eq_refl ltac:(discriminate) eq_refl eq_refl)
    as (st' & H1 & H2 & H3 & H4).
  exists st'. split; [exact H1|]. split; [exact H3|].
  apply (H4 "S" 1 (mkClient 1 7 "ken" "") (mkMessage JOIN 1 "ken" "S"));
    try reflexivity. exact H2.
Defined.

(** C2, on the code.  A client in a session that sends EXIT has its current
    session cleared and EXIT echoed, and the loop of [handle_client] is
    left; but [remove_session_if_empty] is given [client->session] after it
    was zeroed, finds the client itself with that (empty) session, and
    removes nothing: the session registry is as before, also after the
    teardown has unlinked the client. *)
Theorem exit_keeps_registry (st : server) (client : ptr) (c : client_t)
    (msg : message) (buffer : string) (fields : Z) :
  deref client st = Some c ->
  session c <> "" ->
  sscanf_message buffer zero_message = (fields, msg) ->
  (3 <= fields)%Z ->
  type msg = EXIT ->
  exists st',
    process_message client msg st =
      Some (st', send_message_to_client (sockfd c) (set_type reply0 EXIT)) /\
    deref client st' = Some (set_session "" c) /\
    session_list st' = session_list st /\
    handle_frame client buffer st =
      Some (st', send_message_to_client (sockfd c) (set_type reply0 EXIT), false) /\
    session_list (remove_client client st') = session_list st /\
    forall S, find_session S st = true -> find_session S (remove_client client st') = true.
Proof.
  intros Hc Hs Hb Hfields Ht. exists (write_session client "" st).
  assert (Hp : process_message client msg st =
      Some (write_session client "" st,
            send_message_to_client (sockfd c) (set_type reply0 EXIT))).
  { unfold process_message. rewrite Hc. switch_on Ht.
    rewrite (nonempty_ltb _ Hs), deref_write_session, Hc.
    cbn [option_map set_session session].
    now rewrite (remove_own_session_noop client "" st c Hc). }
  split; [exact Hp|]. split; [now rewrite deref_write_session, Hc|].
  split; [reflexivity|]. split; [|split; [reflexivity | intros S HS; exact HS]].
  unfold handle_frame. rewrite Hb.
  destruct (Z.ltb_spec fields 3) as [F|_]; [lia|].
  rewrite Hp, Ht. reflexivity.
Qed.

(** The failing input of C2: ken alone in session S sends EXIT. *)
Lemma exit_keeps_registry_witness :
  exists st',
    handle_frame 1 "4:0:ken:" (mkServer [mkClient 1 7 "ken" "S"] ["S"]) =
      Some (st', send_message_to_client 7 (set_type reply0 EXIT), false) /\
    remove_client 1 st' = mkServer [] ["S"] /\
    find_session "S" (remove_client 1 st') = true.
Proof.
  destruct (exit_keeps_registry
              (mkServer [mkClient 1 7 "ken" "S"] ["S"]) 1 (mkClient 1 7 "ken" "S")
              (mkMessage EXIT 0 "ken" "") "4:0:ken:" 3
              eq_refl ltac:(discriminate) eq_refl ltac:(lia) eq_refl)
    as (st' & H1 & H2 & H3 & H4 & H5 & H6).
  exists st'. split; [exact H4|]. split.
  - unfold process_message in H1. simpl in H1. injection H1 as <-. reflexivity.
  - apply H6. reflexivity.
Defined.

(** ** MESSAGE *)

(** The clients [broadcast_message] writes to. *)
Lemma broadcast_message_filter (session_id sender : string) (msg : message) (st : server) :
  broadcast_message session_id msg sender st =
  flat_map (fun cur => send_message_to_client (sockfd cur) msg)
    (filter (fun cur => String.eqb (session cur) session_id
                        && negb (String.eqb (id cur) sender))
       (client_list st)).
Proof.
  unfold broadcast_message. induction (client_list st) as [|cur l IH]; simpl; [reflexivity|].
  destruct (String.eqb (session cur) session_id && negb (String.eqb (id cur) sender));
    simpl; now rewrite IH.
Qed.

(** Two different nodes of a list with pairwise different logged-in
    identifiers do not share a logged-in identifier. *)
Lemma unique_ids_differ (l : list client_t) (a b : client_t) :
  NoDup (filter logged (map id l)) ->
  In a l -> In b l -> addr a <> addr b -> id a <> "" -> id a <> id b.
Proof.
  intros Hnd Ha Hb Hab Hne Heq.
  assert (Hkeep : forall c, id c = id a -> logged (id c) = true).
  { intros c E. rewrite E. apply negb_true_iff. now apply String.eqb_neq. }
  induction l as [|cur l IH]; simpl in *; [contradiction|].
  destruct (logged (id cur)) eqn:K.
  - inversion Hnd as [|x xs Hnotin Hnd']; subst.
    destruct Ha as [<-|Ha], Hb as [<-|Hb].
    + now apply Hab.
    + apply Hnotin. apply filter_In. split.
      * rewrite Heq. now apply in_map.
      * apply Hkeep. now symmetry.
    + apply Hnotin. apply filter_In. split.
      * rewrite <- Heq. now apply in_map.
      * now apply Hkeep.
    + now apply IH.
  - destruct Ha as [<-|Ha].
    + rewrite Hkeep in K by reflexivity. discriminate.
    + destruct Hb as [<-|Hb].
      * rewrite Hkeep in K by (now symmetry). discriminate.
      * now apply IH.
Qed.

(** The bytes [broadcast_message] writes, and the sockets it writes them
    to. *)
Lemma broadcast_message_bytes (session_id sender : string) (msg : message) (st : server) :
  message_fits msg ->
  broadcast_message session_id msg sender st =
  map (fun cur => Send (sockfd cur) (frame_line msg ++ String newline ""))
    (filter (fun cur => String.eqb (session cur) session_id
                        && negb (String.eqb (id cur) sender))
       (client_list st)).
Proof.
  intro Hfit. rewrite broadcast_message_filter.
  induction (filter _ (client_list st)) as [|cur l IH]; [reflexivity|].
  cbn [flat_map map]. rewrite IH, send_message_whole by assumption. reflexivity.
Qed.

Lemma strncpy_fills (src : string) (n : nat) :
  n <= String.length src -> String.length (strncpy src n) = n.
Proof.
  unfold strncpy. revert n. induction src as [|c src IH]; intros [|n] H; simpl in *;
    try reflexivity; try lia.
  now rewrite IH by lia.
Qed.

(** C5, on the code, where the sender's session name and identifier are
    terminated in their arrays.  A MESSAGE frame from a client X whose
    current session is non-empty changes nothing in the registries and is
    written, as the line of the message X sent, to exactly the registered
    clients whose current session equals X's and whose identifier differs
    from X's, in list order.  X is not among them; and when X is logged in
    and logged-in identifiers are unique (I1), every other node with X's
    session is. *)
Theorem message_broadcast_recipients (st : server) (client : ptr) (x : client_t)
    (msg : message) :
  deref client st = Some x ->
  session x <> "" ->
  id x <> "" ->
  type msg = MESSAGE ->
  terminated (session x) MAX_NAME ->
  terminated (id x) MAX_NAME ->
  message_fits msg ->
  let recipients :=
    filter (fun cur => String.eqb (session cur) (session x)
                       && negb (String.eqb (id cur) (id x)))
      (client_list st) in
  process_message client msg st =
    Some (st, map (fun cur => Send (sockfd cur) (frame_line msg ++ String newline ""))
                recipients) /\
  (forall cur, In cur recipients <->
     In cur (client_list st) /\ session cur = session x /\ id cur <> id x) /\
  ~ In x recipients /\
  (unique_ids st ->
   forall cur, In cur (client_list st) -> addr cur <> client ->
     session cur = session x -> In cur recipients).
Proof.
  intros Hc Hs Hid Ht _ _ Hfit recipients.
  assert (Hmem : forall cur, In cur recipients <->
     In cur (client_list st) /\ session cur = session x /\ id cur <> id x).
  { intro cur. unfold recipients. rewrite filter_In. split.
    - intros (Hin & H). apply andb_prop in H as [H1 H2].
      apply String.eqb_eq in H1. apply negb_true_iff, String.eqb_neq in H2. auto.
    - intros (Hin & H1 & H2). split; [assumption|].
      apply andb_true_intro. split; [now apply String.eqb_eq|].
      now apply negb_true_iff, String.eqb_neq. }
  split; [|split; [exact Hmem | split]].
  - unfold process_message. rewrite Hc. switch_on Ht.
    now rewrite (nonempty_ltb _ Hs), broadcast_message_bytes.
  - intro H. apply Hmem in H as (_ & _ & H). now apply H.
  - intros Huniq cur Hin Haddr Hsess. apply Hmem.
    split; [assumption | split; [assumption|]].
    destruct (deref_In _ _ _ Hc) as [Hx Hax].
    intro E. apply (unique_ids_differ (client_list st) x cur Huniq Hx Hin);
      [congruence | assumption | now symmetry].
Qed.

Lemma message_broadcast_recipients_witness :
  process_message 1 (mkMessage MESSAGE 5 "ken" "hello")
    (mkServer [mkClient 3 9 "" "S"; mkClient 2 8 "andy" "S"; mkClient 1 7 "ken" "S";
               mkClient 0 6 "" "T"] ["T"; "S"]) =
  Some (mkServer [mkClient 3 9 "" "S"; mkClient 2 8 "andy" "S"; mkClient 1 7 "ken" "S";
                  mkClient 0 6 "" "T"] ["T"; "S"],
        [Send 9 ("11:5:ken:hello" ++ String newline "");
         Send 8 ("11:5:ken:hello" ++ String newline "")]).
Proof.
  exact (proj1 (message_broadcast_recipients
                  (mkServer [mkClient 3 9 "" "S"; mkClient 2 8 "andy" "S";
                             mkClient 1 7 "ken" "S"; mkClient 0 6 "" "T"] ["T"; "S"])
                  1 (mkClient 1 7 "ken" "S") (mkMessage MESSAGE 5 "ken" "hello")
                  eq_refl ltac:(discriminate) ltac:(discriminate) eq_refl
                  ltac:(unfold terminated, MAX_NAME; simpl; lia)
                  ltac:(unfold terminated, MAX_NAME; simpl; lia)
                  ltac:(repeat split; try reflexivity;
                        unfold MAX_NAME, MAX_DATA; simpl; lia))).
Defined.

(** Where the bound of C5 fails.  NEW_SESS with a name of [MAX_NAME] bytes
    or more creates the session and stores [MAX_NAME] bytes of the name in
    [client->session] and in the [session_id] of the new node: both arrays
    are full and neither holds a terminator.  The [strcmp]s of
    [broadcast_message] on such a session read past the arrays. *)
Lemma long_session_name_not_terminated (st : server) (client : ptr) (c : client_t)
    (msg : message) :
  deref client st = Some c -> session c = "" -> type msg = NEW_SESS ->
  find_session (data msg) st = false -> MAX_NAME <= String.length (data msg) ->
  exists st' c',
    process_message client msg st =
      Some (st', send_message_to_client (sockfd c) (reply_text NS_ACK "Session created")) /\
    deref client st' = Some c' /\
    session_list st' = session c' :: session_list st /\
    String.length (session c') = MAX_NAME /\
    ~ terminated (session c') MAX_NAME.
Proof.
  intros Hc Hs Ht Hf Hlen.
  exists (write_session client (strncpy (data msg) MAX_NAME) (add_session (data msg) st)),
         (set_session (strncpy (data msg) MAX_NAME) c).
  split; [|split; [|split; [reflexivity|]]].
  - unfold process_message. rewrite Hc. switch_on Ht. rewrite Hs, Hf. reflexivity.
  - rewrite deref_write_session. unfold deref, add_session. cbn [client_list].
    fold (deref client st). now rewrite Hc.
  - unfold terminated. cbn [set_session session]. rewrite (strncpy_fills _ _ Hlen).
    split; [reflexivity | lia].
Qed.

Lemma long_session_name_not_terminated_witness :
  exists st' c',
    process_message 1
      (mkMessage NEW_SESS 50 "ken" "aaaaaaaaaaaaaaaaaaaaaaaaaaaaaaaaaaaaaaaaaaaaaaaaaa")
      (mkServer [mkClient 1 7 "ken" ""] []) =
      Some (st', send_message_to_client 7 (reply_text NS_ACK "Session created")) /\
    deref 1 st' = Some c' /\
    session_list st' = [session c'] /\
    String.length (session c') = MAX_NAME /\
    ~ terminated (session c') MAX_NAME.
Proof.
  apply (long_session_name_not_terminated (mkServer [mkClient 1 7 "ken" ""] []) 1
           (mkClient 1 7 "ken" "")
           (mkMessage NEW_SESS 50 "ken"
              "aaaaaaaaaaaaaaaaaaaaaaaaaaaaaaaaaaaaaaaaaaaaaaaaaa"));
    reflexivity.
Defined.

(** ** No operation but LOGIN looks at the login *)

(** A line of the listing is not cut by [char line[128]] when the two
    strings it prints are terminated in their arrays. *)
Lemma query_line_whole (cur : client_t) :
  terminated (id cur) MAX_NAME -> terminated (session cur) MAX_NAME ->
  query_line cur =
    id cur ++ " (session: " ++
    (if Nat.eqb (String.length (session cur)) 0 then "None" else session cur) ++ "), ".
Proof.
  unfold terminated, MAX_NAME, query_line, snprintf. intros Hi Hs.
  apply substring_whole. rewrite !string_length_app.
  destruct (Nat.eqb (String.length (session cur)) 0); cbn [String.length]; lia.
Qed.

Lemma query_list_lines (st : server) :
  registry_terminated st ->
  query_list st =
    "Clients: " ++
    String.concat ""
      (map (fun cur =>
              id cur ++ " (session: " ++
              (if Nat.eqb (String.length (session cur)) 0 then "None" else session cur) ++
              "), ")
         (client_list st)) ++
    " Sessions: " ++ String.concat "" (map (fun sess => sess ++ ", ") (session_list st)).
Proof.
  intros [Hc _]. unfold query_list. do 3 f_equal.
  apply map_ext_in. intros cur Hin. destruct (Hc cur Hin). now apply query_line_whole.
Qed.

(** The QU_ACK of a QUERY whose listing fits the buffer, byte for byte. *)
Lemma query_reply_bytes (client : ptr) (c : client_t) (msg : message) (st : server) :
  deref client st = Some c -> type msg = QUERY -> listing_fits st ->
  process_message client msg st =
    Some (st, [Send (sockfd c)
                 (frame_line (mkMessage QU_ACK (N.of_nat (String.length (query_list st)))
                                "server" (query_list st))
                  ++ String newline "")]).
Proof.
  intros Hc Ht Hfit. unfold process_message. rewrite Hc. switch_on Ht.
  unfold listing_fits, terminated in Hfit.
  unfold strncpy at 1 2. rewrite substring_whole by lia.
  do 2 f_equal. apply send_message_whole.
  unfold message_fits. cbn [type size source data set_size set_data set_type].
  split; [reflexivity|]. split; [|split; [cbn; unfold MAX_NAME; lia | assumption]].
  apply (N.lt_trans _ (N.of_nat MAX_DATA)); [lia | reflexivity].
Qed.








(** ** What one step does to the client list *)

Lemma remove_session_if_empty_clients (s : string) (st : server) :
  client_list (remove_session_if_empty s st) = client_list st.
Proof. unfold remove_session_if_empty. now destruct (session_has_clients s st). Qed.

Lemma valid_user_id (i password : string) :
  is_valid_user i password = true -> i <> "" /\ strncpy i MAX_NAME = i.
Proof.
  unfold is_valid_user, allowed_users. cbn [existsb fst snd]. rewrite orb_false_r.
  intro H. apply orb_prop in H as [H|H]; apply andb_prop in H as [H _];
    apply String.eqb_eq in H; subst i; split; try discriminate; reflexivity.
Qed.

(** [process_message] leaves the client list alone, or writes the session
    of [client], or (a successful LOGIN) writes its identifier. *)
Lemma process_message_shape (client : ptr) (msg : message) (st st' : server)
    (out : list effect) :
  process_message client msg st = Some (st', out) ->
  client_list st' = client_list st \/
  (exists v, client_list st' = store client (set_session v) (client_list st)) \/
  (type msg = LOGIN /\
   is_valid_user (source msg) (data msg) = true /\
   is_already_logged_in (source msg) st = false /\
   client_list st' = store client (set_id (strncpy (source msg) MAX_NAME)) (client_list st)).
Proof.
  unfold process_message. destruct (deref client st) as [c|]; [|discriminate].
  intro H. injection H as H.
  destruct (N.eqb_spec (type msg) LOGIN) as [Ht|_].
  { destruct (is_valid_user (source msg) (data msg)) eqn:Hv;
      [destruct (is_already_logged_in (source msg) st) eqn:Hl|];
      cbn [andb negb] in H; injection H as <- <-; auto.
    right. right. auto. }
  destruct (N.eqb (type msg) EXIT).
  { destruct (Nat.ltb 0 (String.length (session c))); injection H as <- <-; auto.
    right. left. exists "". now rewrite remove_session_if_empty_clients. }
  destruct (N.eqb (type msg) JOIN).
  { destruct (negb (find_session (data msg) st));
      [|destruct (negb (Nat.eqb (String.length (session c)) 0))];
      injection H as <- <-; auto.
    right. left. eexists. reflexivity. }
  destruct (N.eqb (type msg) NEW_SESS).
  { destruct (negb (Nat.eqb (String.length (session c)) 0));
      [|destruct (find_session (data msg) st)];
      injection H as <- <-; auto.
    right. left. eexists. reflexivity. }
  destruct (N.eqb (type msg) LEAVE_SESS).
  { destruct (Nat.eqb (String.length (session c)) 0); injection H as <- <-; auto.
    right. left. exists "". now rewrite remove_session_if_empty_clients. }
  destruct (N.eqb (type msg) MESSAGE); [injection H as <- <-; auto|].
  destruct (N.eqb (type msg) QUERY); injection H as <- <-; auto.
Qed.

Lemma process_message_addrs (client : ptr) (msg : message) (st st' : server)
    (out : list effect) :
  process_message client msg st = Some (st', out) ->
  map addr (client_list st') = map addr (client_list st).
Proof.
  intro H. destruct (process_message_shape _ _ _ _ _ H) as [E|[[v E]|(_ & _ & _ & E)]];
    rewrite E; [reflexivity | |]; now apply store_addr.
Qed.

Lemma In_store (p : ptr) (f : client_t -> client_t) (l : list client_t) (c' : client_t) :
  In c' (store p f l) ->
  In c' l \/ exists c0, In c0 l /\ addr c0 = p /\ c' = f c0.
Proof.
  induction l as [|cur l IH]; simpl; [intros []|].
  destruct (Nat.eqb_spec (addr cur) p) as [E|E]; simpl.
  - intros [<-|H]; [right; exists cur; auto | auto].
  - intros [<-|H]; [auto|]. destruct (IH H) as [H'|(c0 & H1 & H2 & H3)]; [auto|].
    right. exists c0. auto.
Qed.

Lemma In_unlink_client (p : ptr) (l : list client_t) (c : client_t) :
  In c (unlink_client p l) -> In c l.
Proof.
  induction l as [|cur l IH]; simpl; [intros []|].
  destruct (Nat.eqb (addr cur) p); simpl; [auto|].
  intros [<-|H]; auto.
Qed.

Lemma unlink_client_keeps (p q : ptr) (l : list client_t) :
  In q (map addr l) -> q <> p -> In q (map addr (unlink_client p l)).
Proof.
  intros H Hq. induction l as [|cur l IH]; simpl in *; [contradiction|].
  destruct (Nat.eqb_spec (addr cur) p) as [E|E]; simpl.
  - destruct H as [H|H]; [congruence | assumption].
  - destruct H as [H|H]; auto.
Qed.

Lemma run_app (tr1 tr2 : list event) (st : server) :
  run (tr1 ++ tr2) st =
  match run tr1 st with
  | Some (st1, out1) =>
      match run tr2 st1 with
      | Some (st2, out2) => Some (st2, (out1 ++ out2)%list)
      | None => None
      end
  | None => None
  end.
Proof.
  revert st. induction tr1 as [|e tr1 IH]; intro st; simpl.
  - destruct (run tr2 st) as [[st2 out2]|]; reflexivity.
  - destruct (exec_event e st) as [[st' out]|]; [|reflexivity].
    rewrite IH. destruct (run tr1 st') as [[st1 out1]|]; [|reflexivity].
    destruct (run tr2 st1) as [[st2 out2]|]; [|reflexivity].
    now rewrite app_assoc.
Qed.

Lemma run_snoc (tr : list event) (e : event) (st0 st' : server) (out : list effect) :
  run (tr ++ [e]) st0 = Some (st', out) ->
  exists st out1 out2,
    run tr st0 = Some (st, out1) /\ exec_event e st = Some (st', out2).
Proof.
  rewrite run_app. destruct (run tr st0) as [[st out1]|]; [|discriminate].
  simpl. destruct (exec_event e st) as [[st2 out2]|] eqn:E; [|discriminate].
  intro H. injection H as <- _. exists st, out1, out2. split; [reflexivity | exact E].
Qed.

(** ** I1: logged-in identifiers are unique *)

Section UniqueIdentifiers.

Variable p : ptr.

Lemma ids_after_session_write (v : string) (l : list client_t) :
  map id (store p (set_session v) l) = map id l.
Proof.
  induction l as [|cur l IH]; simpl; [reflexivity|].
  destruct (Nat.eqb (addr cur) p); simpl; [reflexivity | now rewrite IH].
Qed.

Lemma ids_after_id_write (v : string) (l : list client_t) (i : string) :
  In i (map id (store p (set_id v) l)) -> i = v \/ In i (map id l).
Proof.
  induction l as [|cur l IH]; simpl; [intros []|].
  destruct (Nat.eqb (addr cur) p); simpl.
  - intros [<-|H]; auto.
  - intros [<-|H]; [auto|]. destruct (IH H); auto.
Qed.

Lemma ids_after_login (v : string) (l : list client_t) :
  NoDup (filter logged (map id l)) ->
  existsb (fun cur => String.eqb (id cur) v) l = false ->
  NoDup (filter logged (map id (store p (set_id v) l))).
Proof.
  induction l as [|cur l IH]; simpl; [constructor|].
  intros Hnd Hex. apply orb_false_elim in Hex as [Hcur Hex].
  assert (Hv : ~ In v (map id l)).
  { intro H. apply in_map_iff in H as (c & E & Hin).
    assert (existsb (fun cur => String.eqb (id cur) v) l = true).
    { apply existsb_exists. exists c. split; [assumption | now apply String.eqb_eq]. }
    congruence. }
  assert (Htail : NoDup (filter logged (map id l))).
  { destruct (logged (id cur)); [now inversion Hnd | assumption]. }
  destruct (Nat.eqb (addr cur) p); simpl.
  - destruct (logged v); [|assumption].
    constructor; [|assumption]. intro H. apply filter_In in H as [H _]. contradiction.
  - destruct (logged (id cur)) eqn:K; [|now apply IH].
    constructor; [|now apply IH].
    intro H. apply filter_In in H as [H _].
    apply ids_after_id_write in H as [H|H].
    + apply String.eqb_neq in Hcur. congruence.
    + inversion Hnd as [|x xs Hnotin _]; subst. apply Hnotin.
      apply filter_In. split; assumption.
Qed.

Lemma ids_after_unlink (l : list client_t) :
  NoDup (filter logged (map id l)) ->
  NoDup (filter logged (map id (unlink_client p l))).
Proof.
  induction l as [|cur l IH]; simpl; [constructor|].
  intro Hnd.
  assert (Htail : NoDup (filter logged (map id l))).
  { destruct (logged (id cur)); [now inversion Hnd | assumption]. }
  destruct (Nat.eqb (addr cur) p); simpl; [assumption|].
  destruct (logged (id cur)) eqn:K; [|now apply IH].
  constructor; [|now apply IH].
  inversion Hnd as [|x xs Hnotin _]; subst. intro H. apply Hnotin.
  apply filter_In in H as [H K']. apply filter_In. split; [|assumption].
  apply in_map_iff in H as (c & E & Hin). apply in_map_iff.
  exists c. split; [assumption | now apply In_unlink_client in Hin].
Qed.

Lemma unlink_client_unique_ids (st : server) :
  unique_ids st -> unique_ids (remove_client p st).
Proof. apply ids_after_unlink. Qed.

Lemma process_message_unique_ids (msg : message) (st st' : server) (out : list effect) :
  unique_ids st -> process_message p msg st = Some (st', out) -> unique_ids st'.
Proof.
  unfold unique_ids, logged_in_ids. intros Hu H.
  destruct (process_message_shape _ _ _ _ _ H) as [E|[[v E]|(_ & Hv & Hl & E)]]; rewrite E.
  - assumption.
  - now rewrite ids_after_session_write.
  - apply ids_after_login; [assumption|].
    destruct (valid_user_id _ _ Hv) as [_ ->]. exact Hl.
Qed.

End UniqueIdentifiers.

Lemma handle_frame_inv (client : ptr) (buffer : string) (st st' : server)
    (out : list effect) (continue : bool) :
  handle_frame client buffer st = Some (st', out, continue) ->
  ((fst (sscanf_message buffer zero_message) <? 3)%Z = true /\ st' = st /\ continue = true) \/
  (exists fields msg,
     sscanf_message buffer zero_message = (fields, msg) /\ (3 <= fields)%Z /\
     process_message client msg st = Some (st', out) /\
     continue = negb (type msg =? EXIT)%N).
Proof.
  unfold handle_frame. destruct (sscanf_message buffer zero_message) as [fields msg].
  simpl. destruct (Z.ltb_spec fields 3) as [F|F].
  - intro H. injection H as <- _ <-. auto.
  - destruct (process_message client msg st) as [[st1 out1]|] eqn:Hp; [|discriminate].
    intro H. injection H as <- <- <-. right. exists fields, msg. auto.
Qed.

Lemma exec_frame_inv (client : ptr) (buffer : string) (st st' : server)
    (out : list effect) :
  exec_event (Frame client buffer) st = Some (st', out) ->
  exists st1 continue,
    handle_frame client (c_string buffer) st = Some (st1, out, continue) /\
    st' = (if continue then st1 else remove_client client st1).
Proof.
  cbn [exec_event]. destruct (Nat.eqb (String.length buffer) 0); [discriminate|].
  destruct (handle_frame client (c_string buffer) st) as [[[st1 out1] [|]]|];
    [| |discriminate];
    intro H; injection H as <- <-; eexists _, _; split; reflexivity.
Qed.

Lemma exec_event_unique_ids (e : event) (st st' : server) (out : list effect) :
  unique_ids st -> exec_event e st = Some (st', out) -> unique_ids st'.
Proof.
  intros Hu H. destruct e as [client fd|client buffer|client].
  - simpl in H. destruct (deref client st); [discriminate|]. injection H as <- _.
    exact Hu.
  - apply exec_frame_inv in H as (st1 & k & Hf & ->).
    assert (unique_ids st1).
    { apply handle_frame_inv in Hf as [(_ & -> & _)|(fields & msg & _ & _ & Hp & _)];
        [assumption | now apply (process_message_unique_ids _ _ _ _ _ Hu Hp)]. }
    destruct k; [assumption | now apply unlink_client_unique_ids].
  - simpl in H. destruct (deref client st); [|discriminate]. injection H as <- _.
    now apply unlink_client_unique_ids.
Qed.

Lemma run_unique_ids (tr : list event) : forall (st st' : server) (out : list effect),
  unique_ids st -> run tr st = Some (st', out) -> unique_ids st'.
Proof.
  induction tr as [|e tr IH]; intros st st' out Hu H; simpl in H.
  - now injection H as <- _.
  - destruct (exec_event e st) as [[st1 out1]|] eqn:He; [|discriminate].
    destruct (run tr st1) as [[st2 out2]|] eqn:Hr; [|discriminate].
    injection H as <- _.
    apply (IH st1 st2 out2); [|assumption].
    now apply (exec_event_unique_ids e st st1 out1).
Qed.

Lemma unlink_client_distinct (p : ptr) (l : list client_t) :
  NoDup (map addr l) -> NoDup (map addr (unlink_client p l)).
Proof.
  induction l as [|cur l IH]; simpl; [constructor|].
  intro Hnd. inversion Hnd as [|x xs Hnotin Hnd']; subst.
  destruct (Nat.eqb (addr cur) p); simpl; [assumption|].
  constructor; [|now apply IH].
  intro H. apply Hnotin. apply in_map_iff in H as (c & E & Hin).
  apply in_map_iff. exists c. split; [assumption | now apply In_unlink_client in Hin].
Qed.

Lemma exec_event_distinct_nodes (e : event) (st st' : server) (out : list effect) :
  distinct_nodes st -> exec_event e st = Some (st', out) -> distinct_nodes st'.
Proof.
  unfold distinct_nodes. intros Hd H. destruct e as [client fd|client buffer|client].
  - simpl in H. destruct (deref client st) eqn:Hc; [discriminate|]. injection H as <- _.
    simpl. constructor; [now apply deref_None | assumption].
  - apply exec_frame_inv in H as (st1 & k & Hf & ->).
    assert (Hd1 : NoDup (map addr (client_list st1))).
    { apply handle_frame_inv in Hf as [(_ & -> & _)|(fields & msg & _ & _ & Hp & _)];
        [assumption | now rewrite (process_message_addrs _ _ _ _ _ Hp)]. }
    destruct k; [assumption | now apply unlink_client_distinct].
  - simpl in H. destruct (deref client st); [|discriminate]. injection H as <- _.
    now apply unlink_client_distinct.
Qed.

(** When no thread runs inside the pass of another, the identifiers of the
    logged-in clients stay pairwise different: a LOGIN whose identifier a
    registered client holds is answered LO_NAK and changes nothing. *)
Lemma identifiers_unique_without_interleaving (tr : list event) (st : server)
    (out : list effect) :
  run tr initial_server = Some (st, out) ->
  unique_ids st /\
  (forall client c msg,
     deref client st = Some c -> type msg = LOGIN ->
     In (source msg) (logged_in_ids st) ->
     process_message client msg st =
       Some (st, send_message_to_client (sockfd c)
                   (reply_text LO_NAK "Invalid credentials or already logged in"))) /\
  (forall e st' out', exec_event e st = Some (st', out') -> unique_ids st').
Proof.
  intro Hrun.
  assert (Hu : unique_ids st).
  { apply (run_unique_ids tr initial_server st out); [constructor | assumption]. }
  split; [exact Hu | split].
  - intros client c msg Hc Ht Hin.
    unfold process_message. rewrite Hc. switch_on Ht.
    assert (Hl : is_already_logged_in (source msg) st = true).
    { unfold logged_in_ids in Hin. apply filter_In in Hin as [Hin _].
      apply in_map_iff in Hin as (c0 & E & Hin0).
      apply existsb_exists. exists c0. split; [assumption | now apply String.eqb_eq]. }
    rewrite Hl, andb_false_r. reflexivity.
  - intros e st' out' He. now apply (exec_event_unique_ids e st st' out').
Qed.

(** ken logs in on one connection; a second connection that logs in as ken
    after that is refused. *)
Lemma identifiers_unique_without_interleaving_witness :
  run [Accept 1 7; Frame 1 "1:5:ken:12345"; Accept 2 8] initial_server =
    Some (mkServer [mkClient 2 8 "" ""; mkClient 1 7 "ken" ""] [],
          [Send 7 ("2:16:server:Login successful" ++ String newline "")]) /\
  unique_ids (mkServer [mkClient 2 8 "" ""; mkClient 1 7 "ken" ""] []) /\
  process_message 2 (mkMessage LOGIN 5 "ken" "12345")
    (mkServer [mkClient 2 8 "" ""; mkClient 1 7 "ken" ""] []) =
    Some (mkServer [mkClient 2 8 "" ""; mkClient 1 7 "ken" ""] [],
          [Send 8 ("3:40:server:Invalid credentials or already logged in"
                   ++ String newline "")]).
Proof.
  split; [reflexivity|].
  destruct (identifiers_unique_without_interleaving
              [Accept 1 7; Frame 1 "1:5:ken:12345"; Accept 2 8]
              (mkServer [mkClient 2 8 "" ""; mkClient 1 7 "ken" ""] [])
              [Send 7 ("2:16:server:Login successful" ++ String newline "")]
              eq_refl) as (H1 & H2 & _).
  split; [exact H1|].
  apply (H2 2 (mkClient 2 8 "" "") (mkMessage LOGIN 5 "ken" "12345") eq_refl eq_refl).
  simpl. left. reflexivity.
Defined.

(** The LOGIN case is its test followed by the rest of the case. *)
Lemma login_case (client : ptr) (msg : message) (st : server) :
  type msg = LOGIN ->
  process_message client msg st = login_finish client msg (login_test msg st) st.
Proof.
  intro Ht. unfold process_message, login_finish, login_test.
  destruct (deref client st) as [c|]; [|reflexivity]. switch_on Ht. reflexivity.
Qed.

(** Two threads that have both passed the test of the LOGIN case for the
    same identifier both write it, whatever the other has written since:
    [login_finish] does not look at the list again. *)
Lemma login_finish_writes (p1 p2 : ptr) (c1 c2 : client_t) (msg : message) (st : server) :
  deref p1 st = Some c1 -> deref p2 st = Some c2 -> p1 <> p2 ->
  exists st1 st2 out1 out2 c1' c2',
    login_finish p1 msg true st = Some (st1, out1) /\
    login_finish p2 msg true st1 = Some (st2, out2) /\
    deref p1 st2 = Some c1' /\ deref p2 st2 = Some c2' /\
    id c1' = strncpy (source msg) MAX_NAME /\ id c2' = strncpy (source msg) MAX_NAME.
Proof.
  intros H1 H2 Hne.
  assert (E2 : deref p2 (write_id p1 (strncpy (source msg) MAX_NAME) st) = Some c2).
  { unfold deref, write_id. cbn [client_list].
    rewrite find_store_other; [assumption | reflexivity | congruence]. }
  assert (E1 : deref p1 (write_id p1 (strncpy (source msg) MAX_NAME) st) =
               Some (set_id (strncpy (source msg) MAX_NAME) c1)).
  { now rewrite deref_write_id, H1. }
  exists (write_id p1 (strncpy (source msg) MAX_NAME) st),
         (write_id p2 (strncpy (source msg) MAX_NAME)
            (write_id p1 (strncpy (source msg) MAX_NAME) st)),
         (send_message_to_client (sockfd c1) (reply_text LO_ACK "Login successful")),
         (send_message_to_client (sockfd c2) (reply_text LO_ACK "Login successful")),
         (set_id (strncpy (source msg) MAX_NAME) c1),
         (set_id (strncpy (source msg) MAX_NAME) c2).
  unfold login_finish. rewrite H1, E2.
  split; [reflexivity|]. split; [reflexivity|].
  split; [|split; [now rewrite deref_write_id, E2 | split; reflexivity]].
  unfold deref, write_id. cbn [client_list]. rewrite find_store_other; [exact E1| |].
  - reflexivity.
  - assumption.
Qed.

(** C3, on the code.  Two connections are accepted and each sends the LOGIN
    line of ken.  The thread of the first evaluates the test of the LOGIN
    case, then the thread of the second evaluates it, before the first has
    written [client->id]: both tests pass, because [is_already_logged_in]
    gives [clients_mutex] back before the identifier is stored.  Both
    threads then finish the case: both connections are answered LO_ACK and
    both nodes hold ["ken"], so the identifiers of the registry are not
    pairwise different.  Had the second thread run its test after the write
    of the first, it would have been refused. *)
Theorem login_race_registers_twice :
  add_client (mkClient 2 8 "" "") (add_client (mkClient 1 7 "" "") initial_server) =
    mkServer [mkClient 2 8 "" ""; mkClient 1 7 "" ""] [] /\
  sscanf_message (c_string "1:5:ken:12345") zero_message =
    (4%Z, mkMessage LOGIN 5 "ken" "12345") /\
  login_test (mkMessage LOGIN 5 "ken" "12345")
    (mkServer [mkClient 2 8 "" ""; mkClient 1 7 "" ""] []) = true /\
  login_finish 1 (mkMessage LOGIN 5 "ken" "12345") true
    (mkServer [mkClient 2 8 "" ""; mkClient 1 7 "" ""] []) =
    Some (mkServer [mkClient 2 8 "" ""; mkClient 1 7 "ken" ""] [],
          [Send 7 ("2:16:server:Login successful" ++ String newline "")]) /\
  login_finish 2 (mkMessage LOGIN 5 "ken" "12345") true
    (mkServer [mkClient 2 8 "" ""; mkClient 1 7 "ken" ""] []) =
    Some (mkServer [mkClient 2 8 "ken" ""; mkClient 1 7 "ken" ""] [],
          [Send 8 ("2:16:server:Login successful" ++ String newline "")]) /\
  logged_in_ids (mkServer [mkClient 2 8 "ken" ""; mkClient 1 7 "ken" ""] []) =
    ["ken"; "ken"] /\
  ~ unique_ids (mkServer [mkClient 2 8 "ken" ""; mkClient 1 7 "ken" ""] []) /\
  login_test (mkMessage LOGIN 5 "ken" "12345")
    (mkServer [mkClient 2 8 "" ""; mkClient 1 7 "ken" ""] []) = false /\
  process_message 2 (mkMessage LOGIN 5 "ken" "12345")
    (mkServer [mkClient 2 8 "" ""; mkClient 1 7 "ken" ""] []) =
    Some (mkServer [mkClient 2 8 "" ""; mkClient 1 7 "ken" ""] [],
          [Send 8 ("3:40:server:Invalid credentials or already logged in"
                   ++ String newline "")]).
Proof.
  repeat (split; [reflexivity|]).
  split; [|split; reflexivity].
  unfold unique_ids. cbn. intro H. inversion H as [|x l Hnotin _]; subst.
  apply Hnotin. now left.
Qed.

(** ** Who is in the client registry *)

Lemma deref_linked (p : ptr) (st : server) :
  deref p st <> None <-> In p (map addr (client_list st)).
Proof.
  split.
  - intro H. destruct (in_dec Nat.eq_dec p (map addr (client_list st))) as [Hin|Hout];
      [assumption|]. apply deref_None in Hout. contradiction.
  - intros Hin H. apply deref_None in H. contradiction.
Qed.

(** Where a node found after a step comes from: a node that was there
    before, with the same address and socket and with the same identifier
    unless the step is its successful LOGIN; or the node a new connection
    links, which has no identifier. *)
Lemma exec_event_provenance (e : event) (st st' : server) (out : list effect)
    (c' : client_t) :
  exec_event e st = Some (st', out) -> In c' (client_list st') ->
  (exists c, In c (client_list st) /\ addr c = addr c' /\ sockfd c = sockfd c' /\
             (id c = id c' \/ successful_login e st = Some (addr c', id c'))) \/
  (e = Accept (addr c') (sockfd c') /\ id c' = "").
Proof.
  intros He Hin. destruct e as [client fd|client buffer|client].
  - simpl in He. destruct (deref client st); [discriminate|]. injection He as <- _.
    simpl in Hin. destruct Hin as [<-|Hin]; [right; auto|].
    left. exists c'. auto.
  - apply exec_frame_inv in He as (st1 & k & Hf & ->).
    assert (Hin1 : In c' (client_list st1)).
    { destruct k; [assumption | now apply In_unlink_client in Hin]. }
    clear Hin. left.
    pose proof Hf as Hf'.
    apply handle_frame_inv in Hf as [(_ & -> & _)|(fields & msg & Hs & Hfields & Hp & _)];
      [exists c'; auto|].
    destruct (process_message_shape _ _ _ _ _ Hp) as [E|[[v E]|(Ht & Hv & Hl & E)]];
      rewrite E in Hin1.
    + exists c'. auto.
    + apply In_store in Hin1 as [H|(c0 & H0 & _ & ->)]; [exists c'; auto|].
      exists c0. auto.
    + apply In_store in Hin1 as [H|(c0 & H0 & Ha & ->)]; [exists c'; auto|].
      exists c0. repeat split; try assumption. right.
      cbn [successful_login set_id addr id]. rewrite Hs, Ht, Hv, Hl, Ha.
      destruct (Z.leb_spec 3 fields); [reflexivity | lia].
  - simpl in He. destruct (deref client st); [|discriminate]. injection He as <- _.
    apply In_unlink_client in Hin. left. exists c'. auto.
Qed.

(** Every registered node was linked by an accept of the run, and a node
    with an identifier got it from a successful LOGIN of the run. *)
Lemma run_history (tr : list event) : forall (st : server) (out : list effect),
  run tr initial_server = Some (st, out) ->
  forall c, In c (client_list st) ->
    In (Accept (addr c) (sockfd c)) tr /\
    (id c <> "" -> logged_in_during tr (addr c) (id c)).
Proof.
  induction tr as [|e tr IH] using rev_ind; intros st out Hrun c Hin.
  - simpl in Hrun. injection Hrun as <- _. destruct Hin.
  - destruct (run_snoc _ _ _ _ _ Hrun) as (st0 & out1 & out2 & Hrun0 & He).
    destruct (exec_event_provenance _ _ _ _ _ He Hin)
      as [(c0 & Hin0 & Ha & Hfd & Hid)|[-> Hid]].
    + destruct (IH st0 out1 Hrun0 c0 Hin0) as [Hacc Hlog].
      split; [apply in_or_app; left; congruence|].
      intro Hne. destruct Hid as [Hid|Hid].
      * rewrite Hid, Ha in Hlog.
        destruct (Hlog Hne) as (pre & e0 & post & st_pre & out_pre & -> & Hpre & Hsl & Hpost).
        exists pre, e0, (post ++ [e])%list, st_pre, out_pre.
        split; [now rewrite <- app_assoc|]. split; [assumption|]. split; [assumption|].
        intros fd Hfdin. apply in_app_or in Hfdin as [H|[H|[]]]; [now apply (Hpost fd)|].
        subst e. simpl in He.
        destruct (deref (addr c) st0) eqn:Hd; [discriminate|].
        apply deref_None in Hd. apply Hd. rewrite <- Ha. now apply in_map.
      * exists tr, e, [], st0, out1. repeat split; try assumption. intros fd [].
    + split; [apply in_or_app; right; now left | intro H; contradiction].
Qed.

(** One step changes who is linked only by linking the node of an accepted
    connection or unlinking the node of a connection that hung up or sent
    EXIT. *)
Lemma exec_event_membership (e : event) (st st' : server) (out : list effect) (p : ptr) :
  exec_event e st = Some (st', out) ->
  (deref p st = None -> deref p st' <> None -> exists fd, e = Accept p fd) /\
  (deref p st <> None -> deref p st' = None -> e = Hangup p \/ exit_frame e p).
Proof.
  intro He. rewrite !deref_linked, !deref_None.
  destruct e as [client fd|client buffer|client].
  - simpl in He. destruct (deref client st); [discriminate|]. injection He as <- _.
    simpl. split.
    + intros Hout [<-|Hin]; [eauto | contradiction].
    + intros Hin Hout. exfalso. apply Hout. now right.
  - apply exec_frame_inv in He as (st1 & k & Hf & ->).
    apply handle_frame_inv in Hf as [(_ & -> & ->)|(fields & msg & Hs & Hfields & Hp & ->)].
    + split; intros; contradiction.
    + pose proof (process_message_addrs _ _ _ _ _ Hp) as Ea.
      destruct (N.eqb_spec (type msg) EXIT) as [Ht|Ht]; cbn [negb].
      * unfold remove_client. cbn [client_list]. split.
        -- intros Hout Hin. exfalso. apply Hout. rewrite <- Ea.
           apply in_map_iff in Hin as (c & <- & Hc). apply in_map.
           now apply In_unlink_client in Hc.
        -- intros Hin Hout. right. exists buffer.
           destruct (Nat.eq_dec p client) as [->|Hne].
           ++ rewrite Hs. auto.
           ++ exfalso. apply Hout. apply unlink_client_keeps; [now rewrite Ea | assumption].
      * rewrite Ea. split; intros; contradiction.
  - simpl in He. destruct (deref client st); [|discriminate]. injection He as <- _.
    unfold remove_client. cbn [client_list]. split.
    + intros Hout Hin. exfalso. apply Hout.
      apply in_map_iff in Hin as (c1 & <- & Hc). apply in_map.
      now apply In_unlink_client in Hc.
    + intros Hin Hout. left.
      destruct (Nat.eq_dec p client) as [->|Hne]; [reflexivity|].
      exfalso. apply Hout. now apply unlink_client_keeps.
Qed.

(** C9, as the code has it.  In every state reached by a run from the
    initial state: a registered client is one whose connection the run
    accepted ([handle_client] links the node before it reads anything), and
    if its identifier is not empty, the run holds a successful LOGIN of that
    connection with that identifier.  A step adds a node to the registry
    only by accepting a connection, and takes one out only when that
    connection hangs up or its EXIT is processed.  The QU_ACK reply to
    QUERY, when the arrays of the registry are terminated and the listing
    fits its buffer, is the frame whose payload has one entry for each
    registered node, logged in or not. *)
Theorem registry_holds_connections (tr : list event) (st : server) (out : list effect) :
  run tr initial_server = Some (st, out) ->
  (forall c, In c (client_list st) ->
     In (Accept (addr c) (sockfd c)) tr /\
     (id c <> "" -> logged_in_during tr (addr c) (id c))) /\
  (forall e st' out' p, exec_event e st = Some (st', out') ->
     (deref p st = None -> deref p st' <> None -> exists fd, e = Accept p fd) /\
     (deref p st <> None -> deref p st' = None -> e = Hangup p \/ exit_frame e p)) /\
  (forall client c msg, deref client st = Some c -> type msg = QUERY ->
     registry_terminated st -> listing_fits st ->
     process_message client msg st =
       Some (st, [Send (sockfd c)
                    (frame_line (mkMessage QU_ACK (N.of_nat (String.length (query_list st)))
                                   "server" (query_list st))
                     ++ String newline "")]) /\
     query_list st =
       "Clients: " ++
       String.concat ""
         (map (fun cur =>
                 id cur ++ " (session: " ++
                 (if Nat.eqb (String.length (session cur)) 0 then "None" else session cur) ++
                 "), ")
            (client_list st)) ++
       " Sessions: " ++ String.concat "" (map (fun sess => sess ++ ", ") (session_list st))).
Proof.
  intro Hrun. split; [|split].
  - intros c Hin. now apply (run_history tr st out).
  - intros e st' out' p He. now apply (exec_event_membership e st st' out').
  - intros client c msg Hc Ht Hterm Hfit.
    split; [now apply query_reply_bytes | now apply query_list_lines].
Qed.

Lemma registry_holds_connections_witness :
  run [Accept 1 7; Frame 1 "1:5:ken:12345"; Accept 2 8] initial_server =
    Some (mkServer [mkClient 2 8 "" ""; mkClient 1 7 "ken" ""] [],
          [Send 7 ("2:16:server:Login successful" ++ String newline "")]) /\
  In (Accept 1 7) [Accept 1 7; Frame 1 "1:5:ken:12345"; Accept 2 8] /\
  logged_in_during [Accept 1 7; Frame 1 "1:5:ken:12345"; Accept 2 8] 1 "ken".
Proof.
  split; [reflexivity|].
  destruct (registry_holds_connections
              [Accept 1 7; Frame 1 "1:5:ken:12345"; Accept 2 8]
              (mkServer [mkClient 2 8 "" ""; mkClient 1 7 "ken" ""] [])
              [Send 7 ("2:16:server:Login successful" ++ String newline "")]
              eq_refl) as (H & _).
  destruct (H (mkClient 1 7 "ken" "")) as [H1 H2]; [simpl; auto|].
  split; [exact H1 | apply H2; discriminate].
Defined.

(** C9 as stated fails: a connection is accepted and sends QUERY without
    ever sending LOGIN.  Its node is in the registry, the QU_ACK it gets
    lists it (with an empty identifier and session "None"), and no event
    of the run is a successful LOGIN. *)
Lemma query_lists_client_without_login :
  run [Accept 1 7; Frame 1 "12:0:x:"] initial_server =
    Some (mkServer [mkClient 1 7 "" ""] [],
          [Send 7 ("13:38:server:Clients:  (session: None),  Sessions: "
                   ++ String newline "")]) /\
  query_list (mkServer [mkClient 1 7 "" ""] []) =
    "Clients: " ++ query_line (mkClient 1 7 "" "") ++ " Sessions: " /\
  (forall e st0, In e [Accept 1 7; Frame 1 "12:0:x:"] -> successful_login e st0 = None) /\
  forall i, ~ logged_in_during [Accept 1 7; Frame 1 "12:0:x:"] 1 i.
Proof.
  assert (Hno : forall e st0, In e [Accept 1 7; Frame 1 "12:0:x:"] ->
                  successful_login e st0 = None).
  { intros e st0 [<-|[<-|[]]]; reflexivity. }
  split; [reflexivity|]. split; [reflexivity|]. split; [exact Hno|].
  intros i (pre & e & post & st_pre & out_pre & E & _ & Hsl & _).
  rewrite Hno in Hsl; [discriminate|].
  rewrite E. apply in_or_app. right. now left.
Qed.

(** ** The read loop *)

Lemma read_line_loop_length (room : nat) : forall (sock buf rest : string),
  read_line_loop room sock = Some (buf, rest) ->
  String.length buf + String.length rest <= String.length sock /\
  (buf <> "" -> String.length rest < String.length sock).
Proof.
  induction room as [|room IH]; intros sock buf rest H; simpl in H.
  - injection H as <- <-. simpl. split; [lia | intro F; now elim F].
  - destruct sock as [|ch sock]; [discriminate|].
    destruct (Ascii.eqb ch newline).
    + injection H as <- <-. simpl. split; [lia | intro F; now elim F].
    + destruct (read_line_loop room sock) as [[buf' r]|] eqn:E; [|discriminate].
      injection H as <- <-. destruct (IH _ _ _ E) as [L _]. simpl. split; intros; lia.
Qed.

Lemma read_line_result (sock : string) (max_len : nat) (n : Z) (buffer rest : string) :
  read_line sock max_len = (n, buffer, rest) ->
  n = Z.of_nat (String.length buffer) /\
  ((0 < n)%Z -> String.length rest < String.length sock).
Proof.
  unfold read_line.
  destruct (read_line_loop (max_len - 1) sock) as [[buf r]|] eqn:E;
    intro H; injection H as <- <- <-.
  - split; [reflexivity|]. intro Hn.
    apply (read_line_loop_length _ _ _ _ E). destruct buf; [simpl in Hn; lia | discriminate].
  - split; [reflexivity | lia].
Qed.

Lemma process_message_linked (client : ptr) (msg : message) (st : server) :
  deref client st <> None ->
  exists st' out, process_message client msg st = Some (st', out) /\ deref client st' <> None.
Proof.
  intro H. destruct (process_message client msg st) as [[st' out]|] eqn:Hp.
  - exists st', out. split; [reflexivity|].
    apply deref_linked. rewrite (process_message_addrs _ _ _ _ _ Hp).
    now apply deref_linked.
  - unfold process_message in Hp. destruct (deref client st); [discriminate | contradiction].
Qed.

(** The loop of [handle_client] ends: with fuel for every byte of the
    socket it returns a state. *)
Lemma handle_client_loop_total (fuel : nat) : forall (client : ptr) (sock : string) (st : server),
  String.length sock <= fuel -> deref client st <> None ->
  exists st' out, handle_client_loop fuel client sock st = Some (st', out).
Proof.
  induction fuel as [|fuel IH]; intros client sock st Hlen Hc.
  - destruct sock; [|simpl in Hlen; lia]. simpl. eauto.
  - cbn [handle_client_loop].
    destruct (read_line sock LINE_BUFFER) as [[n buffer] rest] eqn:Hr.
    destruct (Z.ltb_spec 0 n) as [Hn|Hn]; [|eauto].
    destruct (read_line_result _ _ _ _ _ Hr) as [_ Hshort]. specialize (Hshort Hn).
    unfold handle_frame.
    destruct (sscanf_message (c_string buffer) zero_message) as [fields msg].
    destruct (fields <? 3)%Z.
    + destruct (IH client rest st ltac:(lia) Hc) as (st' & out & ->). eauto.
    + destruct (process_message_linked client msg st Hc) as (st1 & out1 & -> & Hc1).
      destruct (negb (type msg =? EXIT)%N); [|eauto].
      destruct (IH client rest st1 ltac:(lia) Hc1) as (st' & out & ->). eauto.
Qed.

(** [handle_client] returns on every finite stream of bytes: a pass that
    stays in the loop has taken at least one byte off the socket. *)
Theorem handle_client_total (fd : Z) (client : ptr) (sock : string) (st : server) :
  exists st' out, handle_client fd client sock st = Some (st', out).
Proof.
  unfold handle_client.
  destruct (handle_client_loop_total (String.length sock) client sock
              (add_client (mkClient client fd "" "") st)) as (st' & out & ->).
  - lia.
  - unfold deref, add_client. simpl. now rewrite Nat.eqb_refl.
  - eauto.
Qed.

(** The path beside the failing one.  When [read_line] returns a line of
    more than 0 bytes whose C string [sscanf] does not take three fields
    from, the pass through the loop leaves the registries and the client
    untouched, writes the C string to stderr, and the loop goes on with the
    bytes that follow: the connection is not torn down. *)
Theorem malformed_frame_discarded (fuel : nat) (client : ptr) (sock : string)
    (st : server) (n : Z) (buffer rest : string) :
  read_line sock LINE_BUFFER = (n, buffer, rest) ->
  (0 < n)%Z ->
  (fst (sscanf_message (c_string buffer) zero_message) < 3)%Z ->
  let log := Stderr ("Malformed message: " ++ c_string buffer ++ String newline "") in
  handle_frame client (c_string buffer) st = Some (st, [log], true) /\
  handle_client_loop (S fuel) client sock st =
    match handle_client_loop fuel client rest st with
    | Some (st', out) => Some (st', log :: out)
    | None => None
    end.
Proof.
  intros Hr Hn Hf log.
  assert (Hh : handle_frame client (c_string buffer) st = Some (st, [log], true)).
  { unfold handle_frame.
    destruct (sscanf_message (c_string buffer) zero_message) as [fields msg].
    simpl in Hf. destruct (Z.ltb_spec fields 3); [reflexivity | lia]. }
  split; [exact Hh|].
  cbn [handle_client_loop]. rewrite Hr.
  destruct (Z.ltb_spec 0 n); [|lia]. rewrite Hh.
  destruct (handle_client_loop fuel client rest st) as [[st' out]|]; reflexivity.
Qed.

Lemma malformed_frame_discarded_witness :
  handle_client_loop 9 1 ("hello" ++ String newline ("12:0:x:" ++ String newline ""))
    (mkServer [mkClient 1 7 "" ""] []) =
  Some (mkServer [mkClient 1 7 "" ""] [],
        [Stderr ("Malformed message: hello" ++ String newline "");
         Send 7 ("13:38:server:Clients:  (session: None),  Sessions: "
                 ++ String newline "")]).
Proof.
  pose proof (malformed_frame_discarded 8 1
                ("hello" ++ String newline ("12:0:x:" ++ String newline ""))
                (mkServer [mkClient 1 7 "" ""] []) 5 "hello"
                ("12:0:x:" ++ String newline "")
                eq_refl eq_refl eq_refl) as (_ & H).
  exact H.
Defined.

(** A line that holds a [NUL] is malformed or not by the bytes before it,
    which are also all that is written to stderr. *)
Lemma line_with_nul_is_cut :
  handle_client_loop 9 1
    (String "1" (String ":" (String NUL ("2:ken:12345" ++ String newline ""))))
    (mkServer [mkClient 1 7 "" ""] []) =
  Some (mkServer [mkClient 1 7 "" ""] [],
        [Stderr ("Malformed message: 1:" ++ String newline "")]).
Proof. reflexivity. Qed.

(** C7, on the code.  The empty line is a line that does not parse into
    three fields, and it ends the connection: [read_line] returns 0 for it,
    the value it returns for a closed connection, so the loop of
    [handle_client] is left where the other malformed lines are logged and
    skipped.  The QUERY that follows the empty line is never read (it would
    have been answered), nothing is written to stderr, and [handle_client]
    unlinks the client. *)
Theorem empty_line_ends_the_loop :
  (fst (sscanf_message (c_string "") zero_message) < 3)%Z /\
  read_line (String newline ("12:0:x:" ++ String newline "")) LINE_BUFFER =
    (0%Z, "", "12:0:x:" ++ String newline "") /\
  (forall fuel,
     handle_client_loop fuel 1 (String newline ("12:0:x:" ++ String newline ""))
       (mkServer [mkClient 1 7 "" ""] []) =
     Some (mkServer [mkClient 1 7 "" ""] [], [])) /\
  handle_client_loop 9 1 ("12:0:x:" ++ String newline "")
    (mkServer [mkClient 1 7 "" ""] []) =
    Some (mkServer [mkClient 1 7 "" ""] [],
          [Send 7 ("13:38:server:Clients:  (session: None),  Sessions: "
                   ++ String newline "")]) /\
  handle_client_loop 9 1 ("hello" ++ String newline ("12:0:x:" ++ String newline ""))
    (mkServer [mkClient 1 7 "" ""] []) =
    Some (mkServer [mkClient 1 7 "" ""] [],
          [Stderr ("Malformed message: hello" ++ String newline "");
           Send 7 ("13:38:server:Clients:  (session: None),  Sessions: "
                   ++ String newline "")]) /\
  handle_client 7 1 (String newline ("12:0:x:" ++ String newline "")) initial_server =
    Some (initial_server, []).
Proof.
  split; [reflexivity|]. split; [reflexivity|]. split; [|repeat split; reflexivity].
  intros [|fuel]; reflexivity.
Qed.

(** * Further properties of the code *)

(** ** [read_line] *)

Lemma read_line_loop_spec (room : nat) : forall (sock buf rest : string),
  read_line_loop room sock = Some (buf, rest) ->
  String.length buf <= room /\ without newline buf = true /\
  (sock = buf ++ String newline rest \/
   (String.length buf = room /\ sock = buf ++ rest)).
Proof.
  induction room as [|room IH]; intros sock buf rest H; simpl in H.
  - injection H as <- <-. simpl. auto.
  - destruct sock as [|ch sock]; [discriminate|].
    destruct (Ascii.eqb_spec ch newline) as [->|Hch].
    + injection H as <- <-. simpl. split; [lia|]. auto.
    + destruct (read_line_loop room sock) as [[buf' r]|] eqn:E; [|discriminate].
      injection H as <- <-. destruct (IH _ _ _ E) as (L & W & D).
      split; [simpl; lia|]. split.
      * unfold without in *. cbn [string_forall]. rewrite W.
        apply Ascii.eqb_neq in Hch. now rewrite Hch.
      * destruct D as [->|[Hl ->]]; [left | right]; simpl; auto.
Qed.

Lemma read_line_loop_none (room : nat) : forall (sock : string),
  read_line_loop room sock = None ->
  String.length sock < room /\ without newline sock = true.
Proof.
  induction room as [|room IH]; intros sock H; simpl in H; [discriminate|].
  destruct sock as [|ch sock]; [simpl; split; [lia | reflexivity]|].
  destruct (Ascii.eqb_spec ch newline) as [->|Hch]; [discriminate|].
  destruct (read_line_loop room sock) as [[buf' r]|] eqn:E; [discriminate|].
  destruct (IH _ E) as [L W]. split; [simpl; lia|].
  unfold without in *. cbn [string_forall]. rewrite W.
  apply Ascii.eqb_neq in Hch. now rewrite Hch.
Qed.

(** What [read_line] returns.  The value is the length of the buffer, at
    most [max_len - 1], and the buffer holds no newline.  Either the buffer
    is a whole line, whose newline was taken off the socket; or the buffer
    is full and the bytes after it (newline included) are still on the
    socket; or the socket ended before a newline, and 0 is returned.  So 0
    is returned for an empty line as for a closed socket. *)
Theorem read_line_spec (sock : string) (max_len : nat) (n : Z) (buffer rest : string) :
  read_line sock max_len = (n, buffer, rest) ->
  n = Z.of_nat (String.length buffer) /\
  String.length buffer <= max_len - 1 /\
  without newline buffer = true /\
  (sock = buffer ++ String newline rest \/
   (String.length buffer = max_len - 1 /\ sock = buffer ++ rest) \/
   (n = 0%Z /\ String.length sock < max_len - 1 /\ without newline sock = true)).
Proof.
  unfold read_line.
  destruct (read_line_loop (max_len - 1) sock) as [[buf r]|] eqn:E;
    intro H; injection H as <- <- <-.
  - destruct (read_line_loop_spec _ _ _ _ E) as (L & W & D).
    repeat split; try assumption. destruct D; auto.
  - destruct (read_line_loop_none _ _ E) as [L W].
    repeat split; simpl; try lia. right. right. auto.
Qed.

Lemma read_line_spec_witness :
  read_line (String newline "4:0:ken:") LINE_BUFFER = (0%Z, "", "4:0:ken:") /\
  read_line "4:0:ken:" LINE_BUFFER = (0%Z, "", "") /\
  (String newline "4:0:ken:" = "" ++ String newline "4:0:ken:" \/
   (String.length "" = LINE_BUFFER - 1 /\ String newline "4:0:ken:" = "" ++ "4:0:ken:") \/
   (0%Z = 0%Z /\ String.length (String newline "4:0:ken:") < LINE_BUFFER - 1 /\
    without newline (String newline "4:0:ken:") = true)).
Proof.
  split; [reflexivity|]. split; [reflexivity|].
  exact (proj2 (proj2 (proj2 (read_line_spec (String newline "4:0:ken:") LINE_BUFFER
                                0 "" "4:0:ken:" eq_refl)))).
Defined.

Lemma read_line_loop_full (room : nat) : forall (line rest : string),
  without newline line = true -> room <= String.length line ->
  read_line_loop room (line ++ rest) =
    Some (substring 0 room line,
          substring room (String.length line - room) line ++ rest).
Proof.
  unfold without.
  induction room as [|room IH]; intros line rest W L.
  - cbn [read_line_loop].
    rewrite Nat.sub_0_r, (substring_whole line (String.length line)) by lia.
    destruct line; reflexivity.
  - destruct line as [|c line]; [simpl in L; lia|].
    cbn [string_forall] in W. apply andb_prop in W as [Hc W].
    apply negb_true_iff in Hc.
    cbn [append read_line_loop]. rewrite Hc, IH by (simpl in L; auto; lia).
    reflexivity.
Qed.

(** A line too long for the buffer is not refused: [read_line] hands over
    its first [max_len - 1] bytes as if they were a line, and leaves the
    remainder, with the newline, to be read as the next one. *)
Theorem read_line_cuts_long_line (max_len : nat) (line rest : string) :
  without newline line = true ->
  max_len - 1 <= String.length line ->
  read_line (line ++ String newline rest) max_len =
    (Z.of_nat (max_len - 1), substring 0 (max_len - 1) line,
     substring (max_len - 1) (String.length line - (max_len - 1)) line
       ++ String newline rest).
Proof.
  intros W L. unfold read_line. rewrite read_line_loop_full by assumption.
  f_equal. f_equal. f_equal.
  clear W. revert L. generalize (max_len - 1). intros k L.
  revert line L. induction k as [|k IH]; intros [|c line] L; simpl in *; try lia; try reflexivity.
  now rewrite IH by lia.
Qed.

Lemma read_line_cuts_long_line_witness :
  read_line ("11:5:ken:hello" ++ String newline "4:0:ken:") 10 =
    (9%Z, "11:5:ken:", "hello" ++ String newline "4:0:ken:").
Proof.
  exact (read_line_cuts_long_line 10 "11:5:ken:hello" "4:0:ken:" eq_refl ltac:(simpl; lia)).
Defined.

(** ** [sscanf] on a received line *)

Lemma scan_until_spec (stop : ascii) (s : string) : forall pre rest,
  scan_until stop s = (pre, rest) ->
  without stop pre = true /\ s = pre ++ rest /\
  (rest = "" \/ exists r, rest = String stop r).
Proof.
  unfold without. induction s as [|c s IH]; intros pre rest H; simpl in H.
  - injection H as <- <-. auto.
  - destruct (Ascii.eqb_spec c stop) as [->|Hc].
    + injection H as <- <-. simpl. eauto.
    + destruct (scan_until stop s) as [pre' rest'] eqn:E. injection H as <- <-.
      destruct (IH _ _ eq_refl) as (W & -> & D).
      cbn [string_forall append]. rewrite W.
      apply Ascii.eqb_neq in Hc. rewrite Hc. auto.
Qed.

Lemma scan_u_range (s : string) (v : N) (rest : string) :
  scan_u s = Converted v rest -> (v < UINT_MODULUS)%N.
Proof.
  unfold scan_u. destruct (skip_space s) as [|c s']; [discriminate|].
  destruct (scan_digits _) as [[|d ds] r]; [discriminate|].
  intro H. injection H as <- _.
  destruct (N.leb ULONG_MODULUS _); [reflexivity|].
  destruct (Ascii.eqb c "-"); apply N.mod_lt; discriminate.
Qed.

Lemma c_string_without (bytes : string) : without NUL (c_string bytes) = true.
Proof.
  unfold c_string. destruct (scan_until NUL bytes) as [pre rest] eqn:E.
  now destruct (scan_until_spec _ _ _ _ E).
Qed.

Lemma skip_space_without (z : ascii) (s : string) :
  without z s = true -> without z (skip_space s) = true.
Proof.
  unfold without. induction s as [|c s IH]; cbn [skip_space string_forall]; [auto|].
  intro H. destruct (isspace c); [|exact H].
  apply andb_prop in H as [_ H]. now apply IH.
Qed.

Lemma scan_digits_without (z : ascii) (s : string) : forall ds rest,
  scan_digits s = (ds, rest) -> without z s = true -> without z rest = true.
Proof.
  unfold without. induction s as [|c s IH]; intros ds rest H W; cbn [scan_digits] in H.
  - now injection H as <- <-.
  - destruct (isdigit c); [|now injection H as <- <-].
    destruct (scan_digits s) as [ds' rest'] eqn:E. injection H as <- <-.
    cbn [string_forall] in W. apply andb_prop in W as [_ W]. now apply (IH ds').
Qed.

Lemma scan_until_without (z stop : ascii) (s pre rest : string) :
  scan_until stop s = (pre, rest) -> without z s = true ->
  without z pre = true /\ without z rest = true.
Proof.
  intros H W. destruct (scan_until_spec _ _ _ _ H) as (_ & -> & _).
  rewrite without_app in W. now apply andb_prop in W.
Qed.

Lemma scan_u_without (z : ascii) (s : string) (v : N) (rest : string) :
  scan_u s = Converted v rest -> without z s = true -> without z rest = true.
Proof.
  unfold scan_u. intros H W. apply (skip_space_without z) in W.
  destruct (skip_space s) as [|c s']; [discriminate|].
  destruct (scan_digits _) as [ds r] eqn:E.
  destruct ds as [|d ds]; [discriminate|]. injection H as _ <-.
  apply (scan_digits_without z _ _ _ E).
  destruct (_ || _); [|exact W].
  unfold without in *. cbn [string_forall] in W. now apply andb_prop in W as [_ W].
Qed.

(** The conversions behind a count of three or four. *)
Lemma sscanf_message_converted (buffer : string) (msg0 msg : message) (fields : Z) :
  sscanf_message buffer msg0 = (fields, msg) -> (3 <= fields)%Z ->
  exists t r2 sz r4 r5,
    scan_u buffer = Converted t (String ":" r2) /\
    scan_u r2 = Converted sz (String ":" r4) /\
    scan_until colon r4 = (source msg, r5) /\
    ((4 <= fields)%Z ->
     exists r6 r7, r5 = String ":" r6 /\ scan_until newline r6 = (data msg, r7)).
Proof.
  unfold sscanf_message.
  destruct (scan_u buffer) as [| |t r1] eqn:E1;
    [intro H; injection H as <- <-; lia ..|].
  destruct r1 as [|c1 r2]; [intro H; injection H as <- <-; lia|].
  destruct (Ascii.eqb_spec c1 ":") as [->|N1];
    [|destruct c1 as [[] [] [] [] [] [] [] []];
      try (intro H; injection H as <- <-; lia); now elim N1].
  destruct (scan_u r2) as [| |sz r3] eqn:E2;
    [intro H; injection H as <- <-; lia ..|].
  destruct r3 as [|c3 r4]; [intro H; injection H as <- <-; lia|].
  destruct (Ascii.eqb_spec c3 ":") as [->|N3];
    [|destruct c3 as [[] [] [] [] [] [] [] []];
      try (intro H; injection H as <- <-; lia); now elim N3].
  destruct (scan_until colon r4) as [src r5] eqn:E3.
  destruct src as [|s0 src]; [intro H; injection H as <- <-; lia|].
  destruct r5 as [|c5 r6].
  { intros H _. injection H as <- <-. exists t, r2, sz, r4, "".
    repeat split; try reflexivity; try assumption. lia. }
  destruct (Ascii.eqb_spec c5 ":") as [->|N5].
  2:{ destruct c5 as [[] [] [] [] [] [] [] []];
        try (intros H _; injection H as <- <-; eexists t, r2, sz, r4, _;
             repeat split; try reflexivity; try eassumption; lia);
        now elim N5. }
  destruct (scan_until newline r6) as [d r7] eqn:E4.
  destruct d as [|d0 d]; intros H _; injection H as <- <-;
    exists t, r2, sz, r4, (String ":" r6); repeat split; try reflexivity; try assumption;
    [lia | intros _; exists r6, r7; split; [reflexivity | assumption]].
Qed.

(** A byte that is not in the line is not in the strings converted from
    it. *)
Lemma sscanf_message_without (z : ascii) (buffer : string) (msg0 msg : message)
    (fields : Z) :
  sscanf_message buffer msg0 = (fields, msg) -> without z buffer = true ->
  ((3 <= fields)%Z -> without z (source msg) = true) /\
  ((4 <= fields)%Z -> without z (data msg) = true).
Proof.
  intros H W.
  assert (G : (3 <= fields)%Z ->
              without z (source msg) = true /\
              ((4 <= fields)%Z -> without z (data msg) = true)).
  { intro H3.
    destruct (sscanf_message_converted _ _ _ _ H H3)
      as (t & r2 & sz & r4 & r5 & E1 & E2 & E3 & E4).
    pose proof (scan_u_without z _ _ _ E1 W) as W1.
    unfold without in W1. cbn [string_forall] in W1. apply andb_prop in W1 as [_ W1].
    pose proof (scan_u_without z _ _ _ E2 W1) as W2.
    unfold without in W2. cbn [string_forall] in W2. apply andb_prop in W2 as [_ W2].
    destruct (scan_until_without z _ _ _ _ E3 W2) as [Ws W5].
    split; [exact Ws|]. intro H4.
    destruct (E4 H4) as (r6 & r7 & -> & E6).
    unfold without in W5. cbn [string_forall] in W5. apply andb_prop in W5 as [_ W5].
    now destruct (scan_until_without z _ _ _ _ E6 W5). }
  split; [intro H3; now apply G | intro H4; apply G; [lia | assumption]].
Qed.

Lemma sscanf_message_shape (buffer : string) (msg0 msg : message) (fields : Z) :
  sscanf_message buffer msg0 = (fields, msg) ->
  (-1 <= fields <= 4)%Z /\
  (if (1 <=? fields)%Z then (type msg < UINT_MODULUS)%N else type msg = type msg0) /\
  (if (2 <=? fields)%Z then (size msg < UINT_MODULUS)%N else size msg = size msg0) /\
  (if (3 <=? fields)%Z
   then source msg <> "" /\ without colon (source msg) = true
   else source msg = source msg0) /\
  (if (4 <=? fields)%Z
   then data msg <> "" /\ without newline (data msg) = true
   else data msg = data msg0).
Proof.
  unfold sscanf_message.
  destruct (scan_u buffer) as [| |t r1] eqn:E1;
    [intro H; injection H as <- <-; simpl; repeat split; lia ..|].
  pose proof (scan_u_range _ _ _ E1) as Ht.
  destruct r1 as [|c1 r2];
    [intro H; injection H as <- <-; simpl; repeat split; lia || assumption|].
  destruct (Ascii.eqb_spec c1 ":") as [->|N1];
    [|destruct c1 as [[] [] [] [] [] [] [] []];
      try (intro H; injection H as <- <-; simpl; repeat split; lia || assumption);
      now elim N1].
  destruct (scan_u r2) as [| |sz r3] eqn:E2;
    [intro H; injection H as <- <-; simpl; repeat split; lia || assumption ..|].
  pose proof (scan_u_range _ _ _ E2) as Hs.
  destruct r3 as [|c3 r4];
    [intro H; injection H as <- <-; simpl; repeat split; lia || assumption|].
  destruct (Ascii.eqb_spec c3 ":") as [->|N3];
    [|destruct c3 as [[] [] [] [] [] [] [] []];
      try (intro H; injection H as <- <-; simpl; repeat split; lia || assumption);
      now elim N3].
  destruct (scan_until colon r4) as [src r5] eqn:E3.
  destruct (scan_until_spec _ _ _ _ E3) as (Wsrc & _ & _).
  destruct src as [|s0 src];
    [intro H; injection H as <- <-; simpl; repeat split; lia || assumption|].
  assert (Hsrc : String s0 src <> "") by discriminate.
  destruct r5 as [|c5 r6];
    [intro H; injection H as <- <-; simpl; repeat split; lia || assumption|].
  destruct (Ascii.eqb_spec c5 ":") as [->|N5];
    [|destruct c5 as [[] [] [] [] [] [] [] []];
      try (intro H; injection H as <- <-; simpl; repeat split; lia || assumption);
      now elim N5].
  destruct (scan_until newline r6) as [d r7] eqn:E4.
  destruct (scan_until_spec _ _ _ _ E4) as (Wd & _ & _).
  destruct d as [|d0 d];
    intro H; injection H as <- <-; simpl; repeat split;
      lia || assumption || discriminate.
Qed.

(** What the [sscanf] of both programs leaves in [msg], for a line whose
    third and fourth fields fit the arrays they are stored in: the count is
    between -1 and 4; a field that was converted holds an [unsigned int], a
    non-empty source without [':'], a non-empty payload without newline
    (neither holds a [NUL]: the line is read as a C string); a field that
    was not converted holds what [msg] held before. *)
Theorem sscanf_message_fields (buffer : string) (msg0 msg : message) (fields : Z) :
  sscanf_message (c_string buffer) msg0 = (fields, msg) ->
  ((3 <= fields)%Z -> terminated (source msg) MAX_NAME) ->
  ((4 <= fields)%Z -> terminated (data msg) MAX_DATA) ->
  (-1 <= fields <= 4)%Z /\
  (if (1 <=? fields)%Z then (type msg < UINT_MODULUS)%N else type msg = type msg0) /\
  (if (2 <=? fields)%Z then (size msg < UINT_MODULUS)%N else size msg = size msg0) /\
  (if (3 <=? fields)%Z
   then source msg <> "" /\ without colon (source msg) = true /\
        without NUL (source msg) = true
   else source msg = source msg0) /\
  (if (4 <=? fields)%Z
   then data msg <> "" /\ without newline (data msg) = true /\
        without NUL (data msg) = true
   else data msg = data msg0).
Proof.
  intros H _ _.
  destruct (sscanf_message_shape _ _ _ _ H) as (Hr & Ht & Hs & Hsrc & Hd).
  destruct (sscanf_message_without NUL _ _ _ _ H (c_string_without buffer)) as [W3 W4].
  split; [exact Hr|]. split; [exact Ht|]. split; [exact Hs|]. split.
  - destruct (Z.leb_spec 3 fields); [|exact Hsrc].
    destruct Hsrc. repeat split; try assumption. now apply W3.
  - destruct (Z.leb_spec 4 fields); [|exact Hd].
    destruct Hd. repeat split; try assumption. now apply W4.
Qed.

Lemma sscanf_message_fields_witness :
  sscanf_message (c_string "11:5:ken") zero_message = (3%Z, mkMessage 11 5 "ken" "") /\
  (-1 <= 3 <= 4)%Z /\
  (11 < UINT_MODULUS)%N /\ (5 < UINT_MODULUS)%N /\
  ("ken" <> "" /\ without colon "ken" = true /\ without NUL "ken" = true) /\
  "" = data zero_message.
Proof.
  split; [reflexivity|].
  exact (sscanf_message_fields "11:5:ken" zero_message (mkMessage 11 5 "ken" "") 3 eq_refl
           (fun _ => ltac:(unfold terminated, MAX_NAME; simpl; lia))
           (fun _ => ltac:(unfold terminated, MAX_DATA; simpl; lia))).
Defined.

Lemma sscanf_printed_line (m m0 : message) :
  (type m < UINT_MODULUS)%N -> (size m < UINT_MODULUS)%N ->
  source m <> "" -> without colon (source m) = true ->
  without newline (data m) = true ->
  sscanf_message (frame_line m) m0 =
    if Nat.eqb (String.length (data m)) 0
    then (3%Z, mkMessage (type m) (size m) (source m) (data m0))
    else (4%Z, m).
Proof.
  intros Ht Hs Hsrc Hcol Hnl.
  unfold sscanf_message, frame_line.
  rewrite (scan_u_fmt _ _ Ht) by reflexivity. cbn [append].
  rewrite (scan_u_fmt _ _ Hs) by reflexivity. cbn [append].
  rewrite (scan_until_app colon _ _ Hcol).
  destruct m as [t s src d]; simpl in *.
  destruct src as [|c src]; [contradiction|].
  rewrite (scan_until_end newline d Hnl).
  destruct d; reflexivity.
Qed.

(** Printing what was parsed and parsing it again gives the same message:
    whatever line the server accepted (three fields or four, with white
    space or signs before the numbers) with a source and a payload that fit
    their arrays, the frame it forwards is the line of the message it held,
    that line has no [NUL], and the next [sscanf] reads it as that
    message. *)
Theorem parse_print_parse (fd : Z) (buffer : string) (msg : message) (fields : Z) :
  sscanf_message (c_string buffer) zero_message = (fields, msg) ->
  (3 <= fields)%Z ->
  terminated (source msg) MAX_NAME -> terminated (data msg) MAX_DATA ->
  send_message_to_client fd msg = [Send fd (frame_line msg ++ String newline "")] /\
  c_string (frame_line msg) = frame_line msg /\
  sscanf_message (c_string (frame_line msg)) zero_message = (fields, msg).
Proof.
  intros H Hf Hsl Hdl.
  destruct (sscanf_message_shape _ _ _ _ H) as (Hr & Ht & Hs & Hsrc & Hd).
  destruct (sscanf_message_without NUL _ _ _ _ H (c_string_without buffer)) as [W3 W4].
  destruct (Z.leb_spec 1 fields); [|lia]. destruct (Z.leb_spec 2 fields); [|lia].
  destruct (Z.leb_spec 3 fields); [|lia]. destruct Hsrc as [Hne Hcol].
  assert (Hfit : message_fits msg) by (repeat split; assumption).
  assert (Wd : without NUL (data msg) = true).
  { destruct (Z.leb_spec 4 fields) as [H4|H4]; [now apply W4 | now rewrite Hd]. }
  assert (Ec : c_string (frame_line msg) = frame_line msg).
  { apply c_string_frame_line; [assumption | now apply W3 | assumption]. }
  split; [now apply send_message_whole|]. split; [exact Ec|]. rewrite Ec.
  destruct (Z.leb_spec 4 fields) as [H4|H4].
  - destruct Hd as [Hdne Hnl].
    rewrite sscanf_printed_line by assumption.
    rewrite nonempty_length by assumption. f_equal. lia.
  - simpl in Hd. rewrite sscanf_printed_line; try assumption.
    + rewrite Hd. simpl. destruct msg as [t s src d]; simpl in *. subst d.
      f_equal. lia.
    + now rewrite Hd.
Qed.

Lemma parse_print_parse_witness :
  sscanf_message (c_string "  +011: 5:ken:a:b") zero_message =
    (4%Z, mkMessage 11 5 "ken" "a:b") /\
  send_message_to_client 8 (mkMessage 11 5 "ken" "a:b") =
    [Send 8 ("11:5:ken:a:b" ++ String newline "")] /\
  c_string (frame_line (mkMessage 11 5 "ken" "a:b")) = "11:5:ken:a:b" /\
  sscanf_message (c_string (frame_line (mkMessage 11 5 "ken" "a:b"))) zero_message =
    (4%Z, mkMessage 11 5 "ken" "a:b").
Proof.
  split; [reflexivity|].
  exact (parse_print_parse 8 "  +011: 5:ken:a:b" (mkMessage 11 5 "ken" "a:b") 4
           eq_refl ltac:(lia)
           ltac:(unfold terminated, MAX_NAME; simpl; lia)
           ltac:(unfold terminated, MAX_DATA; simpl; lia)).
Defined.

(** ** LOGIN *)

Lemma is_valid_user_In (i password : string) :
  is_valid_user i password = true <-> In (i, password) allowed_users.
Proof.
  unfold is_valid_user. rewrite existsb_exists. split.
  - intros ([u pw] & Hin & H). apply andb_prop in H as [H1 H2].
    apply String.eqb_eq in H1, H2. simpl in *. now subst.
  - intro Hin. exists (i, password). split; [assumption|].
    simpl. now rewrite !String.eqb_refl.
Qed.

Lemma is_already_logged_in_written (p : ptr) (v : string) (st : server) (c : client_t) :
  deref p st = Some c -> is_already_logged_in v (write_id p v st) = true.
Proof.
  unfold deref, is_already_logged_in, write_id. simpl.
  induction (client_list st) as [|cur l IH]; simpl; [discriminate|].
  destruct (Nat.eqb (addr cur) p); simpl; intro H.
  - now rewrite String.eqb_refl.
  - rewrite IH by assumption. apply orb_true_r.
Qed.

(** The two ways a LOGIN ends.  LO_ACK: the pair of source and payload is
    in [allowed_users] and no registered client held the identifier; the
    client's identifier is now the source, nothing else changed, and the
    same LOGIN sent again (by this or any other connection) gets LO_NAK.
    LO_NAK: the pair is not allowed or the identifier was held, possibly by
    the sender itself; nothing changed. *)
Theorem login_outcomes (st : server) (client : ptr) (c : client_t) (msg : message) :
  deref client st = Some c ->
  type msg = LOGIN ->
  exists st' reply,
    process_message client msg st = Some (st', send_message_to_client (sockfd c) reply) /\
    ((reply = reply_text LO_ACK "Login successful" /\
      In (source msg, data msg) allowed_users /\
      is_already_logged_in (source msg) st = false /\
      st' = write_id client (source msg) st /\
      deref client st' = Some (set_id (source msg) c) /\
      forall other o, deref other st' = Some o ->
        process_message other msg st' =
          Some (st', send_message_to_client (sockfd o)
                       (reply_text LO_NAK "Invalid credentials or already logged in"))) \/
     (reply = reply_text LO_NAK "Invalid credentials or already logged in" /\
      st' = st /\
      (~ In (source msg, data msg) allowed_users \/
       is_already_logged_in (source msg) st = true))).
Proof.
  intros Hc Ht. unfold process_message at 1. rewrite Hc. switch_on Ht.
  destruct (is_valid_user (source msg) (data msg)) eqn:Hv.
  - destruct (is_already_logged_in (source msg) st) eqn:Hl; cbn [andb negb].
    + eexists _, _. split; [reflexivity|]. right. auto.
    + destruct (valid_user_id _ _ Hv) as [_ E]. rewrite E.
      eexists _, _. split; [reflexivity|]. left.
      repeat split; try assumption.
      * now apply is_valid_user_In.
      * now rewrite deref_write_id, Hc.
      * intros other o Ho. unfold process_message. rewrite Ho. switch_on Ht.
        rewrite (is_already_logged_in_written client (source msg) st c Hc).
        now rewrite andb_false_r.
  - eexists _, _. split; [reflexivity|]. right.
    repeat split. left. intro Hin. apply is_valid_user_In in Hin. congruence.
Qed.

Lemma login_outcomes_witness :
  exists st' reply,
    process_message 1 (mkMessage LOGIN 5 "andy" "12345")
      (mkServer [mkClient 1 7 "" ""; mkClient 0 6 "ken" ""] []) =
      Some (st', send_message_to_client 7 reply) /\
    (reply = reply_text LO_ACK "Login successful" /\
     st' = mkServer [mkClient 1 7 "andy" ""; mkClient 0 6 "ken" ""] [] \/
     reply = reply_text LO_NAK "Invalid credentials or already logged in" /\
     st' = mkServer [mkClient 1 7 "" ""; mkClient 0 6 "ken" ""] []).
Proof.
  destruct (login_outcomes (mkServer [mkClient 1 7 "" ""; mkClient 0 6 "ken" ""] [])
              1 (mkClient 1 7 "" "") (mkMessage LOGIN 5 "andy" "12345") eq_refl eq_refl)
    as (st' & reply & H & [(Hr & _ & _ & Hst & _)|(Hr & Hst & _)]);
    exists st', reply; (split; [exact H|]); [left | right]; (split; [exact Hr | exact Hst]).
Defined.

(** ** JOIN *)

Lemma find_session_In (s : string) (st : server) :
  find_session s st = true <-> In s (session_list st).
Proof.
  unfold find_session. rewrite existsb_exists. split.
  - intros (x & Hin & H). apply String.eqb_eq in H. now subst.
  - intro Hin. exists s. split; [assumption | apply String.eqb_refl].
Qed.

(** The three ways a JOIN ends, in the order the code tests them.  The
    session is not registered: JN_NAK "Session does not exist" (also when
    the client is in a session).  It is registered and the client is in a
    session: JN_NAK "Already in a session".  Otherwise JN_ACK, and the
    client's session is the first [MAX_NAME] bytes of the payload.  The
    session registry and the other clients are the same in all three. *)
Theorem join_outcomes (st : server) (client : ptr) (c : client_t) (msg : message) :
  deref client st = Some c ->
  type msg = JOIN ->
  exists st' reply,
    process_message client msg st = Some (st', send_message_to_client (sockfd c) reply) /\
    session_list st' = session_list st /\
    ((~ In (data msg) (session_list st) /\
      reply = reply_text JN_NAK "Session does not exist" /\ st' = st) \/
     (In (data msg) (session_list st) /\ session c <> "" /\
      reply = reply_text JN_NAK "Already in a session" /\ st' = st) \/
     (In (data msg) (session_list st) /\ session c = "" /\
      reply = reply_text JN_ACK "Joined session" /\
      st' = write_session client (strncpy (data msg) MAX_NAME) st /\
      deref client st' = Some (set_session (strncpy (data msg) MAX_NAME) c))).
Proof.
  intros Hc Ht. unfold process_message. rewrite Hc. switch_on Ht.
  destruct (find_session (data msg) st) eqn:Hf; cbn [negb].
  - apply find_session_In in Hf.
    destruct (session c) as [|s0 s] eqn:Hs; cbn [String.length Nat.eqb negb].
    + eexists _, _. split; [reflexivity|]. split; [reflexivity|]. right. right.
      repeat split; try assumption.
      rewrite deref_write_session, Hc. reflexivity.
    + eexists _, _. split; [reflexivity|]. split; [reflexivity|]. right. left.
      repeat split; try assumption. discriminate.
  - eexists _, _. split; [reflexivity|]. split; [reflexivity|]. left.
    repeat split. intro Hin. apply find_session_In in Hin. congruence.
Qed.

Lemma join_outcomes_witness :
  exists st' reply,
    process_message 2 (mkMessage JOIN 4 "andy" "team")
      (mkServer [mkClient 2 8 "andy" ""; mkClient 1 7 "ken" "team"] ["team"]) =
      Some (st', send_message_to_client 8 reply) /\
    session_list st' = ["team"].
Proof.
  destruct (join_outcomes
              (mkServer [mkClient 2 8 "andy" ""; mkClient 1 7 "ken" "team"] ["team"])
              2 (mkClient 2 8 "andy" "") (mkMessage JOIN 4 "andy" "team") eq_refl eq_refl)
    as (st' & reply & H1 & H2 & _).
  exists st', reply. split; [exact H1 | exact H2].
Defined.

(** ** LEAVE_SESS *)

(** LEAVE_SESS is idempotent: from a client without a session it is
    answered "Not in a session" and changes nothing; and after any
    LEAVE_SESS of a client, whatever its payload, the next one from that
    client is answered so. *)
Theorem leave_sess_twice (st : server) (client : ptr) (c : client_t)
    (first second : message) :
  deref client st = Some c ->
  type first = LEAVE_SESS ->
  type second = LEAVE_SESS ->
  (session c = "" ->
     process_message client first st =
       Some (st, send_message_to_client (sockfd c)
                   (reply_text LEAVE_SESS "Not in a session"))) /\
  exists st' out,
    process_message client first st = Some (st', out) /\
    process_message client second st' =
      Some (st', send_message_to_client (sockfd c)
                   (reply_text LEAVE_SESS "Not in a session")).
Proof.
  intros Hc H1 H2.
  assert (Hnone : forall m s k, deref client s = Some k -> session k = "" ->
            type m = LEAVE_SESS ->
            process_message client m s =
              Some (s, send_message_to_client (sockfd k)
                         (reply_text LEAVE_SESS "Not in a session"))).
  { intros m s k Hk Hs Hm. unfold process_message. rewrite Hk. switch_on Hm.
    now rewrite Hs. }
  split; [intro Hs; now apply Hnone|].
  destruct (session c) as [|s0 s] eqn:Hs.
  - exists st, (send_message_to_client (sockfd c) (reply_text LEAVE_SESS "Not in a session")).
    split; apply Hnone; assumption.
  - eexists _, _. split.
    + unfold process_message. rewrite Hc. switch_on H1. rewrite Hs.
      cbn [String.length Nat.eqb]. reflexivity.
    + apply (Hnone second _ (set_session "" c)); [|reflexivity | assumption].
      unfold deref. rewrite remove_session_if_empty_clients.
      fold (deref client (write_session client "" st)).
      now rewrite deref_write_session, Hc.
Qed.

Lemma leave_sess_twice_witness :
  exists st' out,
    process_message 1 (mkMessage LEAVE_SESS 0 "ken" "")
      (mkServer [mkClient 1 7 "ken" "S"] ["S"]) = Some (st', out) /\
    process_message 1 (mkMessage LEAVE_SESS 0 "ken" "") st' =
      Some (st', send_message_to_client 7 (reply_text LEAVE_SESS "Not in a session")).
Proof.
  exact (proj2 (leave_sess_twice (mkServer [mkClient 1 7 "ken" "S"] ["S"]) 1
                  (mkClient 1 7 "ken" "S") (mkMessage LEAVE_SESS 0 "ken" "")
                  (mkMessage LEAVE_SESS 0 "ken" "") eq_refl eq_refl eq_refl)).
Defined.

Lemma In_store_distinct (p : ptr) (f : client_t -> client_t) (l : list client_t)
    (cur : client_t) :
  NoDup (map addr l) -> (forall c, addr (f c) = addr c) ->
  In cur (store p f l) ->
  (In cur l /\ addr cur <> p) \/ (exists c0, In c0 l /\ addr c0 = p /\ cur = f c0).
Proof.
  intros Hnd Hf. induction l as [|x l IH]; simpl; [intros []|].
  inversion Hnd as [|y ys Hnotin Hnd']; subst.
  destruct (Nat.eqb_spec (addr x) p) as [E|E]; simpl.
  - intros [<-|H]; [right; exists x; auto|].
    left. split; [auto|]. intro Hp. apply Hnotin. rewrite E, <- Hp. now apply in_map.
  - intros [<-|H]; [auto|].
    destruct (IH Hnd' H) as [[H1 H2]|(c0 & H1 & H2 & H3)]; [auto|].
    right. exists c0. auto.
Qed.

Lemma unlink_session_gone (s : string) (l : list string) :
  NoDup l -> ~ In s (unlink_session s l).
Proof.
  induction l as [|x l IH]; simpl; [auto|].
  intro Hnd. inversion Hnd as [|y ys Hnotin Hnd']; subst.
  destruct (String.eqb_spec x s) as [->|E]; [assumption|].
  intros [H|H]; [contradiction | now apply IH].
Qed.

(** The removal that works: the last member of session [S] leaves with
    [S] as the payload of its LEAVE_SESS.  The first node named [S] is
    unlinked from the session list; when the list held [S] once, a JOIN for
    [S] is then answered JN_NAK "Session does not exist". *)
Theorem leave_sess_naming_session (st : server) (client : ptr) (c : client_t)
    (msg : message) :
  distinct_nodes st ->
  deref client st = Some c ->
  session c <> "" ->
  (forall cur, In cur (client_list st) -> addr cur <> client -> session cur <> session c) ->
  type msg = LEAVE_SESS ->
  data msg = session c ->
  exists st',
    process_message client msg st =
      Some (st', send_message_to_client (sockfd c) (reply_text LEAVE_SESS "Left session")) /\
    client_list st' = store client (set_session "") (client_list st) /\
    session_list st' = unlink_session (session c) (session_list st) /\
    (NoDup (session_list st) ->
     forall joiner j join,
       deref joiner st' = Some j -> type join = JOIN -> data join = session c ->
       process_message joiner join st' =
         Some (st', send_message_to_client (sockfd j)
                      (reply_text JN_NAK "Session does not exist"))).
Proof.
  intros Hd Hc Hs Hsole Ht Hdata.
  assert (Hempty : session_has_clients (session c) (write_session client "" st) = false).
  { apply not_true_is_false. intro H. unfold session_has_clients in H.
    apply existsb_exists in H as (cur & Hin & E). apply String.eqb_eq in E.
    simpl in Hin. apply In_store_distinct in Hin; [|assumption | reflexivity].
    destruct Hin as [[Hin Ha]|(c0 & _ & _ & ->)].
    - now apply (Hsole cur Hin Ha).
    - simpl in E. now apply Hs. }
  eexists. split; [|split; [|split]].
  - unfold process_message. rewrite Hc. switch_on Ht.
    rewrite (nonempty_length _ Hs), Hdata.
    unfold remove_session_if_empty. rewrite Hempty. reflexivity.
  - reflexivity.
  - reflexivity.
  - intros Hnd joiner j join Hj Hjt Hjd.
    unfold process_message. rewrite Hj. switch_on Hjt.
    assert (Hf : find_session (data join)
                   (mkServer (client_list (write_session client "" st))
                      (unlink_session (session c) (session_list (write_session client "" st))))
                 = false).
    { apply not_true_is_false. intro H. apply find_session_In in H.
      rewrite Hjd in H. simpl in H. now apply (unlink_session_gone (session c) _ Hnd). }
    now rewrite Hf.
Qed.

Lemma leave_sess_naming_session_witness :
  exists st',
    process_message 1 (mkMessage LEAVE_SESS 1 "ken" "S")
      (mkServer [mkClient 2 8 "andy" "T"; mkClient 1 7 "ken" "S"] ["T"; "S"]) =
      Some (st', send_message_to_client 7 (reply_text LEAVE_SESS "Left session")) /\
    client_list st' = [mkClient 2 8 "andy" "T"; mkClient 1 7 "ken" ""] /\
    session_list st' = ["T"].
Proof.
  destruct (leave_sess_naming_session
              (mkServer [mkClient 2 8 "andy" "T"; mkClient 1 7 "ken" "S"] ["T"; "S"])
              1 (mkClient 1 7 "ken" "S") (mkMessage LEAVE_SESS 1 "ken" "S"))
    as (st' & H1 & H2 & H3 & _).
  - unfold distinct_nodes. simpl. repeat constructor; simpl; intuition discriminate.
  - reflexivity.
  - discriminate.
  - intros cur [<-|[<-|[]]] Ha; simpl in *; [discriminate | now elim Ha].
  - reflexivity.
  - reflexivity.
  - exists st'. split; [exact H1|]. split; [exact H2 | exact H3].
Defined.

(** ** What [process_message] never does *)

(** A frame whose type is none of the seven the [switch] has a case for
    (a reply type such as LO_ACK, or any other number), and a MESSAGE from a
    client without a session, are dropped: no state change, no reply. *)
Theorem unhandled_frames_dropped (st : server) (client : ptr) (c : client_t)
    (msg : message) :
  deref client st = Some c ->
  (~ In (type msg) [LOGIN; EXIT; JOIN; LEAVE_SESS; NEW_SESS; MESSAGE; QUERY] \/
   (type msg = MESSAGE /\ session c = "")) ->
  process_message client msg st = Some (st, []).
Proof.
  intros Hc [Ht|[Ht Hs]]; unfold process_message; rewrite Hc.
  - assert (Hin : forall t, type msg = t ->
              In t [LOGIN; EXIT; JOIN; LEAVE_SESS; NEW_SESS; MESSAGE; QUERY] -> False).
    { intros t <- Hin. now apply Ht. }
    destruct (N.eqb_spec (type msg) LOGIN) as [E|_]; [elim (Hin _ E); simpl; auto 10|].
    destruct (N.eqb_spec (type msg) EXIT) as [E|_]; [elim (Hin _ E); simpl; auto 10|].
    destruct (N.eqb_spec (type msg) JOIN) as [E|_]; [elim (Hin _ E); simpl; auto 10|].
    destruct (N.eqb_spec (type msg) NEW_SESS) as [E|_]; [elim (Hin _ E); simpl; auto 10|].
    destruct (N.eqb_spec (type msg) LEAVE_SESS) as [E|_]; [elim (Hin _ E); simpl; auto 10|].
    destruct (N.eqb_spec (type msg) MESSAGE) as [E|_]; [elim (Hin _ E); simpl; auto 10|].
    destruct (N.eqb_spec (type msg) QUERY) as [E|_]; [elim (Hin _ E); simpl; auto 10|].
    reflexivity.
  - switch_on Ht. now rewrite Hs.
Qed.

Lemma unhandled_frames_dropped_witness :
  process_message 1 (mkMessage LO_ACK 0 "ken" "")
    (mkServer [mkClient 1 7 "ken" "S"] ["S"]) =
    Some (mkServer [mkClient 1 7 "ken" "S"] ["S"], []) /\
  process_message 1 (mkMessage MESSAGE 2 "ken" "hi")
    (mkServer [mkClient 1 7 "ken" ""] ["S"]) =
    Some (mkServer [mkClient 1 7 "ken" ""] ["S"], []).
Proof.
  split.
  - apply (unhandled_frames_dropped _ 1 (mkClient 1 7 "ken" "S")); [reflexivity|].
    left. simpl. intuition discriminate.
  - apply (unhandled_frames_dropped _ 1 (mkClient 1 7 "ken" "")); [reflexivity|].
    right. split; reflexivity.
Defined.

Lemma broadcast_to_registered (session_id sender : string) (msg : message) (st : server)
    (e : effect) :
  In e (broadcast_message session_id msg sender st) ->
  exists cur bytes, In cur (client_list st) /\ e = Send (sockfd cur) bytes.
Proof.
  unfold broadcast_message. intro H. apply in_flat_map in H as (cur & Hin & H).
  destruct (_ && _); [|destruct H].
  destruct H as [<-|[]]. eauto.
Qed.

(** A frame of one client touches no other client and writes to no
    socket outside the registry.  Whatever [client] sends: every other
    node is afterwards what it was; the node of [client] keeps its address
    and its socket; and every effect is a write to the socket of a
    registered client (nothing goes to stderr). *)
Theorem frame_stays_local (st st' : server) (client : ptr) (c : client_t)
    (msg : message) (out : list effect) :
  deref client st = Some c ->
  process_message client msg st = Some (st', out) ->
  (forall other, other <> client -> deref other st' = deref other st) /\
  (exists c', deref client st' = Some c' /\ addr c' = addr c /\ sockfd c' = sockfd c) /\
  (forall e, In e out ->
     exists cur bytes, In cur (client_list st) /\ e = Send (sockfd cur) bytes).
Proof.
  intros Hc Hp. split; [|split].
  - intros other Ho. unfold deref.
    destruct (process_message_shape _ _ _ _ _ Hp) as [E|[[v E]|(_ & _ & _ & E)]];
      rewrite E; [reflexivity | |]; now apply find_store_other.
  - unfold deref.
    destruct (process_message_shape _ _ _ _ _ Hp) as [E|[[v E]|(_ & _ & _ & E)]];
      rewrite E; [exists c; auto | |];
      rewrite find_store by reflexivity; fold (deref client st); rewrite Hc;
      eexists; (split; [reflexivity | split; reflexivity]).
  - destruct (deref_In _ _ _ Hc) as [Hin _].
    assert (Hown : forall reply e, In e (send_message_to_client (sockfd c) reply) ->
              exists cur bytes, In cur (client_list st) /\ e = Send (sockfd cur) bytes).
    { intros reply e [<-|[]]. eauto. }
    unfold process_message in Hp. rewrite Hc in Hp. injection Hp as Hp.
    repeat match type of Hp with
           | (if ?b then _ else _) = _ => destruct b
           end;
      injection Hp as _ <-; try solve [intros e []];
      eauto using broadcast_to_registered.
    destruct (Nat.ltb 0 (String.length (session c)));
      [eauto using broadcast_to_registered | intros e []].
Qed.

Lemma frame_stays_local_witness :
  deref 2 (mkServer [mkClient 2 8 "andy" "S"; mkClient 1 7 "" ""] ["S"]) =
    Some (mkClient 2 8 "andy" "S") /\
  exists c', deref 1 (mkServer [mkClient 2 8 "andy" "S"; mkClient 1 7 "" ""] ["S"]) = Some c' /\
             addr c' = 1 /\ sockfd c' = 7%Z.
Proof.
  destruct (frame_stays_local
              (mkServer [mkClient 2 8 "andy" "S"; mkClient 1 7 "" "S"] ["S"])
              (mkServer [mkClient 2 8 "andy" "S"; mkClient 1 7 "" ""] ["S"]) 1
              (mkClient 1 7 "" "S") (mkMessage LEAVE_SESS 0 "x" "")
              (send_message_to_client 7 (reply_text LEAVE_SESS "Left session"))
              eq_refl eq_refl) as (Hother & Hself & _).
  split; [|exact Hself].
  rewrite (Hother 2); [reflexivity | discriminate].
Defined.

(** ** The session registry *)



Section RegisteredSessions.

Variable p : ptr.

Lemma write_id_registered (v : string) (st : server) :
  sessions_registered st -> sessions_registered (write_id p v st).
Proof.
  intros Hr c' Hin Hs. simpl in *.
  apply In_store in Hin as [Hin|(c0 & Hin & _ & ->)]; [now apply Hr|].
  simpl in *. now apply (Hr c0).
Qed.

Lemma write_session_registered (v : string) (st : server) :
  sessions_registered st -> v = "" \/ In v (session_list st) ->
  sessions_registered (write_session p v st).
Proof.
  intros Hr Hv c' Hin Hs. simpl in *.
  apply In_store in Hin as [Hin|(c0 & Hin & _ & ->)]; [now apply Hr|].
  simpl in *. destruct Hv as [->|Hv]; [contradiction | assumption].
Qed.

Lemma In_unlink_session_other (d x : string) (l : list string) :
  In x l -> x <> d -> In x (unlink_session d l).
Proof.
  intros Hin Hx. induction l as [|y l IH]; simpl in *; [contradiction|].
  destruct (String.eqb_spec y d) as [->|E].
  - destruct Hin as [->|Hin]; [contradiction | assumption].
  - destruct Hin as [->|Hin]; [now left | right; now apply IH].
Qed.

Lemma In_unlink_session (d x : string) (l : list string) :
  In x (unlink_session d l) -> In x l.
Proof.
  induction l as [|y l IH]; simpl; [auto|].
  destruct (String.eqb y d); [auto|]. intros [->|H]; auto.
Qed.

Lemma remove_session_if_empty_registered (d : string) (st : server) :
  sessions_registered st -> sessions_registered (remove_session_if_empty d st).
Proof.
  intros Hr. unfold remove_session_if_empty.
  destruct (session_has_clients d st) eqn:Hm; [assumption|].
  intros c Hin Hs. simpl in *. apply In_unlink_session_other; [now apply Hr|].
  intro E. assert (session_has_clients d st = true); [|congruence].
  apply existsb_exists. exists c. split; [assumption | now apply String.eqb_eq].
Qed.

Lemma process_message_registered (msg : message) (st st' : server) (out : list effect) :
  sessions_registered st -> terminated (data msg) MAX_NAME ->
  process_message p msg st = Some (st', out) ->
  sessions_registered st'.
Proof.
  intros Hr Hb. unfold process_message.
  destruct (deref p st) as [c|] eqn:Hc; [|discriminate].
  intro H. injection H as H.
  assert (Hclear : sessions_registered (write_session p "" st))
    by (apply write_session_registered; auto).
  destruct (N.eqb (type msg) LOGIN).
  { destruct (_ && _); injection H as <- _; [|auto].
    now apply write_id_registered. }
  destruct (N.eqb (type msg) EXIT).
  { destruct (Nat.ltb 0 (String.length (session c))); injection H as <- _; [|auto].
    rewrite deref_write_session, Hc. cbn [option_map set_session session].
    rewrite (remove_own_session_noop p "" st c Hc). auto. }
  destruct (N.eqb (type msg) JOIN).
  { destruct (find_session (data msg) st) eqn:Hf; cbn [negb] in H;
      [|injection H as <- _; auto].
    destruct (negb (Nat.eqb (String.length (session c)) 0)); injection H as <- _; [auto|].
    apply find_session_In in Hf.
    apply write_session_registered; [assumption|]. right.
    unfold strncpy. rewrite substring_whole; [assumption|].
    unfold terminated in Hb. lia. }
  destruct (N.eqb (type msg) NEW_SESS).
  { destruct (negb (Nat.eqb (String.length (session c)) 0));
      [|destruct (find_session (data msg) st)];
      injection H as <- _; auto.
    apply write_session_registered; [|right; now left].
    intros c' Hin Hs. right. now apply Hr. }
  destruct (N.eqb (type msg) LEAVE_SESS).
  { destruct (Nat.eqb (String.length (session c)) 0); injection H as <- _; [auto|].
    now apply remove_session_if_empty_registered. }
  destruct (N.eqb (type msg) MESSAGE); [injection H as <- _; auto|].
  destruct (N.eqb (type msg) QUERY); injection H as <- _; auto.
Qed.

End RegisteredSessions.

(** I2 is kept by every call of [process_message] that runs alone on a
    frame whose payload is shorter than [MAX_NAME] bytes: if the current
    session of every client that has one is in the session list before the
    call, it is so after it.  (JOIN stores the name it found in the list,
    NEW_SESS registers the name it stores, and a session is unlinked only
    when no node holds its name.)  The converse does not hold: a registered
    session may have no member. *)
Theorem current_sessions_are_registered (st st' : server) (client : ptr) (msg : message)
    (out : list effect) :
  sessions_registered st -> terminated (data msg) MAX_NAME ->
  process_message client msg st = Some (st', out) ->
  sessions_registered st'.
Proof. apply process_message_registered. Qed.

Lemma current_sessions_are_registered_witness :
  process_message 2 (mkMessage JOIN 4 "y" "team")
    (mkServer [mkClient 2 8 "" ""; mkClient 1 7 "" "team"] ["team"]) =
    Some (mkServer [mkClient 2 8 "" "team"; mkClient 1 7 "" "team"] ["team"],
          [Send 8 ("6:14:server:Joined session" ++ String newline "")]) /\
  sessions_registered (mkServer [mkClient 2 8 "" "team"; mkClient 1 7 "" "team"] ["team"]).
Proof.
  split; [reflexivity|].
  apply (current_sessions_are_registered
           (mkServer [mkClient 2 8 "" ""; mkClient 1 7 "" "team"] ["team"])
           _ 2 (mkMessage JOIN 4 "y" "team")
           [Send 8 ("6:14:server:Joined session" ++ String newline "")]).
  - intros c [<-|[<-|[]]] Hs; [now elim Hs | now left].
  - unfold terminated, MAX_NAME. simpl. lia.
  - reflexivity.
Defined.

(** ** A whole connection *)

Lemma handle_client_loop_head (p : ptr) (l0 : list client_t) (fuel : nat) :
  forall (sock : string) (st st' : server) (out : list effect) (node : client_t),
  client_list st = node :: l0 -> addr node = p ->
  handle_client_loop fuel p sock st = Some (st', out) ->
  exists node', addr node' = p /\ sockfd node' = sockfd node /\
                client_list st' = node' :: l0.
Proof.
  induction fuel as [|fuel IH]; intros sock st st' out node Hl Ha H;
    cbn [handle_client_loop] in H;
    destruct (read_line sock LINE_BUFFER) as [[n buffer] rest];
    destruct (0 <? n)%Z; try discriminate;
    try (injection H as <- _; now exists node).
  destruct (handle_frame p (c_string buffer) st) as [[[st1 out1] k]|] eqn:Hf;
    [|discriminate].
  assert (H1 : exists node1, addr node1 = p /\ sockfd node1 = sockfd node /\
                             client_list st1 = node1 :: l0).
  { apply handle_frame_inv in Hf as [(_ & -> & _)|(fields & msg & _ & _ & Hp & _)];
      [now exists node|].
    destruct (process_message_shape _ _ _ _ _ Hp) as [E|[[v E]|(_ & _ & _ & E)]];
      rewrite E, Hl; [now exists node | |];
      simpl; rewrite Ha, Nat.eqb_refl;
      refine (ex_intro _ _ (conj _ (conj _ eq_refl))); simpl; congruence. }
  destruct H1 as (node1 & Ha1 & Hfd1 & Hl1).
  destruct k.
  - destruct (handle_client_loop fuel p rest st1) as [[st2 out2]|] eqn:Hloop; [|discriminate].
    injection H as <- _.
    destruct (IH _ _ _ _ _ Hl1 Ha1 Hloop) as (node' & ? & ? & ?).
    exists node'. repeat split; congruence.
  - injection H as <- _. exists node1. auto.
Qed.

(** A connection, from accept to teardown, leaves the client list as it
    found it, whatever bytes it sent: [handle_client] returns with the very
    list of clients it started from.  (The session list is another matter:
    what the connection created may stay.) *)
Theorem connection_leaves_client_list (fd : Z) (client : ptr) (sock : string)
    (st st' : server) (out : list effect) :
  handle_client fd client sock st = Some (st', out) ->
  client_list st' = client_list st.
Proof.
  unfold handle_client.
  destruct (handle_client_loop _ _ _ _) as [[st1 out1]|] eqn:Hloop; [|discriminate].
  intro H. injection H as <- _.
  destruct (handle_client_loop_head client (client_list st) _ _
              (add_client (mkClient client fd "" "") st) _ _
              (mkClient client fd "" "") eq_refl eq_refl Hloop) as (node' & Ha & _ & Hl).
  simpl. rewrite Hl. simpl. now rewrite Ha, Nat.eqb_refl.
Qed.

Lemma connection_leaves_client_list_witness :
  handle_client 8 2
    ("1:5:andy:12345" ++ String newline ("9:1:andy:T" ++ String newline "11:2:andy:hi"))
    (mkServer [mkClient 1 7 "ken" "S"] ["S"]) =
    Some (mkServer [mkClient 1 7 "ken" "S"] ["T"; "S"],
          [Send 8 ("2:16:server:Login successful" ++ String newline "");
           Send 8 ("10:15:server:Session created" ++ String newline "")]) /\
  client_list (mkServer [mkClient 1 7 "ken" "S"] ["T"; "S"]) = [mkClient 1 7 "ken" "S"].
Proof.
  split; [reflexivity|].
  exact (connection_leaves_client_list 8 2
           ("1:5:andy:12345" ++ String newline ("9:1:andy:T" ++ String newline "11:2:andy:hi"))
           (mkServer [mkClient 1 7 "ken" "S"] ["S"])
           (mkServer [mkClient 1 7 "ken" "S"] ["T"; "S"])
           [Send 8 ("2:16:server:Login successful" ++ String newline "");
            Send 8 ("10:15:server:Session created" ++ String newline "")]
           eq_refl).
Defined.

(** ** What the client makes of the server's replies *)

(** Every reply the server writes for LOGIN, JOIN, NEW_SESS and LEAVE_SESS
    is one line [type:size:server:text] whose size is the length of the
    text, and the client's [sscanf] reads that line back as the same type,
    size, source and text, whatever its [msg] held before. *)
Theorem replies_read_back (st st' : server) (client : ptr) (c : client_t)
    (msg : message) (out : list effect) :
  deref client st = Some c ->
  In (type msg) [LOGIN; JOIN; NEW_SESS; LEAVE_SESS] ->
  process_message client msg st = Some (st', out) ->
  exists reply,
    out = [Send (sockfd c) (frame_line reply ++ String newline "")] /\
    source reply = "server" /\
    size reply = N.of_nat (String.length (data reply)) /\
    forall uninit, sscanf_message (frame_line reply) uninit = (4%Z, reply).
Proof.
  intros Hc Ht Hp.
  assert (G : forall t text,
            (t < UINT_MODULUS)%N -> text <> "" -> String.length text < MAX_DATA ->
            without newline text = true ->
            out = send_message_to_client (sockfd c) (reply_text t text) ->
            exists reply,
              out = [Send (sockfd c) (frame_line reply ++ String newline "")] /\
              source reply = "server" /\
              size reply = N.of_nat (String.length (data reply)) /\
              forall uninit, sscanf_message (frame_line reply) uninit = (4%Z, reply)).
  { intros t text H1 H2 H3 H4 ->. exists (reply_text t text).
    split; [apply send_message_whole; now apply reply_text_fits|].
    split; [reflexivity|]. split; [reflexivity|].
    intro uninit. now apply client_parses_reply. }
  unfold process_message in Hp. rewrite Hc in Hp. injection Hp as Hp.
  simpl in Ht. destruct Ht as [Ht|[Ht|[Ht|[Ht|[]]]]]; symmetry in Ht; switch_on Ht;
    repeat match type of Hp with
           | (if ?b then _ else _) = _ => destruct b
           end;
    injection Hp as _ <-;
    (eapply G; [| | | |reflexivity];
     [reflexivity | discriminate | unfold MAX_DATA; simpl; lia | reflexivity]).
Qed.

Lemma replies_read_back_witness :
  exists reply,
    [Send 7 ("7:22:server:Session does not exist" ++ String newline "")] =
      [Send 7 (frame_line reply ++ String newline "")] /\
    source reply = "server" /\
    size reply = N.of_nat (String.length (data reply)) /\
    forall uninit, sscanf_message (frame_line reply) uninit = (4%Z, reply).
Proof.
  apply (replies_read_back (mkServer [mkClient 1 7 "ken" ""] [])
           (mkServer [mkClient 1 7 "ken" ""] []) 1 (mkClient 1 7 "ken" "")
           (mkMessage JOIN 1 "ken" "S")).
  - reflexivity.
  - simpl. auto.
  - reflexivity.
Defined.

(** ** Client and server together *)

Lemma strncpy_short (s : string) (n : nat) : String.length s <= n -> strncpy s n = s.
Proof. apply substring_whole. Qed.


(** A request of the client arrives: the line [send_message] writes is
    what the server's [read_line] returns, and its [sscanf] finds the
    message again. *)
Lemma request_arrives (fd : Z) (m : message) (rest : string) :
  message_fits m -> source m <> "" -> without colon (source m) = true ->
  without newline (source m) = true -> without newline (data m) = true ->
  Client.send_message fd m = [Client.SendLine fd (frame_line m ++ String newline "")] /\
  read_line ((frame_line m ++ String newline "") ++ rest) LINE_BUFFER =
    (Z.of_nat (String.length (frame_line m)), frame_line m, rest) /\
  sscanf_message (frame_line m) zero_message =
    ((if Nat.eqb (String.length (data m)) 0 then 3 else 4)%Z, m).
Proof.
  intros Hfit Hne Hcol Hnl Hd.
  pose proof (frame_line_length m Hfit) as L.
  split; [|split].
  - pose proof (send_message_whole fd m Hfit) as H.
    unfold send_message_to_client in H. injection H as H.
    unfold Client.send_message. now rewrite H.
  - rewrite string_app_assoc. cbn [append].
    apply read_line_app; [now apply frame_line_without_newline | lia].
  - now apply sscanf_frame_line.
Qed.

Lemma handle_frame_parsed (client : ptr) (m : message) (st : server) :
  message_fits m -> source m <> "" -> without colon (source m) = true ->
  without newline (data m) = true ->
  handle_frame client (frame_line m) st =
    match process_message client m st with
    | Some (st', out) => Some (st', out, negb (type m =? EXIT)%N)
    | None => None
    end.
Proof.
  intros Hfit Hne Hcol Hd. unfold handle_frame.
  rewrite sscanf_frame_line by assumption.
  now destruct (Nat.eqb (String.length (data m)) 0).
Qed.

Section Agreement.

Variables (st : server) (client : ptr) (c : client_t) (cs : Client.state).
Variable session_id : string.

Hypothesis linked : deref client st = Some c.
Hypothesis logged_in : Client.loggedIn cs = true.
Hypothesis id_given : Client.client_id cs <> "".
Hypothesis id_fits : String.length (Client.client_id cs) < MAX_NAME.
Hypothesis id_plain :
  without colon (Client.client_id cs) = true /\ without newline (Client.client_id cs) = true.
Hypothesis name_given : session_id <> "".
Hypothesis name_fits : String.length session_id < MAX_DATA.
Hypothesis name_plain : without newline session_id = true.
Hypothesis no_session : session c = "" /\ Client.current_session cs = "".

Local Abbreviation request t :=
  (mkMessage t (N.of_nat (String.length session_id)) (Client.client_id cs) session_id).





End Agreement.



(** After /leavesession, client and server agree that the client has no
    session: the client clears its own without waiting, the server clears
    the one it holds on reading the line, and the "Left session" reply
    changes nothing in the client. *)
Theorem leave_keeps_agreement (st : server) (client : ptr) (c : client_t)
    (cs : Client.state) (uninit : message) :
  deref client st = Some c ->
  Client.loggedIn cs = true ->
  Client.client_id cs <> "" ->
  String.length (Client.client_id cs) < MAX_NAME ->
  without colon (Client.client_id cs) = true ->
  without newline (Client.client_id cs) = true ->
  session c <> "" ->
  Client.current_session cs <> "" ->
  exists line st' reply c' cs1,
    Client.handle_leave_session cs =
      (cs1, [Client.SendLine (Client.sockfd cs) (line ++ String newline "")]) /\
    handle_frame client line st =
      Some (st', [Send (sockfd c) (frame_line reply ++ String newline "")], true) /\
    deref client st' = Some c' /\
    Client.receive_frame (frame_line reply) uninit cs1 = (cs1, []) /\
    Client.current_session cs1 = "" /\ session c' = "".
Proof.
  intros Hc Hlog Hid Hlen Hcol Hnl Hs Hcur.
  set (m := mkMessage LEAVE_SESS 0 (Client.client_id cs) "").
  assert (Hfit : message_fits m).
  { unfold message_fits, m, UINT_MODULUS, MAX_DATA. simpl.
    repeat split; try reflexivity; try assumption; lia. }
  exists (frame_line m), (write_session client "" st),
         (reply_text LEAVE_SESS "Left session"), (set_session "" c),
         (Client.mkState (Client.sockfd cs) true "" (Client.pending_session cs)
            (Client.client_id cs)).
  split; [|split; [|split; [|split; [|split; reflexivity]]]].
  - unfold Client.handle_leave_session. rewrite Hlog, (nonempty_length _ Hcur). cbn [negb].
    rewrite (strncpy_short (Client.client_id cs)) by lia. fold m.
    now destruct (request_arrives (Client.sockfd cs) m "" Hfit Hid Hcol Hnl eq_refl) as [-> _].
  - rewrite handle_frame_parsed by (assumption || reflexivity).
    unfold process_message. rewrite Hc.
    cbn [m type data N.eqb Pos.eqb LOGIN EXIT JOIN NEW_SESS LEAVE_SESS].
    rewrite (nonempty_length _ Hs), (remove_own_session_noop client "" st c Hc).
    rewrite send_message_whole by (now apply reply_text_fits). reflexivity.
  - now rewrite deref_write_session, Hc.
  - unfold Client.receive_frame.
    rewrite client_parses_reply by (try reflexivity; try discriminate; unfold MAX_DATA; simpl; lia).
    reflexivity.
Qed.

Lemma leave_keeps_agreement_witness :
  exists line st' reply c' cs1,
    Client.handle_leave_session (Client.mkState 3 true "S" "" "ken") =
      (cs1, [Client.SendLine 3 (line ++ String newline "")]) /\
    handle_frame 1 line (mkServer [mkClient 1 7 "ken" "S"] ["S"]) =
      Some (st', [Send 7 (frame_line reply ++ String newline "")], true) /\
    deref 1 st' = Some c' /\
    Client.receive_frame (frame_line reply) zero_message cs1 = (cs1, []) /\
    Client.current_session cs1 = "" /\ session c' = "".
Proof.
  apply (leave_keeps_agreement (mkServer [mkClient 1 7 "ken" "S"] ["S"]) 1
           (mkClient 1 7 "ken" "S") (Client.mkState 3 true "S" "" "ken") zero_message);
    try reflexivity; try discriminate; unfold MAX_NAME; simpl; lia.
Defined.

(** ** The command loop of the client *)



Lemma split_spaces_pending (s tok : string) :
  tok <> "" -> Client.split_spaces s tok <> [].
Proof.
  revert tok. induction s as [|c s IH]; intros tok Ht; simpl.
  - destruct tok; [contradiction | discriminate].
  - destruct (Ascii.eqb c " "); [destruct tok; [contradiction | discriminate]|].
    apply IH. destruct tok; discriminate.
Qed.

(** [strtok] finds a command in every line that starts with ['/']. *)
Lemma strtok_all_command (c : ascii) (s : string) :
  Ascii.eqb c "/" = true -> Client.strtok_all (String c s) <> [].
Proof.
  intro H. apply Ascii.eqb_eq in H. subst c. unfold Client.strtok_all.
  cbn [Client.split_spaces Ascii.eqb Bool.eqb append]. apply split_spaces_pending. discriminate.
Qed.

(** A client that is not logged in writes nothing to a socket, whatever
    line it reads, except the LOGIN frame of a /login that connected; and it
    counts itself logged in exactly when that frame was sent, before the
    server has answered LO_ACK or LO_NAK.  Any other line leaves it as it
    was. *)
Theorem logged_out_sends_login_only (w : Client.world) (raw : string)
    (cs cs' : Client.state) (out : list Client.output) (continue : bool) :
  Client.loggedIn cs = false ->
  Client.main_pass w raw cs = (cs', out, continue) ->
  (Client.sent out = [] /\ Client.loggedIn cs' = false /\
   Client.current_session cs' = Client.current_session cs) \/
  (exists fd msg,
     Client.connect w = Client.Connected fd /\ Client.send_ok w = true /\
     out = Client.send_message fd msg /\ type msg = LOGIN /\
     Client.loggedIn cs' = true /\ Client.sockfd cs' = fd).
Proof.
  intros Hlog. unfold Client.main_pass.
  set (input := fst (scan_until newline raw)).
  destruct (match input with String c _ => Ascii.eqb c "/" | EmptyString => false end).
  - destruct (Client.strtok_all input) as [|command args];
      [intro H; injection H as <- <- _; auto|].
    destruct (String.eqb command "/login").
    { destruct args as [|clientID [|password [|ip [|port rest]]]];
        try (intro H; injection H as <- <- _; now left).
      unfold Client.handle_login.
      destruct (Client.connect w) as [|fd|fd|fd] eqn:Hw;
        try (intro H; injection H as <- <- _; now left).
      destruct (Client.send_ok w) eqn:Hs; intro H; injection H as <- <- _;
        [right; eexists _, _; repeat split | now left]. }
    rewrite Hlog. cbn [negb].
    repeat match goal with
           | |- (if ?b then _ else _) = _ -> _ => destruct b
           end;
      intro H; injection H as <- <- _; now left.
  - rewrite Hlog. cbn [negb]. intro H. injection H as <- <- _. now left.
Qed.

Lemma logged_out_sends_login_only_witness :
  Client.main_pass (Client.mkWorld (Client.Connected 3) true)
    ("/login ken 12345 127.0.0.1 5000" ++ String newline "")
    (Client.mkState (-1) false "" "" "") =
    (Client.mkState 3 true "" "" "ken",
     [Client.SendLine 3 ("1:5:ken:12345" ++ String newline "")], true) /\
  ((Client.sent [Client.SendLine 3 ("1:5:ken:12345" ++ String newline "")] = [] /\
    Client.loggedIn (Client.mkState 3 true "" "" "ken") = false /\
    Client.current_session (Client.mkState 3 true "" "" "ken") = "") \/
   (exists fd msg,
      Client.Connected 3 = Client.Connected fd /\ true = true /\
      [Client.SendLine 3 ("1:5:ken:12345" ++ String newline "")] =
        Client.send_message fd msg /\ type msg = LOGIN /\
      Client.loggedIn (Client.mkState 3 true "" "" "ken") = true /\
      Client.sockfd (Client.mkState 3 true "" "" "ken") = fd)).
Proof.
  split; [reflexivity|].
  exact (logged_out_sends_login_only (Client.mkWorld (Client.Connected 3) true)
           ("/login ken 12345 127.0.0.1 5000" ++ String newline "")
           (Client.mkState (-1) false "" "" "") (Client.mkState 3 true "" "" "ken")
           [Client.SendLine 3 ("1:5:ken:12345" ++ String newline "")] true
           eq_refl eq_refl).
Defined.

Lemma strtok_all_command_witness : Client.strtok_all "/list  now" <> [].
Proof. exact (strtok_all_command "/" "list  now" eq_refl). Defined.

Lemma scan_until_fst_app (stop c : ascii) (a rest : string) :
  without stop a = true -> Ascii.eqb c stop = false ->
  fst (scan_until stop (a ++ String c rest)) = a ++ String c (fst (scan_until stop rest)).
Proof.
  unfold without. intros Ha Hc. induction a as [|x a IH]; cbn [append scan_until].
  - rewrite Hc. now destruct (scan_until stop rest).
  - cbn [string_forall] in Ha. apply andb_prop in Ha as [Hx Ha].
    apply negb_true_iff in Hx. rewrite Hx.
    specialize (IH Ha). destruct (scan_until stop (a ++ String c rest)).
    cbn [fst] in *. now rewrite IH.
Qed.

Lemma split_spaces_token (a rest : string) : forall tok,
  without " " a = true -> tok ++ a <> "" ->
  Client.split_spaces (a ++ String " " rest) tok = (tok ++ a) :: Client.split_spaces rest "".
Proof.
  unfold without. induction a as [|x a IH]; intros tok Ha Hne.
  - rewrite string_app_nil_r in *. cbn [append Client.split_spaces].
    change (Ascii.eqb " " " ") with true. cbv iota.
    destruct tok; [contradiction | reflexivity].
  - cbn [string_forall] in Ha. apply andb_prop in Ha as [Hx Ha].
    apply negb_true_iff in Hx.
    cbn [append Client.split_spaces]. rewrite Hx.
    rewrite IH by (try assumption; destruct tok; discriminate).
    now rewrite string_app_assoc.
Qed.

(** The current session outlives the connection.  When the server closes
    the connection, the receive loop clears [loggedIn] only; a later /login
    that connects sets [loggedIn] again and leaves [current_session] as it
    was.  The client then refuses /joinsession and /createsession on its
    own ("already in a session"), while a line it sends as a MESSAGE is
    dropped without a reply by the server, which holds the new connection in
    no session. *)
Theorem session_outlives_connection (cs : Client.state) (uninit : message)
    (w w' : Client.world) (clientID password session_id text : string) (fd : Z)
    (st : server) (client : ptr) (c : client_t) :
  Client.current_session cs <> "" ->
  Client.connect w = Client.Connected fd ->
  Client.send_ok w = true ->
  Client.send_ok w' = true ->
  clientID <> "" ->
  String.length clientID < MAX_NAME ->
  without colon clientID = true ->
  without newline clientID = true ->
  text <> "" ->
  (forall t, text <> String "/" t) ->
  String.length text < MAX_DATA ->
  without newline text = true ->
  deref client st = Some c ->
  session c = "" ->
  exists cs1 cs2 out1 line,
    Client.receive_pass "" uninit cs = (cs1, out1, None) /\
    Client.loggedIn cs1 = false /\
    cs2 = fst (Client.handle_login w clientID password cs1) /\
    Client.loggedIn cs2 = true /\
    Client.current_session cs2 = Client.current_session cs /\
    Client.main_pass w' ("/joinsession " ++ session_id) cs2 =
      (cs2, [Client.warning
               "Already in a session. Leave current session before joining another."],
       true) /\
    Client.main_pass w' ("/createsession " ++ session_id) cs2 =
      (cs2, [Client.warning "Leave current session to create a new one."], true) /\
    Client.main_pass w' (text ++ String newline "") cs2 =
      (cs2, [Client.SendLine fd (line ++ String newline "")], true) /\
    handle_frame client line st = Some (st, [], true).
Proof.
  intros Hcur Hw Hs Hs' Hid Hlen Hcol Hnl Htext Hslash Htlen Htnl Hc Hsess.
  set (cs1 := Client.mkState (Client.sockfd cs) false (Client.current_session cs)
                (Client.pending_session cs) (Client.client_id cs)).
  set (cs2 := Client.mkState fd true (Client.current_session cs)
                (Client.pending_session cs) clientID).
  set (m := mkMessage MESSAGE (N.of_nat (String.length text)) clientID text).
  assert (Hfit : message_fits m).
  { unfold message_fits, m, UINT_MODULUS, MAX_DATA in *. simpl.
    change (2 ^ 32)%N with 4294967296%N. repeat split; try assumption; lia. }
  assert (Hlogin : fst (Client.handle_login w clientID password cs1) = cs2).
  { unfold Client.handle_login. rewrite Hw, Hs. cbn [fst].
    unfold cs2. now rewrite (strncpy_short clientID) by lia. }
  exists cs1, cs2, [Client.Stdout ("Disconnected from server." ++ String newline "")],
         (frame_line m).
  split; [reflexivity|]. split; [reflexivity|]. split; [now rewrite Hlogin|].
  split; [reflexivity|]. split; [reflexivity|].
  split; [|split; [|split]].
  - unfold Client.main_pass. cbv zeta.
    change ("/joinsession " ++ session_id) with ("/joinsession" ++ String " " session_id).
    rewrite scan_until_fst_app by reflexivity. unfold Client.strtok_all.
    rewrite (split_spaces_token "/joinsession" _ "") by (reflexivity || discriminate).
    cbn [append Ascii.eqb Bool.eqb String.eqb].
    change (Client.loggedIn cs2) with true.
    change (Client.current_session cs2) with (Client.current_session cs).
    cbn [negb]. now rewrite (nonempty_length _ Hcur).
  - unfold Client.main_pass. cbv zeta.
    change ("/createsession " ++ session_id) with ("/createsession" ++ String " " session_id).
    rewrite scan_until_fst_app by reflexivity. unfold Client.strtok_all.
    rewrite (split_spaces_token "/createsession" _ "") by (reflexivity || discriminate).
    cbn [append Ascii.eqb Bool.eqb String.eqb].
    change (Client.loggedIn cs2) with true.
    change (Client.current_session cs2) with (Client.current_session cs).
    cbn [negb]. now rewrite (nonempty_length _ Hcur).
  - unfold Client.main_pass.
    rewrite (scan_until_app newline text "" Htnl). cbn [fst].
    destruct text as [|ch t]; [contradiction|].
    destruct (Ascii.eqb_spec ch "/") as [->|_]; [now elim (Hslash t)|].
    change (Client.loggedIn cs2) with true.
    change (Client.current_session cs2) with (Client.current_session cs).
    change (Client.client_id cs2) with clientID.
    change (Client.sockfd cs2) with fd.
    cbn [negb]. rewrite (nonempty_length _ Hcur), Hs'.
    rewrite (strncpy_short (String ch t) MAX_DATA), (strncpy_short clientID) by lia.
    fold m.
    now destruct (request_arrives fd m "" Hfit Hid Hcol Hnl Htnl) as [-> _].
  - rewrite handle_frame_parsed by assumption.
    unfold process_message. rewrite Hc.
    cbn [m type N.eqb Pos.eqb LOGIN EXIT JOIN NEW_SESS LEAVE_SESS MESSAGE].
    now rewrite Hsess.
Qed.

Lemma session_outlives_connection_witness :
  exists cs1 cs2 out1 line,
    Client.receive_pass "" zero_message (Client.mkState 3 true "S" "" "ken") =
      (cs1, out1, None) /\
    Client.loggedIn cs1 = false /\
    cs2 = fst (Client.handle_login (Client.mkWorld (Client.Connected 5) true)
                 "ken" "12345" cs1) /\
    Client.loggedIn cs2 = true /\
    Client.current_session cs2 = "S" /\
    Client.main_pass (Client.mkWorld Client.SocketFailed true)
      ("/joinsession " ++ ("T" ++ String newline "")) cs2 =
      (cs2, [Client.warning
               "Already in a session. Leave current session before joining another."],
       true) /\
    Client.main_pass (Client.mkWorld Client.SocketFailed true)
      ("/createsession " ++ ("T" ++ String newline "")) cs2 =
      (cs2, [Client.warning "Leave current session to create a new one."], true) /\
    Client.main_pass (Client.mkWorld Client.SocketFailed true)
      ("hello" ++ String newline "") cs2 =
      (cs2, [Client.SendLine 5 (line ++ String newline "")], true) /\
    handle_frame 2 line (mkServer [mkClient 2 9 "ken" ""] ["S"]) =
      Some (mkServer [mkClient 2 9 "ken" ""] ["S"], [], true).
Proof.
  apply (session_outlives_connection (Client.mkState 3 true "S" "" "ken") zero_message
           (Client.mkWorld (Client.Connected 5) true)
           (Client.mkWorld Client.SocketFailed true)
           "ken" "12345" ("T" ++ String newline "") "hello" 5
           (mkServer [mkClient 2 9 "ken" ""] ["S"]) 2 (mkClient 2 9 "ken" ""));
    try reflexivity; try discriminate; unfold MAX_NAME, MAX_DATA; simpl; lia.
Defined.

(** ** The source field *)

(** The server reads the source field of a frame at LOGIN only.  For every
    other request that gets a reply or changes the state, the outcome is
    the same whatever the frame names as its source; a MESSAGE is forwarded
    with the source it came with, which need not be the identifier the
    connection logged in as. *)
Theorem source_field_ignored (st : server) (client : ptr) (msg : message) (s : string) :
  type msg <> LOGIN ->
  (type msg <> MESSAGE ->
     process_message client (set_source msg s) st = process_message client msg st) /\
  (type msg = MESSAGE ->
     forall c, deref client st = Some c -> session c <> "" ->
       process_message client (set_source msg s) st =
         Some (st, broadcast_message (session c) (set_source msg s) (id c) st)).
Proof.
  intro Ht. split.
  - intro Hm. unfold process_message. destruct (deref client st) as [c|]; [|reflexivity].
    cbn [set_source type data].
    destruct (N.eqb_spec (type msg) LOGIN) as [E|_]; [contradiction|].
    destruct (N.eqb_spec (type msg) MESSAGE) as [E|_]; [contradiction|].
    reflexivity.
  - intros Hm c Hc Hs. unfold process_message. rewrite Hc. cbn [set_source type].
    switch_on Hm. now rewrite (nonempty_ltb _ Hs).
Qed.

Lemma source_field_ignored_witness :
  process_message 1 (mkMessage NEW_SESS 1 "somebody else" "S")
    (mkServer [mkClient 1 7 "ken" ""] []) =
  process_message 1 (mkMessage NEW_SESS 1 "ken" "S") (mkServer [mkClient 1 7 "ken" ""] []).
Proof.
  exact (proj1 (source_field_ignored (mkServer [mkClient 1 7 "ken" ""] []) 1
                  (mkMessage NEW_SESS 1 "ken" "S") "somebody else" ltac:(discriminate))
           ltac:(discriminate)).
Defined.
